(** * Meat quality monitor: ingestion, simulation and fusion core

    A shallow embedding of the decision logic of the repository
    (config.py, mock_data.py, mqtt_client_simple.py, mqtt_client.py,
    db_manager.py and the fusion block of app.py) together with the
    properties its design document states about it.

    Conventions.
    - Python floats that are only compared against constants are rationals
      ([Q]); a comparison [a >= b] is [Qle_bool b a].  Finite floats are
      read as the rationals they denote; float rounding is not modelled.
    - The Q10 law of the decay model needs a real power, so the decay model
      is stated over [R]: rounding is not modelled, the [OverflowError] of
      [2.0 ** x] is.
    - Python dictionaries are [gmap string _]; [d.get(k, v)] is
      [default v (d !! k)].
    - Status values stay the strings the code passes around. *)

From Stdlib Require Import QArith Qround Reals Psatz ZArith Ascii String Sorted.
From stdpp Require Import gmap strings list.

Set Warnings "-register-all".
Local Open Scope string_scope.

(* ===================================================================== *)
(** ** config.py *)
(* ===================================================================== *)

Module Config.

Definition MQTT_TOPIC : string := "meat-quality/data".
Definition MQTT_STATUS_TOPIC : string := "meat-quality/status".
Definition MQTT_LWT_TOPIC : string := "meat-quality/lwt".
Definition MQTT_RECONNECT_DELAY : Z := 5.

Definition DB_RETENTION_DAYS : Z := 30.

Definition H2S_FRESH_THRESHOLD : Q := 10.0.
Definition H2S_WARNING_THRESHOLD : Q := 50.0.
Definition H2S_CRITICAL_THRESHOLD : Q := 100.0.

Definition NH3_FRESH_THRESHOLD : Q := 25.0.
Definition NH3_WARNING_THRESHOLD : Q := 100.0.
Definition NH3_CRITICAL_THRESHOLD : Q := 200.0.

Definition CO2_FRESH_THRESHOLD : Q := 400.0.
Definition CO2_WARNING_THRESHOLD : Q := 800.0.
Definition CO2_CRITICAL_THRESHOLD : Q := 1200.0.

Definition QUALITY_LEVEL_MAP : gmap string string :=
  <["EXCELLENT" := "SAFE"]>
  (<["GOOD" := "SAFE"]>
  (<["FAIR" := "WARNING"]>
  (<["POOR" := "WARNING"]>
  (<["SPOILED" := "SPOILED"]> ∅)))).

Definition QUALITY_COLORS : gmap string string :=
  <["SAFE" := "#00AA00"]>
  (<["WARNING" := "#FF9800"]>
  (<["SPOILED" := "#FF0000"]>
  (<["CRITICAL" := "#8B0000"]> ∅))).

End Config.

(* ===================================================================== *)
(** ** Severity levels (design document, data model) *)
(* ===================================================================== *)

(** The ordered enumeration [SAFE < WARNING < SPOILED < CRITICAL].  The code
    has no such type: it passes the four names as strings.  The enumeration
    is used to state properties of those strings. *)
Inductive Severity : Type := SAFE | WARNING | SPOILED | CRITICAL.

Definition severity_rank (s : Severity) : nat :=
  match s with SAFE => 0 | WARNING => 1 | SPOILED => 2 | CRITICAL => 3 end.

Definition severity_name (s : Severity) : string :=
  match s with
  | SAFE => "SAFE" | WARNING => "WARNING"
  | SPOILED => "SPOILED" | CRITICAL => "CRITICAL"
  end.

Definition severity_of_name (n : string) : option Severity :=
  if String.eqb n "SAFE" then Some SAFE
  else if String.eqb n "WARNING" then Some WARNING
  else if String.eqb n "SPOILED" then Some SPOILED
  else if String.eqb n "CRITICAL" then Some CRITICAL
  else None.

(** The more severe of two levels. *)
Definition more_severe (a b : Severity) : Severity :=
  if Nat.leb (severity_rank a) (severity_rank b) then b else a.

(* ===================================================================== *)
(** ** Exceptions *)
(* ===================================================================== *)

(** Exception classes; every one of them derives from [Exception]. *)
Inductive exn : Type :=
| JSONDecodeError
| UnicodeDecodeError
| UnicodeEncodeError
| AttributeError
| KeyError
| TypeError
| ValueError
| IntegrityError
| InterfaceError
| OperationalError
| OverflowError
| UserError.

(** How a call ends: it returns a value or raises. *)
Inductive outcome (A : Type) : Type :=
| Returned (a : A)
| Raised (e : exn).
Arguments Returned {A} a.
Arguments Raised {A} e.

(* ===================================================================== *)
(** ** mock_data.py *)
(* ===================================================================== *)

Module MockData.

(** [get_fusion_decision(visual_result, gas_readings)], returning the pair
    (status, colour). *)
Definition get_fusion_decision (visual_result : string)
    (gas_readings : gmap string Q) : string * string :=
  let h2s := default 0%Q (gas_readings !! "h2s_ppm") in
  let methane := default 0%Q (gas_readings !! "methane_ppm") in
  let H2S_WARNING := 10%Q in
  let H2S_CRITICAL := 50%Q in
  let METHANE_WARNING := 25%Q in
  let METHANE_CRITICAL := 100%Q in
  let gas_critical :=
    Qle_bool H2S_CRITICAL h2s || Qle_bool METHANE_CRITICAL methane in
  let gas_warning :=
    Qle_bool H2S_WARNING h2s || Qle_bool METHANE_WARNING methane in
  let gas_low := negb gas_warning in
  if String.eqb visual_result "Rotten" || gas_critical then
    ("CRITICAL", "#8B0000")
  else if String.eqb visual_result "Fresh" && gas_low then
    ("SAFE", "#00AA00")
  else if String.eqb visual_result "Fresh" && gas_warning then
    ("WARNING", "#FF9800")
  else if String.eqb visual_result "Rotten" && gas_low then
    ("SPOILED", "#FF0000")
  else
    ("WARNING", "#FFC107").

(** The constants of [MeatDecaySimulator.__init__] that the temperature
    factor reads. *)
Definition q10_coefficient : R := 2.0%R.
Definition reference_temp : R := 25.0%R.

(** A float holds no number from [2 ** 1024] on, and [**] on floats raises
    [OverflowError] rather than return infinity: with the base 2.0 of the
    code, from the exponent 1024 on. *)
Definition FLOAT_MAX_EXP : R := 1024%R.

(** [MeatDecaySimulator._get_temperature_factor].  [a ** b] for a positive
    base is [Rpower a b] where the result fits a float; [max(0.1, factor)]
    is [Rmax].  The argument is a finite float, read as the real number it
    denotes; the two floats that denote none are outside this model (at
    [inf] the power is [inf] and nothing is raised, at NaN the function
    returns 0.1). *)
Definition _get_temperature_factor (temp_c : R) : outcome R :=
  if Rle_dec temp_c 0 then Returned 0.1%R
  else
    let delta_temp := (temp_c - reference_temp)%R in
    let exponent := (delta_temp / 10.0)%R in
    if Rle_dec FLOAT_MAX_EXP exponent then Raised OverflowError
    else
      let factor := Rpower q10_coefficient exponent in
      Returned (Rmax 0.1%R factor).

End MockData.

(* ===================================================================== *)
(** ** Python values, exceptions and the process state *)
(* ===================================================================== *)

Module Py.

(** The Python values that reach the ingestion path: what [json.loads]
    returns, plus [datetime] objects.  A JSON number written without
    fraction or exponent is an [int], of any size; every other number is a
    [float]: a finite one ([PNum]), an infinity (as [json.loads] reads
    [1e999] and [Infinity]) or NaN (as it reads [NaN]).  A [str] may hold
    a lone surrogate (as [json.loads] reads the escape [\ud800]); it then
    has no UTF-8 encoding. *)
Inductive pyval : Type :=
| PNone
| PBool (b : bool)
| PInt (z : Z)
| PNum (q : Q)
| PInf (negative : bool)
| PNaN
| PStr (s : string)
| PDateTime (t : Z)
| PList (l : list pyval)
| PDict (d : gmap string pyval).

Inductive level : Type := LDEBUG | LINFO | LWARNING | LERROR.

(** One call of a [logger] method.  [text] is the constant part of the
    formatted message. *)
Record LogRecord : Type := mkLog { lvl : level; text : string }.

(** A text of ASCII characters only. *)
Definition is_ascii (s : string) : bool :=
  forallb (fun c => N.ltb (N_of_ascii c) 128) (list_ascii_of_string s).

(** Library functions the repository calls but does not define; [None]
    stands for the exception each of them raises on bad input.
    [fromtimestamp] takes a finite number of seconds and gives the local
    time, or the exception it raises outside the range of the platform.
    [encodable] tells whether [s.encode('utf-8')] succeeds, that is whether
    the text holds no lone surrogate.  The facts used about them are that
    [json.dumps({})] is the text of the empty object and that ASCII text
    can be encoded. *)
Class Library : Type := {
  utf8_decode : list Byte.byte -> option string;   (* bytes.decode('utf-8') *)
  json_loads : string -> option pyval;             (* json.loads *)
  json_dumps : pyval -> option string;             (* json.dumps *)
  fromisoformat : string -> option Z;              (* datetime.fromisoformat *)
  fromtimestamp : Q -> exn + Z;                    (* datetime.fromtimestamp *)
  encodable : string -> bool;                      (* str.encode('utf-8') *)
  json_dumps_empty : json_dumps (PDict ∅) = Some "{}";
  encodable_ascii : forall s, is_ascii s = true -> encodable s = true
}.

(** [d.get(key, dflt)] on an arbitrary value: only dictionaries have
    [get]. *)
Definition get (v : pyval) (key : string) (dflt : pyval) : exn + pyval :=
  match v with
  | PDict d => inr (default dflt (d !! key))
  | _ => inl AttributeError
  end.

(** The integers that have no [float]: those that round to [2 ** 1024] or
    beyond.  Converting one raises [OverflowError]. *)
Definition FLOAT_INT_LIMIT : Z := (2 ^ 1024 - 2 ^ 970)%Z.

(** [format(v, '.2f')] and [format(v, '.1f')]: [None] when it succeeds,
    otherwise the exception raised.  An [int] is converted to [float]
    first. *)
Definition format_f (v : pyval) : option exn :=
  match v with
  | PInt z =>
      if (FLOAT_INT_LIMIT <=? Z.abs z)%Z then Some OverflowError else None
  | PNum _ | PInf _ | PNaN | PBool _ | PDateTime _ => None
  | PStr _ => Some ValueError
  | PNone | PList _ | PDict _ => Some TypeError
  end.

(** [s.replace('Z', '+00:00')]. *)
Fixpoint replace_Z (s : string) : string :=
  match s with
  | EmptyString => EmptyString
  | String c r =>
      if Ascii.eqb c "Z"%char then "+00:00" ++ replace_Z r
      else String c (replace_Z r)
  end.

End Py.
Export Py.

(* ===================================================================== *)
(** ** The Reading Store tables and the client object *)
(* ===================================================================== *)

(** A row of [sensor_readings].  Times are microseconds since the epoch.
    The other columns hold the Python value bound for them.  (SQLite's
    column affinity may then change the storage class: an [int], a [bool]
    or a number-like text bound for a REAL column is stored as the float of
    equal value; floats, other texts and NULL are kept as they are.) *)
Record SensorReading : Type := mkSensorReading {
  sr_id : Z;
  sr_timestamp : Z;
  device_id : pyval;
  temperature : pyval;
  humidity : pyval;
  mq135_co2 : pyval;
  mq136_h2s : pyval;
  mq137_nh3 : pyval;
  quality_level : pyval;
  wifi_rssi : pyval;
  sensor_status : string
}.

Record VisualPrediction : Type := mkVisualPrediction {
  vp_id : Z;
  vp_timestamp : Z;
  species : pyval;
  vp_visual_status : pyval;
  confidence : pyval
}.

Record FusionDecision : Type := mkFusionDecision {
  fd_id : Z;
  fd_timestamp : Z;
  fd_visual_status : pyval;
  gas_status : pyval;
  fusion_status : pyval
}.

(** The SQLite file: three tables and the AUTOINCREMENT counter of the
    first, the largest identifier it has ever used (SQLite keeps it in
    [sqlite_sequence], never below an identifier of the table). *)
Record Database : Type := mkDatabase {
  sensor_readings : list SensorReading;
  sensor_seq : Z;
  visual_predictions : list VisualPrediction;
  fusion_decisions : list FusionDecision
}.

(** The fields of [SimpleMQTTClient] that message handling reads or writes.
    The message callback is caller code: it is handed the topic and the
    payload and either returns or raises.  What else it may do to the
    process is not part of the model: the properties of the handler's
    effect on the store and on the client are stated for a client without
    a callback. *)
Record SimpleMQTTClient : Type := mkSimpleMQTTClient {
  topic : string;
  connected : bool;
  last_message : option string;
  on_message_callback : option (string -> string -> option exn)
}.

(** The process: the store singleton, the client singleton, what has been
    logged, and the wall clock. *)
Record World : Type := mkWorld {
  db : Database;
  client : SimpleMQTTClient;
  logs : list LogRecord;
  clock : Z
}.

(* ===================================================================== *)
(** ** Statements that may raise: a state and exception monad *)
(* ===================================================================== *)

Definition M (A : Type) : Type := World -> outcome A * World.

#[global] Instance M_ret : MRet M := fun A a w => (Returned a, w).

#[global] Instance M_bind : MBind M := fun A B f m w =>
  match m w with
  | (Returned a, w') => f a w'
  | (Raised e, w') => (Raised e, w')
  end.

Definition raise {A : Type} (e : exn) : M A := fun w => (Raised e, w).

(** [try: body / except Exception as e: handler e]. *)
Definition try_except {A : Type} (body : M A) (handler : exn -> M A) : M A :=
  fun w =>
    match body w with
    | (Returned a, w') => (Returned a, w')
    | (Raised e, w') => handler e w'
    end.

Definition lift {A : Type} (r : exn + A) : M A :=
  match r with inl e => raise e | inr a => mret a end.

Definition log (l : level) (t : string) : M unit := fun w =>
  (Returned tt,
   mkWorld (db w) (client w) (logs w ++ [mkLog l t]) (clock w)).

(** [datetime.now()].  The wall clock is part of the process state; it is
    the environment that moves it, between calls. *)
Definition datetime_now : M Z := fun w => (Returned (clock w), w).

Definition get_db : M Database := fun w => (Returned (db w), w).

Definition put_db (d : Database) : M unit := fun w =>
  (Returned tt, mkWorld d (client w) (logs w) (clock w)).

Definition get_self : M SimpleMQTTClient := fun w => (Returned (client w), w).

Definition put_self (c : SimpleMQTTClient) : M unit := fun w =>
  (Returned tt, mkWorld (db w) c (logs w) (clock w)).

(* ===================================================================== *)
(** ** db_manager.py *)
(* ===================================================================== *)

Module DbManager.

Section WithLibrary.
Context `{Library}.

(** [data[key]]. *)
Definition getitem (data : gmap string pyval) (key : string) : M pyval :=
  match data !! key with
  | Some v => mret v
  | None => raise KeyError
  end.

(** The range of an SQLite INTEGER. *)
Definition INT64_MAX : Z := 9223372036854775807.
Definition INT64_MIN : Z := (-9223372036854775808)%Z.

(** What [sqlite3] raises for a statement parameter it cannot bind: a list
    or a dictionary has no SQLite type ([InterfaceError], a
    [ProgrammingError] from Python 3.11 on), an [int] outside 64 bits does
    not fit an INTEGER, a text is bound as its UTF-8 encoding and must have
    one.  [None] when the value binds. *)
Definition bind_error (v : pyval) : option exn :=
  match v with
  | PList _ | PDict _ => Some InterfaceError
  | PInt z =>
      if (z <? INT64_MIN)%Z || (INT64_MAX <? z)%Z then Some OverflowError
      else None
  | PStr s => if encodable s then None else Some UnicodeEncodeError
  | PNone | PBool _ | PNum _ | PInf _ | PNaN | PDateTime _ => None
  end.

(** The values that are bound as NULL: [None], and NaN. *)
Definition binds_null (v : pyval) : bool :=
  match v with PNone | PNaN => true | _ => false end.

(** What a nullable column then holds. *)
Definition stored (v : pyval) : pyval :=
  if binds_null v then PNone else v.

(** [cursor.execute('INSERT INTO sensor_readings ...', params)]: the
    parameters are bound in order, and the first that cannot be bound
    raises; then the NOT NULL columns must not be NULL; then AUTOINCREMENT
    gives the row the identifier after the largest ever used, and refuses
    the row ("database or disk is full") once the largest 64-bit integer
    has been used. *)
Definition execute_insert_sensor (timestamp : Z)
    (device temp hum co2 h2s nh3 quality rssi : pyval) (status : string)
    : M Z :=
  match omap bind_error [device; temp; hum; co2; h2s; nh3; quality; rssi] with
  | e :: _ => raise e
  | [] =>
      if existsb binds_null [device; temp; hum; co2; h2s; nh3; quality]
      then raise IntegrityError
      else
        d ← get_db;
        if (INT64_MAX <=? sensor_seq d)%Z then raise OperationalError
        else
          let row_id := (sensor_seq d + 1)%Z in
          let row :=
            mkSensorReading row_id timestamp device temp hum co2 h2s nh3
              quality (stored rssi) status in
          put_db (mkDatabase (sensor_readings d ++ [row]) row_id
                    (visual_predictions d) (fusion_decisions d));;
          mret row_id
  end.

(** The "Parse timestamp" statement of [insert_sensor_reading]: an ISO
    string, a number of milliseconds (an [int], a [bool] or a [float]),
    which is divided by 1000 and handed to [fromtimestamp], or anything
    else (a [datetime] included), for which the current time is taken.
    The division of an [int] by 1000 raises when the quotient has no
    [float]; [fromtimestamp] raises on NaN and on an infinity. *)
Definition parse_timestamp (ts : pyval) : M Z :=
  match ts with
  | PStr s =>
      match fromisoformat (replace_Z s) with
      | Some t => mret t
      | None => raise ValueError
      end
  | PInt z =>
      if (FLOAT_INT_LIMIT * 1000 <=? Z.abs z)%Z then raise OverflowError
      else lift (fromtimestamp (inject_Z z / 1000))
  | PBool b => lift (fromtimestamp (if b then 1 / 1000 else 0 / 1000))
  | PNum q => lift (fromtimestamp (q / 1000))
  | PInf _ => raise OverflowError
  | PNaN => raise ValueError
  | PNone | PDateTime _ | PList _ | PDict _ => datetime_now
  end.

(** [DatabaseManager.insert_sensor_reading]. *)
Definition insert_sensor_reading (data : gmap string pyval) : M Z :=
  try_except
    (ts ← getitem data "timestamp";
     timestamp ← parse_timestamp ts;
     sensor_status ←
       match json_dumps (default (PDict ∅) (data !! "sensor_status")) with
       | Some s => mret s
       | None => raise TypeError
       end;
     device ← getitem data "device_id";
     temp ← getitem data "temperature";
     hum ← getitem data "humidity";
     co2 ← getitem data "mq135_co2";
     h2s ← getitem data "mq136_h2s";
     nh3 ← getitem data "mq137_nh3";
     quality ← getitem data "quality_level";
     let rssi := default PNone (data !! "wifi_rssi") in
     row_id ← execute_insert_sensor timestamp device temp hum co2 h2s nh3
                quality rssi sensor_status;
     log LDEBUG "Inserted sensor reading with ID";;
     mret row_id)
    (fun e => log LERROR "Error inserting sensor reading";; raise e).

End WithLibrary.

(** One day, and the range of [timedelta] and [datetime], in
    microseconds. *)
Definition DAY : Z := 86400000000.
Definition TIMEDELTA_MAX_DAYS : Z := 999999999.
Definition DATETIME_MIN : Z := (-62135596800000000)%Z.

(** [DatabaseManager.cleanup_old_data]. *)
Definition cleanup_old_data (retention_days : option Z) : M unit :=
  let retention_days := default Config.DB_RETENTION_DAYS retention_days in
  if (retention_days <=? 0)%Z then
    log LINFO "Data retention is disabled (retention_days <= 0)"
  else
    now ← datetime_now;
    let cutoff_date := (now - retention_days * DAY)%Z in
    if (TIMEDELTA_MAX_DAYS <? retention_days)%Z
       || (cutoff_date <? DATETIME_MIN)%Z
    then raise OverflowError
    else
      try_except
        (d ← get_db;
         put_db (mkDatabase
                   (filter (fun r => (cutoff_date <= sr_timestamp r)%Z)
                      (sensor_readings d))
                   (sensor_seq d)
                   (filter (fun r => (cutoff_date <= vp_timestamp r)%Z)
                      (visual_predictions d))
                   (filter (fun r => (cutoff_date <= fd_timestamp r)%Z)
                      (fusion_decisions d)));;
         log LINFO "Cleanup completed")
        (fun e => log LERROR "Error cleaning up old data").

(** The number of rows of each table (what [get_reading_count] selects
    for the first). *)
Definition row_counts (d : Database) : nat * nat * nat :=
  (length (sensor_readings d), length (visual_predictions d),
   length (fusion_decisions d)).

End DbManager.

(* ===================================================================== *)
(** ** mqtt_client_simple.py *)
(* ===================================================================== *)

Module MqttClientSimple.

(** An inbound [MQTTMessage]. *)
Record MQTTMessage : Type := mkMessage {
  msg_topic : string;
  msg_payload : list Byte.byte
}.

Section WithLibrary.
Context `{Library}.

(** The f-string of the [logger.info] call formats the five readings, in
    this order, before anything is logged. *)
Definition format_all (vs : list pyval) : M unit :=
  match omap format_f vs with
  | e :: _ => raise e
  | [] => mret tt
  end.

(** [SimpleMQTTClient._process_sensor_data]. *)
Definition _process_sensor_data (payload : string) : M unit :=
  try_except
    (data ← match json_loads payload with
            | Some v => mret v
            | None => raise JSONDecodeError
            end;
     sensors ← lift (Py.get data "sensors" (PDict ∅));
     quality_data ← lift (Py.get data "quality" (PDict ∅));
     h2s ← lift (Py.get sensors "mq136_h2s" (PNum 0.0));
     nh3 ← lift (Py.get sensors "mq137_nh3" (PNum 0.0));
     co2 ← lift (Py.get sensors "mq135_co2" (PNum 0.0));
     temp ← lift (Py.get sensors "temperature" (PNum 0.0));
     humidity ← lift (Py.get sensors "humidity" (PNum 0.0));
     quality ← lift (Py.get quality_data "level" (PStr "UNKNOWN"));
     format_all [h2s; nh3; co2; temp; humidity];;
     log LINFO "Processed sensor data";;
     now ← datetime_now;
     DbManager.insert_sensor_reading
       (<["timestamp" := PDateTime now]>
        (<["device_id" := PStr "ESP32-Sensor"]>
        (<["temperature" := temp]>
        (<["humidity" := humidity]>
        (<["mq135_co2" := co2]>
        (<["mq136_h2s" := h2s]>
        (<["mq137_nh3" := nh3]>
        (<["quality_level" := quality]> ∅))))))));;
     mret tt)
    (fun e =>
       match e with
       | JSONDecodeError => log LERROR "Error parsing sensor data JSON"
       | _ => log LERROR "Error processing sensor data"
       end).

(** [SimpleMQTTClient._on_message]; [topic'] is the local [topic]. *)
Definition _on_message (msg : MQTTMessage) : M unit :=
  try_except
    (let topic' := msg_topic msg in
     payload ← match utf8_decode (msg_payload msg) with
               | Some s => mret s
               | None => raise UnicodeDecodeError
               end;
     log LDEBUG "Received message on topic";;
     self ← get_self;
     (if String.eqb topic' (topic self) then _process_sensor_data payload
      else if String.eqb topic' Config.MQTT_STATUS_TOPIC then
        log LINFO "Device status"
      else if String.eqb topic' Config.MQTT_LWT_TOPIC then
        log LWARNING "Device LWT"
      else mret tt);;
     self ← get_self;
     put_self (mkSimpleMQTTClient (topic self) (connected self)
                 (Some payload) (on_message_callback self));;
     match on_message_callback self with
     | Some callback =>
         match callback topic' payload with
         | Some e => raise e
         | None => mret tt
         end
     | None => mret tt
     end)
    (fun e => log LERROR "Error processing MQTT message").

End WithLibrary.

(** [map_quality_level]. *)
Definition map_quality_level (esp_quality : string) : string :=
  default "WARNING" (Config.QUALITY_LEVEL_MAP !! esp_quality).

(** [determine_gas_status]. *)
Definition determine_gas_status (h2s nh3 co2 : Q) : string :=
  if Qle_bool Config.H2S_CRITICAL_THRESHOLD h2s
     || Qle_bool Config.NH3_CRITICAL_THRESHOLD nh3
     || Qle_bool Config.CO2_CRITICAL_THRESHOLD co2
  then "CRITICAL"
  else if Qle_bool Config.H2S_WARNING_THRESHOLD h2s
          || Qle_bool Config.NH3_WARNING_THRESHOLD nh3
          || Qle_bool Config.CO2_WARNING_THRESHOLD co2
  then "HIGH"
  else "LOW".

End MqttClientSimple.

(* ===================================================================== *)
(** ** app.py: the reconciliation block after the fusion call *)
(* ===================================================================== *)

Module App.

(** The statements that follow [get_fusion_decision] in the dashboard
    script: [data_mode] is [st.session_state.data_mode], [quality_level] is
    [current['quality_level']], the pair is (fusion_status, fusion_color)
    before and after. *)
Definition fusion_reconciliation (data_mode quality_level : string)
    (fusion : string * string) : string * string :=
  let '(fusion_status, fusion_color) := fusion in
  if String.eqb data_mode "mqtt" && negb (String.eqb quality_level "UNKNOWN")
  then
    let esp_quality := MqttClientSimple.map_quality_level quality_level in
    if String.eqb esp_quality "CRITICAL" || String.eqb fusion_status "CRITICAL"
    then ("CRITICAL", Config.QUALITY_COLORS !!! "CRITICAL")
    else if String.eqb esp_quality "SPOILED"
            || String.eqb fusion_status "SPOILED"
    then ("SPOILED", Config.QUALITY_COLORS !!! "SPOILED")
    else if String.eqb esp_quality "WARNING"
            || String.eqb fusion_status "WARNING"
    then ("WARNING", Config.QUALITY_COLORS !!! "WARNING")
    else (fusion_status, fusion_color)
  else (fusion_status, fusion_color).

End App.

(* ===================================================================== *)
(** ** mqtt_client.py: the threaded client *)
(* ===================================================================== *)

Module MqttClient.

(** Where a thread stands inside the [while] loop of [_run]: each point
    names the statement the thread executes next, those of [connect]
    included, which the loop calls. *)
Inductive loop_point : Type :=
| AtWhile           (* while self.keep_running:  (an iteration is done) *)
| AtIfConnected     (* if not self.connected: *)
| AtAnnounce        (* logger.info("Attempting to connect ...") *)
| AtConnectLog      (* connect: logger.info("Connecting to MQTT broker") *)
| AtBrokerConnect   (* connect: username_pw_set(...); client.connect(...) *)
| AtConnectedLog    (* connect: logger.info("MQTT connected!") *)
| AtSetConnected    (* connect: self.connected = True; return True *)
| AtRefusedLog      (* connect: logger.error("MQTT connection failed") *)
| AtRaisedLog       (* connect: logger.error("Error connecting ...") *)
| AtIfLoopStarted   (* if not self._loop_started: *)
| AtLoopStart       (* self.client.loop_start() *)
| AtSetLoopStarted  (* self._loop_started = True *)
| AtEstablishedLog  (* logger.info("MQTT connection established") *)
| AtRetryLog        (* logger.warning("MQTT connection failed, retrying") *)
| AtSleep           (* time.sleep(0.1) *)
| AtIfStillDown.    (* if not self.connected: time.sleep(reconnect_delay) *)

(** A thread created by [start]: not yet at the loop condition, inside the
    [while] loop of [_run], or returned from it. *)
Inductive thread_state : Type :=
| Spawned
| InLoop (point : loop_point)
| Exited.

Definition in_loop (t : thread_state) : bool :=
  match t with InLoop _ => true | _ => false end.

(** What [self.client.connect(...)] of the broker library does. *)
Inductive connect_result : Type :=
| ConnectSuccess
| ConnectRefused
| ConnectRaised.

(** The flags of [MQTTClient], the threads it has created and what it has
    logged. *)
Record MQTTClient : Type := mkClient {
  keep_running : bool;
  _started : bool;
  _loop_started : bool;
  connected : bool;
  threads : list thread_state;
  logged : list LogRecord
}.

Definition emit (l : level) (t : string) (c : MQTTClient) : MQTTClient :=
  mkClient (keep_running c) (_started c) (_loop_started c) (connected c)
    (threads c) (logged c ++ [mkLog l t]).

(** [MQTTClient.__init__]. *)
Definition __init__ : MQTTClient :=
  mkClient true false false false []
    [mkLog LINFO "MQTT client initialized for broker"].

(** [MQTTClient.connect]. *)
Definition connect (r : connect_result) (c : MQTTClient)
    : bool * MQTTClient :=
  let c := emit LINFO "Connecting to MQTT broker" c in
  match r with
  | ConnectSuccess =>
      let c := emit LINFO "MQTT connected!" c in
      (true, mkClient (keep_running c) (_started c) (_loop_started c) true
               (threads c) (logged c))
  | ConnectRefused => (false, emit LERROR "MQTT connection failed. RC" c)
  | ConnectRaised => (false, emit LERROR "Error connecting to MQTT broker" c)
  end.

(** The teardown shared by [disconnect] and [stop]: [loop_stop()] and
    [disconnect()] of the broker library, which may raise. *)
Definition teardown (raised : bool) (c : MQTTClient) : MQTTClient :=
  if raised then emit LERROR "Error disconnecting from MQTT" c
  else emit LINFO "Disconnected from MQTT broker" c.

(** [MQTTClient.disconnect]. *)
Definition disconnect (raised : bool) (c : MQTTClient) : MQTTClient :=
  teardown raised
    (mkClient false (_started c) (_loop_started c) (connected c)
       (threads c) (logged c)).

(** [MQTTClient.start]. *)
Definition start (c : MQTTClient) : MQTTClient :=
  if _started c then
    emit LWARNING
      "MQTT client already started - ignoring duplicate start() call" c
  else
    emit LINFO "MQTT client thread started"
      (mkClient (keep_running c) true (_loop_started c) (connected c)
         (threads c ++ [Spawned]) (logged c)).

(** [MQTTClient.stop]. *)
Definition stop (raised : bool) (c : MQTTClient) : MQTTClient :=
  teardown raised
    (mkClient false false false (connected c) (threads c) (logged c)).

(** Thread [i] moves to [t]. *)
Definition set_thread (i : nat) (t : thread_state) (c : MQTTClient)
    : MQTTClient :=
  mkClient (keep_running c) (_started c) (_loop_started c) (connected c)
    (<[i := t]> (threads c)) (logged c).

(** One scheduling of thread [i] of [start]'s [_run]: the thread executes
    the one statement it stands at, and any other thread or call may run
    before its next.  [r] is what the broker library answers, should the
    statement be the call of [self.client.connect]. *)
Definition _run (i : nat) (r : connect_result) (c : MQTTClient)
    : MQTTClient :=
  match threads c !! i with
  | None | Some Exited => c
  | Some Spawned | Some (InLoop AtWhile) =>
      if keep_running c then set_thread i (InLoop AtIfConnected) c
      else set_thread i Exited c
  | Some (InLoop AtIfConnected) =>
      if connected c then set_thread i (InLoop AtSleep) c
      else set_thread i (InLoop AtAnnounce) c
  | Some (InLoop AtAnnounce) =>
      set_thread i (InLoop AtConnectLog)
        (emit LINFO "Attempting to connect to MQTT broker..." c)
  | Some (InLoop AtConnectLog) =>
      set_thread i (InLoop AtBrokerConnect)
        (emit LINFO "Connecting to MQTT broker" c)
  | Some (InLoop AtBrokerConnect) =>
      match r with
      | ConnectSuccess => set_thread i (InLoop AtConnectedLog) c
      | ConnectRefused => set_thread i (InLoop AtRefusedLog) c
      | ConnectRaised => set_thread i (InLoop AtRaisedLog) c
      end
  | Some (InLoop AtConnectedLog) =>
      set_thread i (InLoop AtSetConnected) (emit LINFO "MQTT connected!" c)
  | Some (InLoop AtSetConnected) =>
      set_thread i (InLoop AtIfLoopStarted)
        (mkClient (keep_running c) (_started c) (_loop_started c) true
           (threads c) (logged c))
  | Some (InLoop AtRefusedLog) =>
      set_thread i (InLoop AtRetryLog)
        (emit LERROR "MQTT connection failed. RC" c)
  | Some (InLoop AtRaisedLog) =>
      set_thread i (InLoop AtRetryLog)
        (emit LERROR "Error connecting to MQTT broker" c)
  | Some (InLoop AtIfLoopStarted) =>
      if _loop_started c then set_thread i (InLoop AtEstablishedLog) c
      else set_thread i (InLoop AtLoopStart) c
  | Some (InLoop AtLoopStart) => set_thread i (InLoop AtSetLoopStarted) c
  | Some (InLoop AtSetLoopStarted) =>
      set_thread i (InLoop AtEstablishedLog)
        (mkClient (keep_running c) (_started c) true (connected c)
           (threads c) (logged c))
  | Some (InLoop AtEstablishedLog) =>
      set_thread i (InLoop AtSleep)
        (emit LINFO "MQTT connection established" c)
  | Some (InLoop AtRetryLog) =>
      set_thread i (InLoop AtSleep)
        (emit LWARNING "MQTT connection failed, retrying" c)
  | Some (InLoop AtSleep) => set_thread i (InLoop AtIfStillDown) c
  | Some (InLoop AtIfStillDown) => set_thread i (InLoop AtWhile) c
  end.

(** [MQTTClient._on_connect] and [_on_disconnect], run by the library's
    network loop (no user callback registered). *)
Definition _on_connect (rc_success : bool) (c : MQTTClient) : MQTTClient :=
  if rc_success then
    emit LINFO "Subscribed to topics"
      (emit LINFO "Connected to MQTT broker"
         (mkClient (keep_running c) (_started c) (_loop_started c) true
            (threads c) (logged c)))
  else emit LERROR "Failed to connect to MQTT broker. Reason code" c.

Definition _on_disconnect (c : MQTTClient) : MQTTClient :=
  emit LWARNING "Disconnected from MQTT broker unexpectedly"
    (mkClient (keep_running c) (_started c) (_loop_started c) false
       (threads c) (logged c)).

(** Everything that can happen to a client object: a method called by the
    owner or a callback from the network loop, each run to its end, or one
    of its threads being scheduled for a statement. *)
Inductive event : Type :=
| CallStart
| CallStop (raised : bool)
| CallDisconnect (raised : bool)
| CallConnect (r : connect_result)
| OnConnect (rc_success : bool)
| OnDisconnect
| Schedule (i : nat) (r : connect_result).

Definition step (c : MQTTClient) (e : event) : MQTTClient :=
  match e with
  | CallStart => start c
  | CallStop raised => stop raised c
  | CallDisconnect raised => disconnect raised c
  | CallConnect r => snd (connect r c)
  | OnConnect rc => _on_connect rc c
  | OnDisconnect => _on_disconnect c
  | Schedule i r => _run i r c
  end.

(** The client after a history of events, oldest first. *)
Definition run (es : list event) : MQTTClient := fold_left step es __init__.

(** How many of the threads satisfy [P]. *)
Definition count_threads (P : thread_state -> bool) (c : MQTTClient) : nat :=
  length (filter (fun t => P t = true) (threads c)).

(** Threads that are executing the reconnection loop. *)
Definition loops (c : MQTTClient) : nat := count_threads in_loop c.

End MqttClient.

(* ===================================================================== *)
(** ** db_manager.py: queries and purge *)
(* ===================================================================== *)

Module DbQueries.

(** [ORDER BY timestamp ASC] as the index on [timestamp] yields it: rows of
    equal timestamp stay in insertion (rowid) order.  SQLite compares the
    stored texts; for the naive local times that [datetime.now()] gives,
    which is what the ingestion path stores, that is the order of the
    times. *)
Fixpoint insert_by_timestamp (r : SensorReading) (l : list SensorReading)
    : list SensorReading :=
  match l with
  | [] => [r]
  | x :: l' =>
      if (sr_timestamp r <=? sr_timestamp x)%Z then r :: x :: l'
      else x :: insert_by_timestamp r l'
  end.

Definition order_by_timestamp_asc (rows : list SensorReading)
    : list SensorReading :=
  foldr insert_by_timestamp [] rows.

(** [ORDER BY timestamp DESC]: the same index read backwards. *)
Definition order_by_timestamp_desc (rows : list SensorReading)
    : list SensorReading :=
  rev (order_by_timestamp_asc rows).

(** The largest integer [sqlite3] binds; a larger Python [int] makes
    [execute] raise [OverflowError]. *)
Definition INT64_MAX : Z := DbManager.INT64_MAX.
Definition INT64_MIN : Z := DbManager.INT64_MIN.

(** [LIMIT n]: a negative [n] means no limit. *)
Definition sql_limit {A : Type} (n : Z) (rows : list A) : list A :=
  if (n <? 0)%Z then rows else take (Z.to_nat n) rows.

(** [DatabaseManager.get_latest_reading]. *)
Definition get_latest_reading : M (option SensorReading) :=
  try_except
    (d ← get_db;
     mret (head (sql_limit 1 (order_by_timestamp_desc (sensor_readings d)))))
    (fun e => log LERROR "Error getting latest reading";; mret None).

(** [DatabaseManager.get_recent_readings]. *)
Definition get_recent_readings (limit : Z) : M (list SensorReading) :=
  try_except
    (d ← get_db;
     if (limit <? INT64_MIN)%Z || (INT64_MAX <? limit)%Z
     then raise OverflowError
     else mret (sql_limit limit
                  (order_by_timestamp_desc (sensor_readings d))))
    (fun e => log LERROR "Error getting recent readings";; mret []).

(** [DatabaseManager.get_readings_in_range]; the bounds are [datetime]
    values, in microseconds like the stored times. *)
Definition get_readings_in_range (start_time end_time : Z)
    : M (list SensorReading) :=
  try_except
    (d ← get_db;
     mret (order_by_timestamp_asc
             (filter (fun r => (start_time <= sr_timestamp r
                                /\ sr_timestamp r <= end_time)%Z)
                (sensor_readings d))))
    (fun e => log LERROR "Error getting readings in range";; mret []).

(** [DatabaseManager.get_reading_count]. *)
Definition get_reading_count : M nat :=
  try_except
    (d ← get_db; mret (length (sensor_readings d)))
    (fun e => log LERROR "Error getting reading count";; mret 0).

(** [DatabaseManager.delete_all_data]; the result is the dictionary of the
    three deleted counts, in the order sensor readings, visual predictions,
    fusion decisions.  Deleting rows leaves the AUTOINCREMENT counter
    alone. *)
Definition delete_all_data : M (nat * nat * nat) :=
  try_except
    (d ← get_db;
     let sensor_deleted := length (sensor_readings d) in
     let visual_deleted := length (visual_predictions d) in
     let fusion_deleted := length (fusion_decisions d) in
     put_db (mkDatabase [] (sensor_seq d) [] []);;
     log LINFO "All data deleted";;
     mret (sensor_deleted, visual_deleted, fusion_deleted))
    (fun e => log LERROR "Error deleting all data";; mret (0, 0, 0)).

End DbQueries.

(* ===================================================================== *)
(** ** mqtt_client.py: the message callback of the threaded client *)
(* ===================================================================== *)

Module MqttClientMessages.

Section WithLibrary.
Context `{Library}.

(** [MQTTClient._on_message].  [self_topic] is [self.topic] and [callback]
    is [self.on_message_callback], caller code that may do anything to the
    process.  The class has no attribute [_process_sensor_data] (the file
    defines none and the class has no base), so evaluating
    [self._process_sensor_data] raises [AttributeError]. *)
Definition _on_message (self_topic : string)
    (callback : option (string -> string -> M unit))
    (msg : MqttClientSimple.MQTTMessage) : M unit :=
  try_except
    (let topic' := MqttClientSimple.msg_topic msg in
     payload ← match utf8_decode (MqttClientSimple.msg_payload msg) with
               | Some s => mret s
               | None => raise UnicodeDecodeError
               end;
     log LDEBUG "Received message on topic";;
     (if String.eqb topic' self_topic then raise AttributeError
      else if String.eqb topic' Config.MQTT_STATUS_TOPIC then
        log LINFO "Device status"
      else if String.eqb topic' Config.MQTT_LWT_TOPIC then
        log LWARNING "Device LWT"
      else mret tt);;
     match callback with
     | Some f => f topic' payload
     | None => mret tt
     end)
    (fun e => log LERROR "Error processing MQTT message").

End WithLibrary.

End MqttClientMessages.

(* ===================================================================== *)
(** ** mqtt_subscriber.py *)
(* ===================================================================== *)

Module MqttSubscriber.

Section WithLibrary.
Context `{Library}.

(** [MQTTSubscriber._process_sensor_data]. *)
Definition _process_sensor_data (payload : string) : M unit :=
  try_except
    (data ← match json_loads payload with
            | Some v => mret v
            | None => raise JSONDecodeError
            end;
     sensors ← lift (Py.get data "sensors" (PDict ∅));
     quality_data ← lift (Py.get data "quality" (PDict ∅));
     h2s ← lift (Py.get sensors "mq136_h2s" (PNum 0.0));
     nh3 ← lift (Py.get sensors "mq137_nh3" (PNum 0.0));
     co2 ← lift (Py.get sensors "mq135_co2" (PNum 0.0));
     temp ← lift (Py.get sensors "temperature" (PNum 0.0));
     humidity ← lift (Py.get sensors "humidity" (PNum 0.0));
     quality ← lift (Py.get quality_data "level" (PStr "UNKNOWN"));
     MqttClientSimple.format_all [h2s; nh3; co2; temp; humidity];;
     log LINFO "Processed sensor data";;
     now ← datetime_now;
     DbManager.insert_sensor_reading
       (<["timestamp" := PDateTime now]>
        (<["device_id" := PStr "ESP32-Sensor"]>
        (<["temperature" := temp]>
        (<["humidity" := humidity]>
        (<["mq135_co2" := co2]>
        (<["mq136_h2s" := h2s]>
        (<["mq137_nh3" := nh3]>
        (<["quality_level" := quality]> ∅))))))));;
     mret tt)
    (fun e =>
       match e with
       | JSONDecodeError => log LERROR "Error parsing sensor data JSON"
       | _ => log LERROR "Error processing sensor data"
       end).

(** [MQTTSubscriber._on_message]; [self.topic] is [config.MQTT_TOPIC] from
    [__init__] on. *)
Definition _on_message (msg : MqttClientSimple.MQTTMessage) : M unit :=
  try_except
    (let topic' := MqttClientSimple.msg_topic msg in
     payload ← match utf8_decode (MqttClientSimple.msg_payload msg) with
               | Some s => mret s
               | None => raise UnicodeDecodeError
               end;
     log LDEBUG "Received message on topic";;
     (if String.eqb topic' Config.MQTT_TOPIC then _process_sensor_data payload
      else if String.eqb topic' Config.MQTT_STATUS_TOPIC then
        log LINFO "Device status"
      else if String.eqb topic' Config.MQTT_LWT_TOPIC then
        log LWARNING "Device LWT"
      else mret tt))
    (fun e => log LERROR "Error processing MQTT message").

End WithLibrary.

End MqttSubscriber.

(* ===================================================================== *)
(** ** app.py: gauges, fusion section and history *)
(* ===================================================================== *)

Module Dashboard.

(** [get_color(value, warning_threshold, critical_threshold)]. *)
Definition get_color (value warning_threshold critical_threshold : Q)
    : string :=
  if negb (Qle_bool warning_threshold value) then "#00AA00"
  else if negb (Qle_bool critical_threshold value) then "#FF9800"
  else "#FF0000".

(** The dictionary the fusion section builds from the current readings:
    NH3 goes in the methane slot and CO2 in the ammonia slot. *)
Definition gas_readings (h2s_ppm nh3_ppm co2_ppm : Q) : gmap string Q :=
  <["h2s_ppm" := h2s_ppm]>
  (<["methane_ppm" := nh3_ppm]>
  (<["ammonia_ppm" := co2_ppm]> ∅)).

(** The fusion section: the visual status of the stored prediction (or
    "Unknown" without one), the fusion call, then the reconciliation. *)
Definition fusion_section (visual_prediction : option string)
    (h2s_ppm nh3_ppm co2_ppm : Q) (data_mode quality_level : string)
    : string * string :=
  let visual_status := default "Unknown" visual_prediction in
  App.fusion_reconciliation data_mode quality_level
    (MockData.get_fusion_decision visual_status
       (gas_readings h2s_ppm nh3_ppm co2_ppm)).

(** A row of [st.session_state.history]. *)
Record HistoryRow : Type := mkHistoryRow {
  h_timestamp : Z;
  h2s_ppm : pyval;
  nh3_ppm : pyval;
  co2_ppm : pyval;
  temp_c : pyval;
  h_humidity : pyval;
  h_quality_level : pyval
}.

(** The dictionary [get_readings] of the simulator returns. *)
Record MockReadings : Type := mkMockReadings {
  r_h2s_ppm : Q;
  r_methane_ppm : Q;
  r_ammonia_ppm : Q;
  r_temp_c : Q;
  r_humidity : Q
}.

Definition MAX_HISTORY_READINGS : nat := 1000.
Definition HISTORY_DISPLAY_COUNT : Z := 50.

(** [df.tail(n)]. *)
Definition tail {A : Type} (n : nat) (l : list A) : list A :=
  drop (length l - n) l.

(** The mock branch of "Update data", once a refresh is due: the new row
    (ammonia shown as NH3, methane shown as CO2) is appended and the
    history cut to its last [MAX_HISTORY_READINGS] rows. *)
Definition mock_update (now : Z) (readings : MockReadings)
    (history : list HistoryRow) : list HistoryRow :=
  let new_row :=
    mkHistoryRow now (PNum (r_h2s_ppm readings))
      (PNum (r_ammonia_ppm readings)) (PNum (r_methane_ppm readings))
      (PNum (r_temp_c readings)) (PNum (r_humidity readings))
      (PStr "UNKNOWN") in
  let history := (history ++ [new_row])%list in
  if Nat.ltb MAX_HISTORY_READINGS (length history)
  then tail MAX_HISTORY_READINGS history
  else history.

(** The conversion of a stored reading in the MQTT branch. *)
Definition history_row_of (reading : SensorReading) : HistoryRow :=
  mkHistoryRow (sr_timestamp reading) (mq136_h2s reading)
    (mq137_nh3 reading) (mq135_co2 reading) (temperature reading)
    (humidity reading) (quality_level reading).

(** The MQTT branch of "Update data", once a refresh is due: the history
    is replaced by the recent readings, oldest first, unless there are
    none. *)
Definition mqtt_update (history : list HistoryRow) : M (list HistoryRow) :=
  recent_readings ← DbQueries.get_recent_readings HISTORY_DISPLAY_COUNT;
  match recent_readings with
  | [] => mret history
  | _ => mret (map history_row_of (rev recent_readings))
  end.

(** "Get current readings": the last history row, or the all-zero
    placeholder (which has no timestamp; 0 stands in for it). *)
Definition current (history : list HistoryRow) : HistoryRow :=
  match last history with
  | Some row => row
  | None =>
      mkHistoryRow 0 (PNum 0.0) (PNum 0.0) (PNum 0.0) (PNum 0.0) (PNum 0.0)
        (PStr "UNKNOWN")
  end.

End Dashboard.

(* ===================================================================== *)
(** ** mock_data.py: the simulator and the mock classifier *)
(* ===================================================================== *)

Module MockSimulator.

(** [random.uniform(a, b)] is [a + (b - a) * random()]; [r] is the value of
    [random()], a number in [0, 1). *)
Definition uniform (a b r : R) : R := (a + (b - a) * r)%R.

(** The attributes [__init__] sets once and nothing changes. *)
Definition base_h2s : R := 0.5%R.
Definition base_methane : R := 2.0%R.
Definition base_ammonia : R := 1.0%R.
Definition h2s_decay_rate : R := 0.005%R.
Definition methane_decay_rate : R := 0.004%R.
Definition ammonia_decay_rate : R := 0.003%R.

(** The attributes that change.  [current_temp] and [current_humidity] do
    not exist before the first [update]. *)
Record MeatDecaySimulator : Type := mkSimulator {
  start_time : R;
  time_elapsed : R;
  current_h2s : R;
  current_methane : R;
  current_ammonia : R;
  current_temp : option R;
  current_humidity : option R
}.

(** The values of [random()] one [update] consumes, in call order. *)
Record UpdateDraws : Type := mkUpdateDraws {
  r_h2s : R;
  r_methane : R;
  r_ammonia : R;
  r_temp : R;
  r_humidity : R
}.

(** [MeatDecaySimulator.__init__] at time [now]. *)
Definition __init__ (now : R) : MeatDecaySimulator :=
  mkSimulator now 0 base_h2s base_methane base_ammonia None None.

(** [MeatDecaySimulator._add_noise]. *)
Definition _add_noise (value noise_percentage r : R) : R :=
  let noise :=
    (uniform (- noise_percentage) noise_percentage r * value)%R in
  Rmax 0 (value + noise).

(** [MeatDecaySimulator.update] at time [now]: how the call ends and the
    simulator it leaves.  [time_elapsed] is assigned before the temperature
    factor is computed, so it is updated even when that call raises; the
    other attributes are assigned after it. *)
Definition update (now room_temp humidity : R) (d : UpdateDraws)
    (self : MeatDecaySimulator) : outcome unit * MeatDecaySimulator :=
  let current_time := now in
  let time_elapsed := (current_time - start_time self)%R in
  match MockData._get_temperature_factor room_temp with
  | Raised e =>
      (Raised e,
       mkSimulator (start_time self) time_elapsed (current_h2s self)
         (current_methane self) (current_ammonia self) (current_temp self)
         (current_humidity self))
  | Returned temp_factor =>
      let h2s_increase :=
        (h2s_decay_rate * temp_factor * (1 + time_elapsed / 3600))%R in
      let current_h2s := (base_h2s + h2s_increase * time_elapsed)%R in
      let methane_increase :=
        (methane_decay_rate * temp_factor * (1 + time_elapsed / 3600))%R in
      let current_methane := (base_methane + methane_increase * time_elapsed)%R in
      let ammonia_increase :=
        (ammonia_decay_rate * temp_factor * (1 + time_elapsed / 7200))%R in
      let current_ammonia := (base_ammonia + ammonia_increase * time_elapsed)%R in
      let current_h2s := _add_noise current_h2s 0.08 (r_h2s d) in
      let current_methane := _add_noise current_methane 0.06 (r_methane d) in
      let current_ammonia := _add_noise current_ammonia 0.05 (r_ammonia d) in
      let current_temp := (room_temp + uniform (-0.5) 0.5 (r_temp d))%R in
      let current_humidity := (humidity + uniform (-2) 2 (r_humidity d))%R in
      let current_humidity := Rmax 0 (Rmin 100 current_humidity) in
      (Returned tt,
       mkSimulator (start_time self) time_elapsed current_h2s current_methane
         current_ammonia (Some current_temp) (Some current_humidity))
  end.

(** [MeatDecaySimulator.reset] at time [now]. *)
Definition reset (now : R) (self : MeatDecaySimulator)
    : MeatDecaySimulator :=
  mkSimulator now 0 base_h2s base_methane base_ammonia (current_temp self)
    (current_humidity self).

(** [get_time_elapsed], on the simulator singleton. *)
Definition get_time_elapsed (self : MeatDecaySimulator) : R :=
  time_elapsed self.

(** The dictionary [predict_image] returns. *)
Record Prediction : Type := mkPrediction {
  species : string;
  visual_status : string;
  confidence : string;
  confidence_float : R
}.

(** [predict_image].  [pick_first] tells which of the two species
    [random.choice] picks, [r_rotten] and [r_conf] are the two values of
    [random()], [format_percent] is the f-string [f"{x:.1f}%"]. *)
Definition predict_image (simulator : MeatDecaySimulator)
    (pick_first : bool) (r_rotten r_conf : R)
    (format_percent : R -> string) : Prediction :=
  let species := if pick_first then "Beef" else "Mutton" in
  let elapsed := get_time_elapsed simulator in
  let rotten_probability := Rmin 0.95 (elapsed / 3600) in
  let visual_status :=
    if Rlt_dec r_rotten rotten_probability then "Rotten" else "Fresh" in
  let confidence_float := uniform 95.0 99.9 r_conf in
  mkPrediction species visual_status (format_percent confidence_float)
    confidence_float.

End MockSimulator.

(* ===================================================================== *)
(** * Specification vocabulary *)
(* ===================================================================== *)

(** The notions the design document uses to talk about the code above, and
    the sample data the examples run on. *)

(* --------------------------------------------------------------------- *)
(** ** Fusion Engine *)
(* --------------------------------------------------------------------- *)

(** The visual verdict as the design document sees it. *)
Inductive Verdict : Type := Fresh | Rotten | NoVerdict.

Definition verdict_of (visual_result : string) : Verdict :=
  if String.eqb visual_result "Rotten" then Rotten
  else if String.eqb visual_result "Fresh" then Fresh
  else NoVerdict.

(** The simplified gas signal of the fusion function: the two entries it
    reads and the bands it places them in. *)
Definition h2s_of (gas : gmap string Q) : Q := default 0%Q (gas !! "h2s_ppm").
Definition methane_of (gas : gmap string Q) : Q :=
  default 0%Q (gas !! "methane_ppm").

Definition gas_critical (gas : gmap string Q) : bool :=
  Qle_bool 50 (h2s_of gas) || Qle_bool 100 (methane_of gas).

Definition gas_low (gas : gmap string Q) : bool :=
  negb (Qle_bool 10 (h2s_of gas)) && negb (Qle_bool 25 (methane_of gas)).

(** The five rules of the design document, in its words and order. *)
Definition primary_fusion_rule (v : Verdict) (critical low : bool)
    : Severity :=
  let rotten := match v with Rotten => true | _ => false end in
  let fresh := match v with Fresh => true | _ => false end in
  let elevated := negb low && negb critical in
  if rotten || critical then CRITICAL
  else if fresh && low then SAFE
  else if fresh && elevated then WARNING
  else if rotten && low then SPOILED
  else WARNING.

(** The fixed 5-to-4 table of the design document. *)
Definition external_level (label : string) : Severity :=
  if String.eqb label "EXCELLENT" || String.eqb label "GOOD" then SAFE
  else if String.eqb label "FAIR" || String.eqb label "POOR" then WARNING
  else if String.eqb label "SPOILED" then SPOILED
  else WARNING.

(* --------------------------------------------------------------------- *)
(** ** Bus Client *)
(* --------------------------------------------------------------------- *)

(** The two groups of a parsed telemetry payload; an absent group is
    empty. *)
Definition sensors_of (data : pyval) : gmap string pyval :=
  match data with
  | PDict d => match d !! "sensors" with Some (PDict s) => s | _ => ∅ end
  | _ => ∅
  end.

Definition quality_of (data : pyval) : gmap string pyval :=
  match data with
  | PDict d => match d !! "quality" with Some (PDict q) => q | _ => ∅ end
  | _ => ∅
  end.

Definition object_or_absent (o : option pyval) : bool :=
  match o with None | Some (PDict _) => true | _ => false end.

(** A number the store can hold: a float other than NaN, or an integer of
    at most 64 bits. *)
Definition storable_number (v : pyval) : bool :=
  match v with
  | PNum _ | PInf _ => true
  | PInt z => (DbManager.INT64_MIN <=? z)%Z && (z <=? DbManager.INT64_MAX)%Z
  | _ => false
  end.

Definition number_or_absent (o : option pyval) : bool :=
  match o with None => true | Some v => storable_number v end.

(** A value the INSERT takes for a NOT NULL column: it can be bound, and
    not as NULL. *)
Definition insertable `{Library} (v : pyval) : Prop :=
  DbManager.bind_error v = None /\ DbManager.binds_null v = false.


(** A text the store can hold: one that has a UTF-8 encoding. *)
Definition text_or_absent `{Library} (o : option pyval) : bool :=
  match o with
  | None => true
  | Some (PStr s) => encodable s
  | _ => false
  end.

Definition required_fields : list string :=
  ["mq136_h2s"; "mq137_nh3"; "mq135_co2"; "temperature"; "humidity"].

(** The telemetry payload of the design document, as a condition on the
    parsed value: an object whose "sensors" and "quality" members, where
    present, are objects, whose five readings, where present, are numbers
    the store can hold, and whose level, where present, is a text the store
    can hold. *)
Definition telemetry_shape `{Library} (data : pyval) : bool :=
  match data with
  | PDict d =>
      object_or_absent (d !! "sensors")
      && object_or_absent (d !! "quality")
      && forallb (fun k => number_or_absent (sensors_of data !! k))
           required_fields
      && text_or_absent (quality_of data !! "level")
  | _ => false
  end.

(** A message is non-parseable when its bytes are not UTF-8 or its text is
    not JSON. *)
Definition non_parseable `{Library} (payload : list Byte.byte) : Prop :=
  match utf8_decode payload with
  | None => True
  | Some text => json_loads text = None
  end.

(** The dictionary [_process_sensor_data] hands to the store. *)
Definition reading_dict (now : Z) (temp hum co2 h2s nh3 quality : pyval)
    : gmap string pyval :=
  <["timestamp" := PDateTime now]>
  (<["device_id" := PStr "ESP32-Sensor"]>
  (<["temperature" := temp]>
  (<["humidity" := hum]>
  (<["mq135_co2" := co2]>
  (<["mq136_h2s" := h2s]>
  (<["mq137_nh3" := nh3]>
  (<["quality_level" := quality]> ∅))))))).

(** Lookups of literal keys in a dictionary literal. *)
Ltac lookup_key :=
  repeat (rewrite lookup_insert_eq
          || (rewrite lookup_insert_ne by discriminate)
          || rewrite lookup_empty).

(** What holds of a client after any history: while it has not been told
    to stop it owns at most one thread, and none before [start]; and at
    most one of its threads is inside the reconnection loop. *)
Definition single_loop (c : MqttClient.MQTTClient) : Prop :=
  (MqttClient.keep_running c = true ->
   length (MqttClient.threads c) <= 1
   /\ (MqttClient._started c = false -> MqttClient.threads c = []))
  /\ MqttClient.loops c <= 1.

(* --------------------------------------------------------------------- *)
(** ** Sample data *)
(* --------------------------------------------------------------------- *)

(** A small instance of the library interface: ASCII-only decoding and a
    JSON reader that knows a handful of payload texts. *)
Definition dq : string := String (Ascii.ascii_of_nat 34) EmptyString.

Definition sample_utf8_decode (b : list Byte.byte) : option string :=
  if forallb (fun x => N.ltb (Byte.to_N x) 128) b
  then Some (string_of_list_byte b)
  else None.

Definition partial_payload : string :=
  "{" ++ dq ++ "sensors" ++ dq ++ ": {" ++ dq ++ "mq136_h2s" ++ dq
  ++ ": 12.5}}".

(** A payload whose H2S reading is the integer [2 ** 63]. *)
Definition oversized_payload : string :=
  "{" ++ dq ++ "sensors" ++ dq ++ ": {" ++ dq ++ "mq136_h2s" ++ dq
  ++ ": 9223372036854775808}}".

Definition sample_json_loads (s : string) : option pyval :=
  if String.eqb s "{}" then Some (PDict ∅)
  else if String.eqb s "[]" then Some (PList [])
  else if String.eqb s "null" then Some PNone
  else if String.eqb s partial_payload
  then Some (PDict (<["sensors" := PDict (<["mq136_h2s" := PNum 12.5]> ∅)]> ∅))
  else if String.eqb s oversized_payload
  then Some (PDict (<["sensors" :=
                        PDict (<["mq136_h2s" :=
                                   PInt 9223372036854775808]> ∅)]> ∅))
  else None.

Definition sample_json_dumps (v : pyval) : option string :=
  match v with
  | PDict d => match map_to_list d with [] => Some "{}" | _ => None end
  | _ => None
  end.

#[local] Instance sample_library : Library := {|
  utf8_decode := sample_utf8_decode;
  json_loads := sample_json_loads;
  json_dumps := sample_json_dumps;
  fromisoformat := fun _ => None;
  fromtimestamp := fun seconds => inr (Qfloor (seconds * 1000000));
  encodable := fun _ => true;
  json_dumps_empty := eq_refl;
  encodable_ascii := fun _ _ => eq_refl
|}.

Definition sample_row (i t : Z) : SensorReading :=
  mkSensorReading i t (PStr "ESP32-Sensor") (PNum 3.5) (PNum 75) (PNum 450)
    (PNum 5) (PNum 15) (PStr "GOOD") PNone "{}".

Definition sample_db : Database :=
  mkDatabase [sample_row 1 1000; sample_row 2 2000] 2
    [mkVisualPrediction 1 1500 (PStr "Beef") (PStr "Fresh") (PNum 98)]
    [mkFusionDecision 1 1500 (PStr "Fresh") (PStr "LOW") (PStr "SAFE")].

Definition sample_world : World :=
  mkWorld sample_db
    (mkSimpleMQTTClient Config.MQTT_TOPIC true None None) []
    (90 * DbManager.DAY + 1800).

(* --------------------------------------------------------------------- *)
(** ** Reading Store *)
(* --------------------------------------------------------------------- *)

(** The store as AUTOINCREMENT keeps it: identifiers grow along the table
    and none exceeds the counter. *)
Definition store_ok (d : Database) : Prop :=
  StronglySorted (fun a b => (sr_id a < sr_id b)%Z) (sensor_readings d)
  /\ Forall (fun r => (sr_id r <= sensor_seq d)%Z) (sensor_readings d).

Definition ascending (rows : list SensorReading) : Prop :=
  StronglySorted (fun a b => (sr_timestamp a <= sr_timestamp b)%Z) rows.

Definition descending (rows : list SensorReading) : Prop :=
  StronglySorted (fun a b => (sr_timestamp b <= sr_timestamp a)%Z) rows.

(** The row a telemetry object produces when it is stored under identifier
    [i] at time [now]. *)
Definition telemetry_row (data : pyval) (i now : Z) : SensorReading :=
  mkSensorReading i now (PStr "ESP32-Sensor")
    (default (PNum 0.0) (sensors_of data !! "temperature"))
    (default (PNum 0.0) (sensors_of data !! "humidity"))
    (default (PNum 0.0) (sensors_of data !! "mq135_co2"))
    (default (PNum 0.0) (sensors_of data !! "mq136_h2s"))
    (default (PNum 0.0) (sensors_of data !! "mq137_nh3"))
    (default (PStr "UNKNOWN") (quality_of data !! "level"))
    PNone "{}".

(** The process when the wall clock reads [t]: between two calls the
    environment moves the clock, and nothing else. *)
Definition at_time (t : Z) (w : World) : World :=
  mkWorld (db w) (client w) (logs w) t.

(** A telemetry message carrying [partial_payload]. *)
Definition telemetry_message : MqttClientSimple.MQTTMessage :=
  MqttClientSimple.mkMessage Config.MQTT_TOPIC
    (list_byte_of_string partial_payload).

(* --------------------------------------------------------------------- *)
(** ** Gas status and the threaded client's log *)
(* --------------------------------------------------------------------- *)

(** LOW < HIGH < CRITICAL; any other text ranks with LOW. *)
Definition gas_rank (status : string) : nat :=
  if String.eqb status "CRITICAL" then 2
  else if String.eqb status "HIGH" then 1
  else 0.

(** How many times the reconnection loop has announced a connection
    attempt. *)
Definition attempts (c : MqttClient.MQTTClient) : nat :=
  length
    (filter (fun l => text l = "Attempting to connect to MQTT broker...")
       (MqttClient.logged c)).

(** A thread that is past the loop condition and has not yet announced the
    attempt of its iteration: it will not look at [keep_running] before
    it does. *)
Definition before_announce (t : MqttClient.thread_state) : bool :=
  match t with
  | MqttClient.InLoop MqttClient.AtIfConnected
  | MqttClient.InLoop MqttClient.AtAnnounce => true
  | _ => false
  end.

(** A thread that stands at the loop condition. *)
Definition at_condition (t : MqttClient.thread_state) : bool :=
  match t with
  | MqttClient.Spawned | MqttClient.InLoop MqttClient.AtWhile => true
  | _ => false
  end.

(* --------------------------------------------------------------------- *)
(** ** Decay Model *)
(* --------------------------------------------------------------------- *)

(** A value of [random()]. *)
Definition unit_draw (r : R) : Prop := (0 <= r < 1)%R.

Definition unit_draws (d : MockSimulator.UpdateDraws) : Prop :=
  unit_draw (MockSimulator.r_h2s d) /\ unit_draw (MockSimulator.r_methane d)
  /\ unit_draw (MockSimulator.r_ammonia d)
  /\ unit_draw (MockSimulator.r_temp d)
  /\ unit_draw (MockSimulator.r_humidity d).

(** Draws whose three noise terms are zero (the middle of the interval). *)
Definition centred (d : MockSimulator.UpdateDraws) : Prop :=
  MockSimulator.r_h2s d = (1 / 2)%R /\ MockSimulator.r_methane d = (1 / 2)%R
  /\ MockSimulator.r_ammonia d = (1 / 2)%R.

(* ===================================================================== *)
(** * Properties *)
(* ===================================================================== *)

(** ** Shared facts *)

Lemma severity_of_name_sound (n : string) (s : Severity) :
  severity_of_name n = Some s -> n = severity_name s.
Proof.
  unfold severity_of_name.
  destruct (String.eqb_spec n "SAFE") as [-> | _]; [intros [= <-]; reflexivity |].
  destruct (String.eqb_spec n "WARNING") as [-> | _]; [intros [= <-]; reflexivity |].
  destruct (String.eqb_spec n "SPOILED") as [-> | _]; [intros [= <-]; reflexivity |].
  destruct (String.eqb_spec n "CRITICAL") as [-> | _]; [intros [= <-]; reflexivity |].
  discriminate.
Qed.

Lemma severity_of_name_complete (s : Severity) :
  severity_of_name (severity_name s) = Some s.
Proof. destruct s; reflexivity. Qed.

Lemma more_severe_upper (a b : Severity) :
  severity_rank a <= severity_rank (more_severe a b)
  /\ severity_rank b <= severity_rank (more_severe a b).
Proof. destruct a, b; cbn; lia. Qed.

Lemma Qle_bool_Qeq (a x y : Q) : (x == y)%Q -> Qle_bool a x = Qle_bool a y.
Proof.
  intros E. destruct (Qle_bool a y) eqn:Hy.
  - apply Qle_bool_iff. apply Qle_bool_iff in Hy. now rewrite E.
  - destruct (Qle_bool a x) eqn:Hx; [| reflexivity].
    apply Qle_bool_iff in Hx. rewrite E in Hx.
    apply Qle_bool_iff in Hx. congruence.
Qed.

(* --------------------------------------------------------------------- *)
(** ** Fusion Engine: the primary rule *)
(* --------------------------------------------------------------------- *)

Lemma get_fusion_decision_status (visual : string) (gas : gmap string Q) :
  (MockData.get_fusion_decision visual gas).1 =
  severity_name
    (primary_fusion_rule (verdict_of visual) (gas_critical gas) (gas_low gas)).
Proof.
  unfold MockData.get_fusion_decision, primary_fusion_rule, verdict_of,
    gas_critical, gas_low, h2s_of, methane_of.
  destruct (String.eqb visual "Rotten"), (String.eqb visual "Fresh"),
    (Qle_bool 50 _), (Qle_bool 100 _), (Qle_bool 10 _), (Qle_bool 25 _);
    reflexivity.
Qed.

(** C3.  [get_fusion_decision] is the five-rule cascade of the design
    document applied in order (rotten or critical gas gives CRITICAL, then
    fresh and low gives SAFE, then fresh and elevated gives WARNING, then
    rotten and low gives SPOILED, anything else WARNING); hence every input
    yields one of the four severity levels, and an input whose visual
    verdict is absent (neither "Fresh" nor "Rotten") yields WARNING or
    CRITICAL, never SAFE. *)
Theorem get_fusion_decision_five_rules (visual : string)
    (gas : gmap string Q) :
  let status := (MockData.get_fusion_decision visual gas).1 in
  status =
    severity_name
      (primary_fusion_rule (verdict_of visual) (gas_critical gas)
         (gas_low gas))
  /\ (exists s : Severity, severity_of_name status = Some s)
  /\ (verdict_of visual = NoVerdict ->
      status <> "SAFE"
      /\ status = if gas_critical gas then "CRITICAL" else "WARNING").
Proof.
  cbv zeta. rewrite get_fusion_decision_status. split; [reflexivity |]. split.
  - eexists. apply severity_of_name_complete.
  - intros ->. unfold primary_fusion_rule.
    destruct (gas_critical gas), (gas_low gas); cbn; split;
      (discriminate || reflexivity).
Qed.

(** C4.  A "Rotten" verdict gives CRITICAL whatever the gas readings are,
    and no input at all makes [get_fusion_decision] return SPOILED: the
    rotten-and-gas-low branch cannot be reached. *)
Theorem get_fusion_decision_never_spoiled :
  (forall gas : gmap string Q,
     MockData.get_fusion_decision "Rotten" gas = ("CRITICAL", "#8B0000"))
  /\ (forall (visual : string) (gas : gmap string Q),
        (MockData.get_fusion_decision visual gas).1 <> "SPOILED").
Proof.
  split.
  - intros gas. reflexivity.
  - intros visual gas. unfold MockData.get_fusion_decision.
    destruct (String.eqb visual "Rotten"), (String.eqb visual "Fresh"),
      (Qle_bool 50 _), (Qle_bool 100 _), (Qle_bool 10 _), (Qle_bool 25 _);
      cbn; discriminate.
Qed.

(** C10.  The result of [get_fusion_decision] is a function of the visual
    verdict and of the 'h2s_ppm' and 'methane_ppm' entries alone: two gas
    dictionaries whose two entries (read as 0 when absent) are numerically
    equal give the same (status, colour) pair, whatever else they hold. *)
Theorem get_fusion_decision_reads_two_keys (visual : string)
    (gas1 gas2 : gmap string Q) :
  (default 0 (gas1 !! "h2s_ppm") == default 0 (gas2 !! "h2s_ppm"))%Q ->
  (default 0 (gas1 !! "methane_ppm") == default 0 (gas2 !! "methane_ppm"))%Q ->
  MockData.get_fusion_decision visual gas1 =
  MockData.get_fusion_decision visual gas2.
Proof.
  intros Hh Hm. unfold MockData.get_fusion_decision.
  rewrite !(Qle_bool_Qeq _ _ _ Hh), !(Qle_bool_Qeq _ _ _ Hm). reflexivity.
Qed.

Lemma get_fusion_decision_reads_two_keys_witness :
  MockData.get_fusion_decision "Fresh"
    (<["h2s_ppm" := 12%Q]> (<["ammonia_ppm" := 1%Q]> ∅)) =
  MockData.get_fusion_decision "Fresh"
    (<["h2s_ppm" := (24 # 2)%Q]>
       (<["ammonia_ppm" := 900%Q]> (<["co2_ppm" := 7%Q]> ∅))).
Proof.
  apply get_fusion_decision_reads_two_keys; vm_compute; reflexivity.
Defined.

Lemma get_fusion_decision_five_rules_witness :
  let status :=
    (MockData.get_fusion_decision "Unknown" (<["h2s_ppm" := 12%Q]> ∅)).1 in
  status <> "SAFE" /\ status = "WARNING".
Proof.
  destruct (get_fusion_decision_five_rules "Unknown"
              (<["h2s_ppm" := 12%Q]> ∅)) as (_ & _ & H).
  apply H. reflexivity.
Defined.

(* --------------------------------------------------------------------- *)
(** ** Fusion Engine: the gas status sub-function *)
(* --------------------------------------------------------------------- *)

(** What [determine_gas_status] computes: CRITICAL from the *_CRITICAL
    constants upwards, HIGH from the *_WARNING constants upwards, LOW below
    all three *_WARNING constants.  The *_FRESH constants are not read. *)
Lemma determine_gas_status_bands (h2s nh3 co2 : Q) :
  let r := MqttClientSimple.determine_gas_status h2s nh3 co2 in
  (r = "CRITICAL" <-> (100 <= h2s \/ 200 <= nh3 \/ 1200 <= co2)%Q)
  /\ (r = "LOW" <-> (h2s < 50 /\ nh3 < 100 /\ co2 < 800)%Q)
  /\ (r = "CRITICAL" \/ r = "HIGH" \/ r = "LOW").
Proof.
  cbv zeta. unfold MqttClientSimple.determine_gas_status.
  assert (B : forall a x : Q,
             (Qle_bool a x = true <-> (a <= x)%Q)
             /\ (Qle_bool a x = false <-> (x < a)%Q)).
  { intros a x. split; [apply Qle_bool_iff |].
    rewrite <- Bool.not_true_iff_false, Qle_bool_iff. split.
    - apply Qnot_le_lt.
    - apply Qlt_not_le. }
  destruct (Qle_bool Config.H2S_CRITICAL_THRESHOLD h2s) eqn:C1;
  destruct (Qle_bool Config.NH3_CRITICAL_THRESHOLD nh3) eqn:C2;
  destruct (Qle_bool Config.CO2_CRITICAL_THRESHOLD co2) eqn:C3;
  destruct (Qle_bool Config.H2S_WARNING_THRESHOLD h2s) eqn:W1;
  destruct (Qle_bool Config.NH3_WARNING_THRESHOLD nh3) eqn:W2;
  destruct (Qle_bool Config.CO2_WARNING_THRESHOLD co2) eqn:W3;
  cbn;
  apply B in C1; apply B in C2; apply B in C3;
  apply B in W1; apply B in W2; apply B in W3;
  unfold Config.H2S_CRITICAL_THRESHOLD, Config.NH3_CRITICAL_THRESHOLD,
    Config.CO2_CRITICAL_THRESHOLD, Config.H2S_WARNING_THRESHOLD,
    Config.NH3_WARNING_THRESHOLD, Config.CO2_WARNING_THRESHOLD in *;
  (repeat split; try discriminate; intros; try lra; auto 6;
   try (left; lra); try (right; left; lra); try (right; right; lra)).
Qed.

(** C1.  The three readings of the end-to-end scenario, evaluated on
    [determine_gas_status]: {h2s:5, nh3:15, co2:450} gives LOW, but
    {h2s:60, nh3:15, co2:450} gives HIGH (60 is below the constant 100 the
    function compares with) and {h2s:15, nh3:15, co2:450} gives LOW (15 is
    below the constant 50), where config.py's comments and the dashboard
    legend put H2S critical above 50 and warning from 10. *)
Theorem determine_gas_status_scenario :
  MqttClientSimple.determine_gas_status 5 15 450 = "LOW"
  /\ MqttClientSimple.determine_gas_status 60 15 450 = "HIGH"
  /\ MqttClientSimple.determine_gas_status 15 15 450 = "LOW".
Proof. repeat split; reflexivity. Qed.

(* --------------------------------------------------------------------- *)
(** ** Fusion Engine: reconciliation with the device's quality label *)
(* --------------------------------------------------------------------- *)

Lemma map_quality_level_table (label : string) :
  MqttClientSimple.map_quality_level label =
  severity_name (external_level label).
Proof.
  unfold MqttClientSimple.map_quality_level, external_level,
    Config.QUALITY_LEVEL_MAP.
  destruct (String.eqb_spec label "EXCELLENT") as [-> | N1]; [reflexivity |].
  destruct (String.eqb_spec label "GOOD") as [-> | N2]; [reflexivity |].
  destruct (String.eqb_spec label "FAIR") as [-> | N3]; [reflexivity |].
  destruct (String.eqb_spec label "POOR") as [-> | N4]; [reflexivity |].
  destruct (String.eqb_spec label "SPOILED") as [-> | N5]; [reflexivity |].
  rewrite !lookup_insert_ne by congruence. rewrite lookup_empty. reflexivity.
Qed.

Lemma fusion_reconciliation_status (label color : string) (s : Severity) :
  label <> "UNKNOWN" ->
  (App.fusion_reconciliation "mqtt" label (severity_name s, color)).1 =
  severity_name (more_severe s (external_level label)).
Proof.
  intros N. unfold App.fusion_reconciliation.
  rewrite map_quality_level_table.
  destruct (String.eqb_spec label "UNKNOWN") as [E | _]; [contradiction |].
  destruct s, (external_level label); reflexivity.
Qed.

(** C2.  With a device label other than the placeholder "UNKNOWN" (MQTT
    mode), the status after reconciliation is the more severe, under
    SAFE < WARNING < SPOILED < CRITICAL, of the fused status and the label
    taken through the table EXCELLENT/GOOD -> SAFE, FAIR/POOR -> WARNING,
    SPOILED -> SPOILED, anything else -> WARNING; so it is never less
    severe than the fused status or than the mapped label.  In particular
    fused SAFE with external SPOILED gives SPOILED and fused CRITICAL with
    external SAFE (label GOOD) gives CRITICAL. *)
Theorem fusion_reconciliation_more_severe (label fused color : string)
    (s : Severity) :
  label <> "UNKNOWN" ->
  severity_of_name fused = Some s ->
  let final := (App.fusion_reconciliation "mqtt" label (fused, color)).1 in
  MqttClientSimple.map_quality_level label =
    severity_name (external_level label)
  /\ final = severity_name (more_severe s (external_level label))
  /\ severity_rank s <= severity_rank (more_severe s (external_level label))
  /\ severity_rank (external_level label) <=
       severity_rank (more_severe s (external_level label))
  /\ (App.fusion_reconciliation "mqtt" "SPOILED" ("SAFE", color)).1
       = "SPOILED"
  /\ (App.fusion_reconciliation "mqtt" "GOOD" ("CRITICAL", color)).1
       = "CRITICAL".
Proof.
  intros N Hs. cbv zeta. apply severity_of_name_sound in Hs. subst fused.
  split; [apply map_quality_level_table |].
  split; [apply fusion_reconciliation_status; assumption |].
  split; [apply more_severe_upper |].
  split; [apply more_severe_upper |].
  split; reflexivity.
Qed.

Lemma fusion_reconciliation_more_severe_witness :
  (App.fusion_reconciliation "mqtt" "POOR" ("SAFE", "#00AA00")).1
  = "WARNING".
Proof.
  destruct (fusion_reconciliation_more_severe "POOR" "SAFE" "#00AA00" SAFE)
    as (_ & H & _).
  - discriminate.
  - reflexivity.
  - exact H.
Defined.

(* --------------------------------------------------------------------- *)
(** ** Decay Model: the temperature factor *)
(* --------------------------------------------------------------------- *)

Lemma temperature_factor_raises (t : R) :
  (10265 <= t)%R ->
  MockData._get_temperature_factor t = Raised OverflowError.
Proof.
  intros Ht. unfold MockData._get_temperature_factor.
  destruct (Rle_dec t 0) as [L | _]; [lra |].
  destruct (Rle_dec _ _) as [_ | G]; [reflexivity |].
  exfalso. apply G.
  unfold MockData.FLOAT_MAX_EXP, MockData.reference_temp. lra.
Qed.

Lemma temperature_factor_returns (t : R) :
  (t < 10265)%R ->
  exists f : R,
    MockData._get_temperature_factor t = Returned f
    /\ (0.1 <= f)%R
    /\ ((t <= 0)%R -> f = 0.1%R).
Proof.
  intros Ht. unfold MockData._get_temperature_factor.
  destruct (Rle_dec t 0) as [L | G].
  - exists 0.1%R. split; [reflexivity |]. split; [lra | reflexivity].
  - destruct (Rle_dec _ _) as [O | _].
    + exfalso. revert O.
      unfold MockData.FLOAT_MAX_EXP, MockData.reference_temp. lra.
    + eexists. split; [reflexivity |]. split; [apply Rmax_l |].
      intros L. contradiction.
Qed.

Lemma temperature_factor_le (t1 t2 f1 f2 : R) :
  (t1 <= t2)%R ->
  MockData._get_temperature_factor t1 = Returned f1 ->
  MockData._get_temperature_factor t2 = Returned f2 ->
  (0.1 <= f1 <= f2)%R.
Proof.
  intros Hle. unfold MockData._get_temperature_factor.
  destruct (Rle_dec t1 0) as [L1 | G1].
  - intros [= <-].
    destruct (Rle_dec t2 0) as [L2 | G2]; [intros [= <-]; lra |].
    destruct (Rle_dec _ _); [discriminate |]. intros [= <-].
    split; [lra | apply Rmax_l].
  - destruct (Rle_dec t2 0) as [L2 | G2]; [lra |].
    destruct (Rle_dec _ _); [discriminate |]. intros [= <-].
    destruct (Rle_dec _ _); [discriminate |]. intros [= <-].
    split; [apply Rmax_l |].
    apply Rle_max_compat_l.
    apply Rle_Rpower; unfold MockData.q10_coefficient, MockData.reference_temp;
      lra.
Qed.

(** C7.  Over the reals (finite floats), and for the temperatures at which
    the call returns, those below 10265 degrees: the temperature factor is at least
    0.1, does not decrease when the temperature increases, and is exactly
    0.1 at every temperature not above 0 degrees.  From 10265 degrees on
    [2.0 ** x] no longer fits a float and the call raises [OverflowError]
    instead of returning a factor. *)
Theorem temperature_factor_monotone (t1 t2 : R) :
  (t1 <= t2)%R -> (t2 < 10265)%R ->
  (exists f1 f2 : R,
     MockData._get_temperature_factor t1 = Returned f1
     /\ MockData._get_temperature_factor t2 = Returned f2
     /\ (0.1 <= f1)%R
     /\ (f1 <= f2)%R
     /\ ((t1 <= 0)%R -> f1 = 0.1%R))
  /\ (forall t : R,
        (10265 <= t)%R ->
        MockData._get_temperature_factor t = Raised OverflowError).
Proof.
  intros Hle Hlt. split; [| apply temperature_factor_raises].
  destruct (temperature_factor_returns t1) as (f1 & E1 & F1 & Z1); [lra |].
  destruct (temperature_factor_returns t2 Hlt) as (f2 & E2 & _).
  exists f1, f2. split; [exact E1 |]. split; [exact E2 |].
  split; [exact F1 |]. split; [| exact Z1].
  apply (temperature_factor_le t1 t2 f1 f2 Hle E1 E2).
Qed.

Lemma temperature_factor_monotone_witness :
  exists f1 f2 : R,
    MockData._get_temperature_factor (-5) = Returned f1
    /\ MockData._get_temperature_factor 30 = Returned f2
    /\ (0.1 <= f1)%R /\ (f1 <= f2)%R /\ f1 = 0.1%R.
Proof.
  destruct (temperature_factor_monotone (-5) 30)
    as [(f1 & f2 & E1 & E2 & A & B & C) _]; [lra | lra |].
  exists f1, f2. repeat (split; [assumption |]). apply C. lra.
Defined.

(** The claim as worded ("for all temperatures") fails at 10265 degrees:
    the call returns no factor there. *)
Lemma temperature_factor_overflow :
  MockData._get_temperature_factor 10265 = Raised OverflowError.
Proof.
  unfold MockData._get_temperature_factor.
  destruct (Rle_dec 10265 0) as [L | _]; [lra |].
  destruct (Rle_dec _ _) as [_ | G]; [reflexivity |].
  exfalso. apply G.
  unfold MockData.FLOAT_MAX_EXP, MockData.reference_temp. lra.
Qed.

(* --------------------------------------------------------------------- *)
(** ** Reading Store: retention *)
(* --------------------------------------------------------------------- *)

(** C8.  With a retention of zero or less, [cleanup_old_data] returns
    normally, leaves the three tables as they are (so their row counts are
    unchanged) and only logs that retention is disabled. *)
Theorem cleanup_old_data_disabled (retention_days : Z) (w : World) :
  (retention_days <= 0)%Z ->
  let r := DbManager.cleanup_old_data (Some retention_days) w in
  r.1 = Returned tt
  /\ db r.2 = db w
  /\ DbManager.row_counts (db r.2) = DbManager.row_counts (db w)
  /\ logs r.2 =
       (logs w
        ++ [mkLog LINFO "Data retention is disabled (retention_days <= 0)"])%list.
Proof.
  intros Hle. apply Z.leb_le in Hle.
  cbv zeta. unfold DbManager.cleanup_old_data.
  change (default Config.DB_RETENTION_DAYS (Some retention_days))
    with retention_days.
  rewrite Hle. repeat split.
Qed.

Lemma cleanup_old_data_disabled_witness :
  let r := DbManager.cleanup_old_data (Some 0%Z) sample_world in
  r.1 = Returned tt /\ DbManager.row_counts (db r.2) = (2, 1, 1).
Proof.
  destruct (cleanup_old_data_disabled 0 sample_world) as (A & _ & C & _);
    [lia |].
  split; [exact A | exact C].
Defined.

(** The deleting branch does delete: the same store loses its rows older
    than the cut-off when the retention is positive. *)
Example cleanup_old_data_enabled :
  DbManager.row_counts
    (db (DbManager.cleanup_old_data (Some 90%Z) sample_world).2) = (1, 0, 0).
Proof. vm_compute. reflexivity. Qed.

(* --------------------------------------------------------------------- *)
(** ** Bus Client: message handling *)
(* --------------------------------------------------------------------- *)

Section MessageHandling.
Context `{Library}.

Lemma storable_number_ok (v : pyval) :
  storable_number v = true -> format_f v = None /\ insertable v.
Proof.
  assert (Hbig : (DbManager.INT64_MAX + 1 < FLOAT_INT_LIMIT)%Z)
    by (vm_compute; reflexivity).
  unfold insertable, storable_number, format_f, DbManager.bind_error,
    DbManager.binds_null.
  destruct v; try discriminate; auto.
  intros Hz. apply andb_prop in Hz as [Hlo Hhi].
  apply Z.leb_le in Hlo, Hhi.
  set (limit := FLOAT_INT_LIMIT) in *. clearbody limit.
  unfold DbManager.INT64_MIN, DbManager.INT64_MAX in *.
  destruct (Z.leb_spec limit (Z.abs z)); [lia |].
  destruct (Z.ltb_spec z (-9223372036854775808)); [lia |].
  destruct (Z.ltb_spec 9223372036854775807 z); [lia |].
  auto.
Qed.


Lemma encodable_sentinel : encodable "ESP32-Sensor" = true.
Proof. apply encodable_ascii. reflexivity. Qed.

Lemma get_number_or_absent (s : gmap string pyval) (k : string) :
  number_or_absent (s !! k) = true ->
  format_f (default (PNum 0.0) (s !! k)) = None
  /\ insertable (default (PNum 0.0) (s !! k)).
Proof.
  destruct (s !! k) as [v |]; cbn [default number_or_absent];
    [apply storable_number_ok | intros _; repeat split].
Qed.

Lemma get_text_or_absent (q : gmap string pyval) :
  text_or_absent (q !! "level") = true ->
  insertable (default (PStr "UNKNOWN") (q !! "level")).
Proof.
  unfold insertable.
  destruct (q !! "level") as [[] |]; cbn; try discriminate; auto.
  - intros ->. auto.
  - intros _. rewrite encodable_ascii by reflexivity. auto.
Qed.

Lemma get_member (d : gmap string pyval) (k : string) :
  object_or_absent (d !! k) = true ->
  Py.get (PDict d) k (PDict ∅) =
  inr (PDict (match d !! k with Some (PDict s) => s | _ => ∅ end)).
Proof. cbn. destruct (d !! k) as [[] |]; cbn; try discriminate; auto. Qed.

Lemma insert_reading_dict_cases (now : Z)
    (temp hum co2 h2s nh3 quality : pyval) (w : World) :
  (exists e,
     DbManager.insert_sensor_reading
       (reading_dict now temp hum co2 h2s nh3 quality) w =
     (Raised e,
      mkWorld (db w) (client w)
        (logs w ++ [mkLog LERROR "Error inserting sensor reading"])
        (clock w)))
  \/ (Forall insertable [temp; hum; co2; h2s; nh3; quality]
      /\ (sensor_seq (db w) < DbManager.INT64_MAX)%Z
      /\ DbManager.insert_sensor_reading
           (reading_dict now temp hum co2 h2s nh3 quality) w =
         (Returned (sensor_seq (db w) + 1)%Z,
          mkWorld
            (mkDatabase
               (sensor_readings (db w)
                ++ [mkSensorReading (sensor_seq (db w) + 1) (clock w)
                      (PStr "ESP32-Sensor") temp hum co2 h2s nh3 quality
                      PNone "{}"])
               (sensor_seq (db w) + 1)
               (visual_predictions (db w)) (fusion_decisions (db w)))
            (client w)
            (logs w ++ [mkLog LDEBUG "Inserted sensor reading with ID"])
            (clock w))).
Proof.
  unfold DbManager.insert_sensor_reading, try_except, reading_dict,
    DbManager.getitem, mbind, M_bind.
  lookup_key. cbn [default DbManager.parse_timestamp].
  rewrite json_dumps_empty.
  unfold mret, M_ret, datetime_now.
  lookup_key.
  unfold DbManager.execute_insert_sensor, insertable.
  cbn [omap list_omap DbManager.bind_error].
  rewrite encodable_sentinel.
  destruct (DbManager.bind_error temp) eqn:B1;
    [left; eexists; reflexivity |].
  destruct (DbManager.bind_error hum) eqn:B2;
    [left; eexists; reflexivity |].
  destruct (DbManager.bind_error co2) eqn:B3;
    [left; eexists; reflexivity |].
  destruct (DbManager.bind_error h2s) eqn:B4;
    [left; eexists; reflexivity |].
  destruct (DbManager.bind_error nh3) eqn:B5;
    [left; eexists; reflexivity |].
  destruct (DbManager.bind_error quality) eqn:B6;
    [left; eexists; reflexivity |].
  cbn [existsb DbManager.binds_null orb].
  destruct (DbManager.binds_null temp) eqn:N1;
    [left; eexists; reflexivity |].
  destruct (DbManager.binds_null hum) eqn:N2;
    [left; eexists; reflexivity |].
  destruct (DbManager.binds_null co2) eqn:N3;
    [left; eexists; reflexivity |].
  destruct (DbManager.binds_null h2s) eqn:N4;
    [left; eexists; reflexivity |].
  destruct (DbManager.binds_null nh3) eqn:N5;
    [left; eexists; reflexivity |].
  destruct (DbManager.binds_null quality) eqn:N6;
    [left; eexists; reflexivity |].
  unfold mbind, M_bind, get_db.
  cbn [orb db DbManager.parse_timestamp datetime_now].
  destruct (Z.leb_spec DbManager.INT64_MAX (sensor_seq (db w))) as [F | F];
    [left; eexists; reflexivity |].
  right. split; [| split; [exact F | reflexivity]].
  repeat (apply Forall_cons_2; [split; assumption |]). apply Forall_nil_2.
Qed.

Lemma insert_sensor_reading_ok (now : Z)
    (temp hum co2 h2s nh3 quality : pyval) (w : World) :
  Forall insertable [temp; hum; co2; h2s; nh3; quality] ->
  (sensor_seq (db w) < DbManager.INT64_MAX)%Z ->
  DbManager.insert_sensor_reading
    (reading_dict now temp hum co2 h2s nh3 quality) w =
  (Returned (sensor_seq (db w) + 1)%Z,
   mkWorld
     (mkDatabase
        (sensor_readings (db w)
         ++ [mkSensorReading (sensor_seq (db w) + 1) (clock w)
               (PStr "ESP32-Sensor") temp hum co2 h2s nh3 quality PNone "{}"])
        (sensor_seq (db w) + 1)
        (visual_predictions (db w)) (fusion_decisions (db w)))
     (client w)
     (logs w ++ [mkLog LDEBUG "Inserted sensor reading with ID"])
     (clock w)).
Proof.
  intros Hok Hseq.
  destruct (insert_reading_dict_cases now temp hum co2 h2s nh3 quality w)
    as [[e E] | (_ & _ & E)]; [| exact E].
  exfalso. revert E.
  rewrite !Forall_cons in Hok.
  destruct Hok as ([B1 N1] & [B2 N2] & [B3 N3] & [B4 N4] & [B5 N5]
                   & [B6 N6] & _).
  unfold DbManager.insert_sensor_reading, try_except, reading_dict,
    DbManager.getitem, mbind, M_bind.
  lookup_key. cbn [default DbManager.parse_timestamp].
  rewrite json_dumps_empty.
  unfold mret, M_ret, datetime_now.
  lookup_key.
  unfold DbManager.execute_insert_sensor.
  cbn [omap list_omap DbManager.bind_error].
  rewrite encodable_sentinel, B1, B2, B3, B4, B5, B6.
  cbn [existsb DbManager.binds_null orb].
  rewrite N1, N2, N3, N4, N5, N6.
  unfold mbind, M_bind, get_db.
  cbn [orb db DbManager.parse_timestamp datetime_now].
  destruct (Z.leb_spec DbManager.INT64_MAX (sensor_seq (db w))); [lia |].
  discriminate.
Qed.

Lemma format_all_numbers (a b c d e : pyval) (w : World) :
  format_f a = None -> format_f b = None -> format_f c = None ->
  format_f d = None -> format_f e = None ->
  MqttClientSimple.format_all [a; b; c; d; e] w = (Returned tt, w).
Proof.
  intros Ha Hb Hc Hd He. unfold MqttClientSimple.format_all.
  cbn. rewrite Ha, Hb, Hc, Hd, He. reflexivity.
Qed.

Lemma process_sensor_data_run (payload : string) (d : gmap string pyval)
    (w : World) :
  json_loads payload = Some (PDict d) ->
  telemetry_shape (PDict d) = true ->
  (sensor_seq (db w) < DbManager.INT64_MAX)%Z ->
  let field k := default (PNum 0.0) (sensors_of (PDict d) !! k) in
  let w1 :=
    mkWorld (db w) (client w)
      (logs w ++ [mkLog LINFO "Processed sensor data"]) (clock w) in
  Forall insertable
    [field "temperature"; field "humidity"; field "mq135_co2";
     field "mq136_h2s"; field "mq137_nh3";
     default (PStr "UNKNOWN") (quality_of (PDict d) !! "level")]
  /\ MqttClientSimple._process_sensor_data payload w =
     (Returned tt,
      (DbManager.insert_sensor_reading
         (reading_dict (clock w) (field "temperature") (field "humidity")
            (field "mq135_co2") (field "mq136_h2s") (field "mq137_nh3")
            (default (PStr "UNKNOWN") (quality_of (PDict d) !! "level")))
         w1).2).
Proof.
  intros Hload Hshape Hseq. cbv zeta.
  cbn [telemetry_shape] in Hshape.
  apply andb_prop in Hshape as [Hshape Hlevel].
  apply andb_prop in Hshape as [Hshape Hfields].
  apply andb_prop in Hshape as [Hsens Hqual].
  cbn [forallb required_fields] in Hfields.
  destruct (andb_prop _ _ Hfields) as [F1 Hf1].
  destruct (andb_prop _ _ Hf1) as [F2 Hf2].
  destruct (andb_prop _ _ Hf2) as [F3 Hf3].
  destruct (andb_prop _ _ Hf3) as [F4 Hf4].
  destruct (andb_prop _ _ Hf4) as [F5 _].
  clear Hfields Hf1 Hf2 Hf3 Hf4.
  apply get_number_or_absent in F1 as (P1 & I1).
  apply get_number_or_absent in F2 as (P2 & I2).
  apply get_number_or_absent in F3 as (P3 & I3).
  apply get_number_or_absent in F4 as (P4 & I4).
  apply get_number_or_absent in F5 as (P5 & I5).
  apply get_text_or_absent in Hlevel as I6.
  assert (Hok : Forall insertable
    [default (PNum 0.0) (sensors_of (PDict d) !! "temperature");
     default (PNum 0.0) (sensors_of (PDict d) !! "humidity");
     default (PNum 0.0) (sensors_of (PDict d) !! "mq135_co2");
     default (PNum 0.0) (sensors_of (PDict d) !! "mq136_h2s");
     default (PNum 0.0) (sensors_of (PDict d) !! "mq137_nh3");
     default (PStr "UNKNOWN") (quality_of (PDict d) !! "level")])
    by (repeat (apply Forall_cons_2; [assumption |]); apply Forall_nil_2).
  split; [exact Hok |].
  unfold MqttClientSimple._process_sensor_data, try_except.
  unfold mbind, M_bind. rewrite Hload. cbn [mret M_ret].
  rewrite !get_member by assumption.
  cbn [lift Py.get mret M_ret].
  change (match d !! "sensors" with Some (PDict s) => s | _ => ∅ end)
    with (sensors_of (PDict d)).
  change (match d !! "quality" with Some (PDict s) => s | _ => ∅ end)
    with (quality_of (PDict d)).
  rewrite format_all_numbers by assumption.
  cbn [log datetime_now clock].
  match goal with
  | |- context [DbManager.insert_sensor_reading ?m ?x] =>
      change (DbManager.insert_sensor_reading m x)
        with (DbManager.insert_sensor_reading
                (reading_dict (clock w)
                   (default (PNum 0.0) (sensors_of (PDict d) !! "temperature"))
                   (default (PNum 0.0) (sensors_of (PDict d) !! "humidity"))
                   (default (PNum 0.0) (sensors_of (PDict d) !! "mq135_co2"))
                   (default (PNum 0.0) (sensors_of (PDict d) !! "mq136_h2s"))
                   (default (PNum 0.0) (sensors_of (PDict d) !! "mq137_nh3"))
                   (default (PStr "UNKNOWN")
                      (quality_of (PDict d) !! "level")))
                x)
  end.
  rewrite !insert_sensor_reading_ok by (first [exact Hok | exact Hseq]).
  reflexivity.
Qed.

Lemma get_cases (v : pyval) (k : string) (dflt : pyval) (w : World) :
  lift (Py.get v k dflt) w = (Raised AttributeError, w)
  \/ exists x, lift (Py.get v k dflt) w = (Returned x, w).
Proof. destruct v; cbn; eauto. Qed.

Lemma format_all_cases (vs : list pyval) (w : World) :
  (exists e, MqttClientSimple.format_all vs w = (Raised e, w))
  \/ MqttClientSimple.format_all vs w = (Returned tt, w).
Proof.
  unfold MqttClientSimple.format_all.
  destruct (omap format_f vs); [right | left]; eauto.
Qed.

Lemma parse_timestamp_cases (ts : pyval) (w : World) :
  (exists e, DbManager.parse_timestamp ts w = (Raised e, w))
  \/ exists t, DbManager.parse_timestamp ts w = (Returned t, w).
Proof.
  destruct ts; cbn; eauto.
  - destruct (fromtimestamp _) as [e | t]; cbn; eauto.
  - destruct (_ <=? _)%Z; cbn; eauto.
    destruct (fromtimestamp _) as [e | t]; cbn; eauto.
  - destruct (fromtimestamp _) as [e | t]; cbn; eauto.
  - destruct (fromisoformat (replace_Z s)); eauto.
Qed.

Lemma insert_sensor_reading_rows (data : gmap string pyval) (w : World) :
  let r := DbManager.insert_sensor_reading data w in
  db r.2 = db w
  \/ exists row : SensorReading,
       sensor_readings (db r.2) = (sensor_readings (db w) ++ [row])%list
       /\ data !! "device_id" = Some (device_id row).
Proof.
  cbv zeta.
  unfold DbManager.insert_sensor_reading, try_except, mbind, M_bind,
    DbManager.getitem, DbManager.execute_insert_sensor.
  destruct (data !! "timestamp") as [ts |]; [| left; reflexivity].
  cbn [mret M_ret].
  destruct (parse_timestamp_cases ts w) as [[e ->] | [t ->]];
    [left; reflexivity |].
  destruct (json_dumps _); [| left; reflexivity].
  cbn [mret M_ret].
  destruct (data !! "device_id") as [dev |]; [| left; reflexivity].
  destruct (data !! "temperature"); [| left; reflexivity].
  destruct (data !! "humidity"); [| left; reflexivity].
  destruct (data !! "mq135_co2"); [| left; reflexivity].
  destruct (data !! "mq136_h2s"); [| left; reflexivity].
  destruct (data !! "mq137_nh3"); [| left; reflexivity].
  destruct (data !! "quality_level"); [| left; reflexivity].
  cbn [mret M_ret].
  destruct (omap _ _); [| left; reflexivity].
  destruct (existsb _ _); [left; reflexivity |].
  unfold mbind, M_bind, get_db. cbn beta iota.
  destruct (_ <=? _)%Z; [left; reflexivity |].
  right. eexists. cbn. split; reflexivity.
Qed.

Lemma process_sensor_data_outcomes (payload : string) (w : World) :
  (exists (before : list LogRecord) (t : string),
     MqttClientSimple._process_sensor_data payload w =
     (Returned tt,
      mkWorld (db w) (client w) (logs w ++ before ++ [mkLog LERROR t])
        (clock w)))
  \/ (exists data : pyval,
        json_loads payload = Some data
        /\ Forall
             (fun k => insertable (default (PNum 0.0) (sensors_of data !! k)))
             required_fields
        /\ MqttClientSimple._process_sensor_data payload w =
           (Returned tt,
            mkWorld
              (mkDatabase
                 (sensor_readings (db w)
                  ++ [telemetry_row data (sensor_seq (db w) + 1) (clock w)])
                 (sensor_seq (db w) + 1)
                 (visual_predictions (db w)) (fusion_decisions (db w)))
              (client w)
              (logs w ++ [mkLog LINFO "Processed sensor data";
                          mkLog LDEBUG "Inserted sensor reading with ID"])
              (clock w))).
Proof.
  unfold MqttClientSimple._process_sensor_data, try_except, mbind, M_bind.
  destruct (json_loads payload) as [data |] eqn:El;
    [| left; exists [], "Error parsing sensor data JSON"; reflexivity].
  cbn [mret M_ret].
  destruct data as [| | | | | | | | | d];
    try (left; exists [], "Error processing sensor data"; reflexivity).
  cbn [lift Py.get mret M_ret].
  destruct (d !! "sensors") as [[| | | | | | | | | s] |] eqn:Es;
    cbn [default from_option Datatypes.id lift Py.get mret M_ret raise];
    try (left; exists [], "Error processing sensor data"; reflexivity);
    (destruct (d !! "quality") as [[| | | | | | | | | q] |] eqn:Eq;
     cbn [default from_option Datatypes.id lift Py.get mret M_ret raise];
     try (left; exists [], "Error processing sensor data"; reflexivity));
    (match goal with
     | |- context [MqttClientSimple.format_all ?vs ?x] =>
         destruct (format_all_cases vs x) as [[e E] | E]; rewrite E; clear E
     end;
     [destruct e; left; exists []; eexists; reflexivity |]);
    cbn [log datetime_now clock];
    (match goal with
     | |- context [DbManager.insert_sensor_reading
                     (<["timestamp" := PDateTime ?now]>
                      (<["device_id" := _]>
                      (<["temperature" := ?t]>
                      (<["humidity" := ?h]>
                      (<["mq135_co2" := ?c]>
                      (<["mq136_h2s" := ?s]>
                      (<["mq137_nh3" := ?n]>
                      (<["quality_level" := ?q]> ∅)))))))) ?x] =>
         destruct (insert_reading_dict_cases now t h c s n q x)
           as [[e E] | (Hok & _ & E)];
         unfold reading_dict in E; rewrite E; clear E
     end;
     [destruct e; left;
      exists [mkLog LINFO "Processed sensor data";
              mkLog LERROR "Error inserting sensor reading"];
      eexists; unfold log; cbn [db client logs clock];
      rewrite <- !app_assoc; reflexivity |]);
    right; eexists; (split; [reflexivity |]);
    rewrite !Forall_cons in Hok;
    destruct Hok as (I1 & I2 & I3 & I4 & I5 & _);
    unfold telemetry_row, required_fields; cbn [sensors_of quality_of];
    rewrite ?Es, ?Eq;
    (split;
     [repeat (apply Forall_cons_2; [assumption |]); apply Forall_nil_2 |]);
    cbn [mret M_ret db client logs clock];
    rewrite <- !app_assoc; reflexivity.
Qed.

Lemma process_sensor_data_any_payload (payload : string) (w : World) :
  let r := MqttClientSimple._process_sensor_data payload w in
  r.1 = Returned tt
  /\ (db r.2 = db w
      \/ exists row : SensorReading,
           sensor_readings (db r.2) = (sensor_readings (db w) ++ [row])%list
           /\ device_id row = PStr "ESP32-Sensor").
Proof.
  cbv zeta.
  destruct (process_sensor_data_outcomes payload w)
    as [(before & t & ->) | (data & _ & _ & ->)].
  - split; [reflexivity | left; reflexivity].
  - split; [reflexivity | right]. eexists. split; reflexivity.
Qed.



(** C5.  A non-parseable payload delivered on the telemetry topic leaves
    the store untouched (no row is inserted), makes the handler log an
    error, and the handler returns normally: nothing is raised to the
    network loop that called it. *)
Theorem on_message_malformed_dropped (msg : MqttClientSimple.MQTTMessage)
    (w : World) :
  MqttClientSimple.msg_topic msg = topic (client w) ->
  non_parseable (MqttClientSimple.msg_payload msg) ->
  let r := MqttClientSimple._on_message msg w in
  r.1 = Returned tt
  /\ db r.2 = db w
  /\ sensor_readings (db r.2) = sensor_readings (db w)
  /\ exists (before after : list LogRecord) (t : string),
       logs r.2 = (logs w ++ before ++ [mkLog LERROR t] ++ after)%list.
Proof.
  intros Htopic Hbad. cbv zeta. unfold non_parseable in Hbad.
  unfold MqttClientSimple._on_message, try_except, mbind, M_bind.
  destruct (utf8_decode (MqttClientSimple.msg_payload msg)) as [text |].
  - cbn [mret M_ret log get_self client].
    rewrite Htopic, String.eqb_refl.
    unfold MqttClientSimple._process_sensor_data, try_except, mbind, M_bind.
    rewrite Hbad. cbn [raise log get_self put_self client db logs].
    destruct (on_message_callback (client w)) as [callback |].
    + destruct (callback (topic (client w)) text) as [e |].
      * cbn. repeat split.
        exists [mkLog LDEBUG "Received message on topic"],
          [mkLog LERROR "Error processing MQTT message"],
          "Error parsing sensor data JSON".
        rewrite <- !app_assoc. reflexivity.
      * cbn. repeat split.
        exists [mkLog LDEBUG "Received message on topic"], [],
          "Error parsing sensor data JSON".
        rewrite <- !app_assoc. reflexivity.
    + cbn. repeat split.
      exists [mkLog LDEBUG "Received message on topic"], [],
        "Error parsing sensor data JSON".
      rewrite <- !app_assoc. reflexivity.
  - cbn. repeat split.
    exists [], [], "Error processing MQTT message". reflexivity.
Qed.

End MessageHandling.


(** The payload whose H2S reading is [2 ** 63] parses, and is dropped: the
    store is as before and the last record logged is an error. *)
Example process_sensor_data_oversized :
  let r :=
    MqttClientSimple._process_sensor_data oversized_payload sample_world in
  r.1 = Returned tt
  /\ db r.2 = sample_db
  /\ last (logs r.2) = Some (mkLog LERROR "Error processing sensor data").
Proof. vm_compute. repeat split. Qed.

Lemma on_message_malformed_dropped_witness :
  let r :=
    MqttClientSimple._on_message
      (MqttClientSimple.mkMessage Config.MQTT_TOPIC
         (list_byte_of_string "not json"))
      sample_world in
  r.1 = Returned tt /\ db r.2 = sample_db.
Proof.
  destruct (on_message_malformed_dropped
              (MqttClientSimple.mkMessage Config.MQTT_TOPIC
                 (list_byte_of_string "not json"))
              sample_world) as (A & B & _).
  - reflexivity.
  - reflexivity.
  - split; [exact A | exact B].
Defined.

(* --------------------------------------------------------------------- *)
(** ** Bus Client: starting twice *)
(* --------------------------------------------------------------------- *)

Lemma count_insert (P : MqttClient.thread_state -> bool)
    (l : list MqttClient.thread_state) (i : nat)
    (t t' : MqttClient.thread_state) :
  l !! i = Some t ->
  length (filter (fun x => P x = true) (<[i := t']> l))
  + (if P t then 1 else 0)
  = length (filter (fun x => P x = true) l) + (if P t' then 1 else 0).
Proof.
  revert i. induction l as [| a l IH]; intros i Et; [discriminate Et |].
  destruct i as [| i]; cbn [list_insert insert].
  - cbn in Et. injection Et as ->. rewrite !filter_cons.
    destruct (decide (P t' = true)) as [E' | E'],
      (decide (P t = true)) as [E | E];
      destruct (P t), (P t'); try congruence; cbn [length];
      rewrite ?Nat.add_0_r, ?Nat.add_1_r; reflexivity.
  - cbn in Et. specialize (IH i Et). rewrite !filter_cons.
    destruct (decide (P a = true)); cbn [length Nat.add];
      [f_equal |]; exact IH.
Qed.

Lemma run_fields (i : nat) (r : MqttClient.connect_result)
    (c : MqttClient.MQTTClient) (t : MqttClient.thread_state) :
  MqttClient.threads c !! i = Some t ->
  exists t' : MqttClient.thread_state,
    MqttClient.keep_running (MqttClient._run i r c) = MqttClient.keep_running c
    /\ MqttClient._started (MqttClient._run i r c) = MqttClient._started c
    /\ MqttClient.threads (MqttClient._run i r c) =
         <[i := t']> (MqttClient.threads c)
    /\ (MqttClient.in_loop t' = true ->
        MqttClient.in_loop t = true \/ MqttClient.keep_running c = true).
Proof.
  intros Et. unfold MqttClient._run. rewrite Et.
  destruct t as [| [] |];
    destruct (MqttClient.keep_running c) eqn:K,
      (MqttClient.connected c) eqn:Ec, (MqttClient._loop_started c) eqn:El, r;
    try (eexists; cbn; rewrite ?K; repeat split; auto; fail);
    exists MqttClient.Exited; rewrite ?K, ?Ec, ?El;
    (repeat split; [symmetry; apply list_insert_id; exact Et | discriminate]).
Qed.

Lemma single_loop_scheduled (c : MqttClient.MQTTClient) (i : nat)
    (t t' : MqttClient.thread_state) (c' : MqttClient.MQTTClient) :
  MqttClient.threads c !! i = Some t ->
  MqttClient.keep_running c' = MqttClient.keep_running c ->
  MqttClient._started c' = MqttClient._started c ->
  MqttClient.threads c' = <[i := t']> (MqttClient.threads c) ->
  (MqttClient.in_loop t' = true ->
   MqttClient.in_loop t = true \/ MqttClient.keep_running c = true) ->
  single_loop c -> single_loop c'.
Proof.
  intros Et Ek Es Eth Hin [Hrun Hloops].
  assert (Hsome : MqttClient.threads c <> []).
  { intros E. rewrite E in Et. discriminate. }
  unfold single_loop, MqttClient.loops, MqttClient.count_threads in *.
  rewrite Ek, Es, Eth.
  pose proof (count_insert MqttClient.in_loop _ i t t' Et) as Hc.
  split.
  - intros K. destruct (Hrun K) as [Hlen Hnone].
    rewrite length_insert. split; [exact Hlen |].
    intros E. destruct (Hsome (Hnone E)).
  - destruct (MqttClient.keep_running c) eqn:K.
    + destruct (Hrun eq_refl) as [Hlen _].
      etransitivity; [apply length_filter |].
      rewrite length_insert. exact Hlen.
    + destruct (MqttClient.in_loop t') eqn:E'.
      * destruct (Hin eq_refl) as [E | E]; [| discriminate E].
        rewrite E in Hc. lia.
      * destruct (MqttClient.in_loop t); lia.
Qed.

Lemma single_loop_init : single_loop MqttClient.__init__.
Proof. repeat split; cbn; auto. Qed.

Lemma single_loop_step (c : MqttClient.MQTTClient) (e : MqttClient.event) :
  single_loop c -> single_loop (MqttClient.step c e).
Proof.
  intros [Hrun Hloops].
  destruct e as [| raised | raised | r | rc | | i r]; cbn [MqttClient.step].
  - (* start *)
    unfold MqttClient.start. destruct (MqttClient._started c) eqn:Es.
    + split; [cbn; rewrite Es; exact Hrun | exact Hloops].
    + split.
      * cbn. intros K. destruct (Hrun K) as [_ Hnone].
        rewrite (Hnone eq_refl). cbn. split; [lia | discriminate].
      * unfold MqttClient.loops, MqttClient.count_threads in *. cbn.
        rewrite filter_app, length_app. cbn.
        rewrite Nat.add_0_r. exact Hloops.
  - (* stop *)
    destruct raised; (split; [cbn; discriminate | exact Hloops]).
  - (* disconnect *)
    destruct raised; (split; [cbn; discriminate | exact Hloops]).
  - (* connect *)
    destruct r; (split; [exact Hrun | exact Hloops]).
  - (* _on_connect *)
    destruct rc; (split; [exact Hrun | exact Hloops]).
  - (* _on_disconnect *)
    split; [exact Hrun | exact Hloops].
  - (* a thread is scheduled *)
    destruct (MqttClient.threads c !! i) as [t |] eqn:Et.
    + destruct (run_fields i r c t Et) as (t' & Ek & Es & Eth & Hin).
      apply (single_loop_scheduled c i t t'); try assumption.
      split; assumption.
    + unfold MqttClient._run. rewrite Et. split; assumption.
Qed.

Lemma single_loop_run (es : list MqttClient.event) :
  single_loop (MqttClient.run es).
Proof.
  unfold MqttClient.run.
  generalize single_loop_init. generalize MqttClient.__init__.
  induction es as [| e es IH]; intros c Hc; [exact Hc |].
  cbn. apply IH. apply single_loop_step. exact Hc.
Qed.

(** C9.  [start] on a client that is already started changes nothing but
    the log, which gains the warning about the duplicate call: the flags
    and the list of threads are the same, so no second thread is created.
    Hence two calls in a row create the threads of one, and after any
    history of calls, callbacks and thread schedulings at most one thread
    of the client is inside the reconnection loop (and, until the client
    is told to stop, it owns at most one thread at all). *)
Theorem start_already_started (c : MqttClient.MQTTClient) :
  MqttClient._started c = true ->
  MqttClient.start c =
    MqttClient.emit LWARNING
      "MQTT client already started - ignoring duplicate start() call" c
  /\ MqttClient.threads (MqttClient.start c) = MqttClient.threads c
  /\ MqttClient.keep_running (MqttClient.start c) = MqttClient.keep_running c
  /\ MqttClient._started (MqttClient.start c) = true
  /\ MqttClient._loop_started (MqttClient.start c) = MqttClient._loop_started c
  /\ MqttClient.connected (MqttClient.start c) = MqttClient.connected c
  /\ (forall c0 : MqttClient.MQTTClient,
        MqttClient.threads (MqttClient.start (MqttClient.start c0)) =
        MqttClient.threads (MqttClient.start c0))
  /\ (forall es : list MqttClient.event,
        MqttClient.loops (MqttClient.run es) <= 1
        /\ (MqttClient.keep_running (MqttClient.run es) = true ->
            length (MqttClient.threads (MqttClient.run es)) <= 1)).
Proof.
  intros Hs. unfold MqttClient.start at 1 2 3 4 5 6. rewrite Hs. cbn.
  repeat (split; [reflexivity || exact Hs |]).
  split.
  - intros c0. unfold MqttClient.start.
    destruct (MqttClient._started c0) eqn:E0; cbn; rewrite ?E0; reflexivity.
  - intros es. destruct (single_loop_run es) as [Hrun Hloops].
    split; [exact Hloops |]. intros K. apply (Hrun K).
Qed.

Lemma start_already_started_witness :
  MqttClient.threads (MqttClient.run [MqttClient.CallStart; MqttClient.CallStart])
  = [MqttClient.Spawned]
  /\ MqttClient.threads
       (MqttClient.start (MqttClient.run [MqttClient.CallStart])) =
     MqttClient.threads (MqttClient.run [MqttClient.CallStart]).
Proof.
  split; [reflexivity |].
  destruct (start_already_started (MqttClient.run [MqttClient.CallStart]))
    as (_ & H & _); [reflexivity | exact H].
Defined.

(* --------------------------------------------------------------------- *)
(** ** Reading Store: queries, purge and identifiers *)
(* --------------------------------------------------------------------- *)

Lemma insert_by_timestamp_perm (r : SensorReading) (l : list SensorReading) :
  DbQueries.insert_by_timestamp r l ≡ₚ r :: l.
Proof.
  induction l as [| x l IH]; cbn; [reflexivity |].
  destruct (sr_timestamp r <=? sr_timestamp x)%Z; [reflexivity |].
  rewrite IH. apply perm_swap.
Qed.

Lemma order_by_timestamp_asc_perm (l : list SensorReading) :
  DbQueries.order_by_timestamp_asc l ≡ₚ l.
Proof.
  induction l as [| x l IH]; cbn; [reflexivity |].
  rewrite insert_by_timestamp_perm. now rewrite IH.
Qed.

Lemma insert_by_timestamp_ascending (r : SensorReading)
    (l : list SensorReading) :
  ascending l -> ascending (DbQueries.insert_by_timestamp r l).
Proof.
  unfold ascending. induction l as [| x l IH]; cbn; intros Hs.
  - constructor; [constructor | constructor].
  - apply StronglySorted_inv in Hs as [Hl Hx].
    destruct (Z.leb_spec (sr_timestamp r) (sr_timestamp x)) as [Hle | Hgt].
    + constructor; [constructor; assumption |].
      constructor; [exact Hle |].
      eapply Forall_impl; [exact Hx |]. cbn. intros; lia.
    + constructor; [apply IH; exact Hl |].
      rewrite insert_by_timestamp_perm. constructor; [lia | exact Hx].
Qed.

Lemma order_by_timestamp_asc_ascending (l : list SensorReading) :
  ascending (DbQueries.order_by_timestamp_asc l).
Proof.
  induction l as [| x l IH]; cbn; [constructor |].
  apply insert_by_timestamp_ascending, IH.
Qed.

Lemma StronglySorted_snoc {A : Type} (R : A -> A -> Prop) (l : list A)
    (x : A) :
  StronglySorted R l -> Forall (fun y => R y x) l ->
  StronglySorted R (l ++ [x]).
Proof.
  induction l as [| y l IH]; cbn; intros Hs Hf.
  - constructor; constructor.
  - apply StronglySorted_inv in Hs as [Hl Hy].
    apply Forall_cons_1 in Hf as [Hyx Hf].
    constructor; [apply IH; assumption |].
    apply Forall_app. split; [exact Hy | constructor; [exact Hyx | constructor]].
Qed.

Lemma order_by_timestamp_desc_descending (l : list SensorReading) :
  descending (DbQueries.order_by_timestamp_desc l).
Proof.
  unfold descending, DbQueries.order_by_timestamp_desc.
  pose proof (order_by_timestamp_asc_ascending l) as Hs. unfold ascending in Hs.
  induction Hs as [| x s Hs IH Hx]; cbn; [constructor |].
  apply StronglySorted_snoc; [exact IH |].
  apply Forall_rev. exact Hx.
Qed.

Lemma order_by_timestamp_desc_perm (l : list SensorReading) :
  DbQueries.order_by_timestamp_desc l ≡ₚ l.
Proof.
  unfold DbQueries.order_by_timestamp_desc.
  rewrite <- Permutation_rev. apply order_by_timestamp_asc_perm.
Qed.

Lemma StronglySorted_take_drop {A : Type} (R : A -> A -> Prop) (n : nat)
    (l : list A) :
  StronglySorted R l ->
  StronglySorted R (take n l)
  /\ forall x y, x ∈ take n l -> y ∈ drop n l -> R x y.
Proof.
  intros Hs. revert n. induction Hs as [| a l Hs IH Ha]; intros n.
  - rewrite take_nil, drop_nil. split; [constructor |].
    intros x y Hx. apply elem_of_nil in Hx. destruct Hx.
  - destruct n as [| n]; cbn.
    + split; [constructor |]. intros x y Hx. apply elem_of_nil in Hx.
      destruct Hx.
    + destruct (IH n) as [Ht Hd].
      assert (Hin : forall z, z ∈ take n l \/ z ∈ drop n l -> z ∈ l).
      { intros z Hz. rewrite <- (take_drop n l). apply elem_of_app. exact Hz. }
      rewrite Forall_forall in Ha. split.
      * constructor; [exact Ht |].
        rewrite Forall_forall. intros z Hz. apply Ha, Hin. now left.
      * intros x y Hx Hy. apply elem_of_cons in Hx as [-> | Hx].
        -- apply Ha, Hin. now right.
        -- apply Hd; assumption.
Qed.

(** X1.  [get_readings_in_range] returns normally without touching the
    process state; its rows are exactly the stored readings whose time lies
    in the closed interval (each once), oldest first.  So no row outside the
    interval is ever returned, and an interval with [start > end] gives the
    empty list. *)
Theorem get_readings_in_range_exact (start_time end_time : Z) (w : World) :
  exists rows : list SensorReading,
    DbQueries.get_readings_in_range start_time end_time w = (Returned rows, w)
    /\ ascending rows
    /\ rows ≡ₚ filter (fun r => (start_time <= sr_timestamp r
                                 /\ sr_timestamp r <= end_time)%Z)
                 (sensor_readings (db w))
    /\ (forall x, x ∈ rows <->
                  x ∈ sensor_readings (db w)
                  /\ (start_time <= sr_timestamp x <= end_time)%Z)
    /\ ((end_time < start_time)%Z -> rows = []).
Proof.
  eexists. split; [reflexivity |].
  split; [apply order_by_timestamp_asc_ascending |].
  split; [apply order_by_timestamp_asc_perm |].
  split.
  - intros x. rewrite order_by_timestamp_asc_perm, list_elem_of_filter. tauto.
  - intros Hlt. apply Permutation_nil_r.
    rewrite order_by_timestamp_asc_perm.
    induction (sensor_readings (db w)) as [| x l IH]; [reflexivity |].
    rewrite filter_cons. destruct (decide _) as [[? ?] | _]; [lia | exact IH].
Qed.

Lemma get_readings_in_range_exact_witness :
  exists rows : list SensorReading,
    DbQueries.get_readings_in_range 1500 2500 sample_world
      = (Returned rows, sample_world)
    /\ rows = [sample_row 2 2000].
Proof.
  destruct (get_readings_in_range_exact 1500 2500 sample_world)
    as (rows & E & _).
  exists rows. split; [exact E |].
  vm_compute in E. now injection E as <-.
Defined.




(** X3.  [get_latest_reading] returns [None] exactly when no reading is
    stored; otherwise it returns a stored reading whose time is the greatest
    in the table.  The process state is not touched. *)
Theorem get_latest_reading_newest (w : World) :
  exists latest : option SensorReading,
    DbQueries.get_latest_reading w = (Returned latest, w)
    /\ (latest = None <-> sensor_readings (db w) = [])
    /\ (forall x, latest = Some x ->
          x ∈ sensor_readings (db w)
          /\ forall y, y ∈ sensor_readings (db w) ->
                       (sr_timestamp y <= sr_timestamp x)%Z).
Proof.
  eexists. split; [reflexivity |].
  set (table := sensor_readings (db w)).
  pose proof (order_by_timestamp_desc_descending table) as Hd.
  pose proof (order_by_timestamp_desc_perm table) as Hp.
  unfold DbQueries.sql_limit. cbn.
  destruct (DbQueries.order_by_timestamp_desc table) as [| a l] eqn:E.
  - split.
    + split; [intros _ | reflexivity].
      apply Permutation_nil_l in Hp. now symmetry.
    + discriminate.
  - cbn. split.
    + split; [discriminate |]. intros Hnil. rewrite Hnil in Hp.
      apply Permutation_nil_r in Hp. discriminate.
    + intros x [= <-]. split; [rewrite <- Hp; now left |].
      intros y Hy. rewrite <- Hp in Hy.
      apply elem_of_cons in Hy as [-> | Hy]; [lia |].
      unfold descending in Hd. apply StronglySorted_inv in Hd as [_ Ha].
      rewrite Forall_forall in Ha. apply Ha, Hy.
Qed.

Section StoreWrites.
Context `{Library}.

Lemma insert_sensor_reading_cases (data : gmap string pyval) (w : World) :
  (exists e, DbManager.insert_sensor_reading data w =
     (Raised e,
      mkWorld (db w) (client w)
        (logs w ++ [mkLog LERROR "Error inserting sensor reading"])
        (clock w)))
  \/ (exists row : SensorReading,
        sr_id row = (sensor_seq (db w) + 1)%Z
        /\ DbManager.insert_sensor_reading data w =
           (Returned (sensor_seq (db w) + 1)%Z,
            mkWorld
              (mkDatabase (sensor_readings (db w) ++ [row])
                 (sensor_seq (db w) + 1) (visual_predictions (db w))
                 (fusion_decisions (db w)))
              (client w)
              (logs w ++ [mkLog LDEBUG "Inserted sensor reading with ID"])
              (clock w))).
Proof.
  unfold DbManager.insert_sensor_reading, try_except, mbind, M_bind,
    DbManager.getitem, DbManager.execute_insert_sensor.
  destruct (data !! "timestamp") as [ts |]; [| left; eexists; reflexivity].
  cbn [mret M_ret].
  destruct (parse_timestamp_cases ts w) as [[e ->] | [t ->]];
    [left; eexists; reflexivity |].
  destruct (json_dumps _); [| left; eexists; reflexivity].
  cbn [mret M_ret].
  destruct (data !! "device_id") as [dev |]; [| left; eexists; reflexivity].
  destruct (data !! "temperature"); [| left; eexists; reflexivity].
  destruct (data !! "humidity"); [| left; eexists; reflexivity].
  destruct (data !! "mq135_co2"); [| left; eexists; reflexivity].
  destruct (data !! "mq136_h2s"); [| left; eexists; reflexivity].
  destruct (data !! "mq137_nh3"); [| left; eexists; reflexivity].
  destruct (data !! "quality_level"); [| left; eexists; reflexivity].
  cbn [mret M_ret].
  destruct (omap _ _); [| left; eexists; reflexivity].
  destruct (existsb _ _); [left; eexists; reflexivity |].
  unfold mbind, M_bind, get_db. cbn beta iota.
  destruct (_ <=? _)%Z; [left; eexists; reflexivity |].
  right. eexists. split; [| reflexivity]. reflexivity.
Qed.

Lemma store_ok_append (d : Database) (row : SensorReading) :
  store_ok d -> sr_id row = (sensor_seq d + 1)%Z ->
  Forall (fun x => (sr_id x < sr_id row)%Z) (sensor_readings d)
  /\ store_ok (mkDatabase (sensor_readings d ++ [row]) (sensor_seq d + 1)
                 (visual_predictions d) (fusion_decisions d)).
Proof.
  intros [Hs Hb] Hid.
  assert (Hlt : Forall (fun x => (sr_id x < sr_id row)%Z) (sensor_readings d)).
  { eapply Forall_impl; [exact Hb |]. cbn. intros x Hx. lia. }
  split; [exact Hlt |]. split; cbn.
  - apply StronglySorted_snoc; assumption.
  - apply Forall_app. split.
    + eapply Forall_impl; [exact Hb |]. cbn. intros x Hx. lia.
    + constructor; [lia | constructor].
Qed.

(** X4.  [insert_sensor_reading] is all or nothing.  Either it raises: then
    the store is exactly as before and the error has been logged before it
    is re-raised.  Or it returns the new identifier: that is the counter
    plus one, larger than every identifier in the table; the new row is
    appended last, the other two tables are untouched, and identifiers
    still grow along the table below the counter. *)
Theorem insert_sensor_reading_all_or_nothing (data : gmap string pyval)
    (w : World) :
  store_ok (db w) ->
  let r := DbManager.insert_sensor_reading data w in
  (exists e, r.1 = Raised e
             /\ db r.2 = db w
             /\ logs r.2 =
                  (logs w ++ [mkLog LERROR "Error inserting sensor reading"])%list)
  \/ (exists row : SensorReading,
        r.1 = Returned (sensor_seq (db w) + 1)%Z
        /\ sr_id row = (sensor_seq (db w) + 1)%Z
        /\ sensor_readings (db r.2) = (sensor_readings (db w) ++ [row])%list
        /\ Forall (fun x => (sr_id x < sr_id row)%Z) (sensor_readings (db w))
        /\ visual_predictions (db r.2) = visual_predictions (db w)
        /\ fusion_decisions (db r.2) = fusion_decisions (db w)
        /\ store_ok (db r.2)).
Proof.
  intros Hok. cbv zeta.
  destruct (insert_sensor_reading_cases data w) as [[e ->] | (row & Hid & ->)].
  - left. exists e. repeat split.
  - right. exists row. cbn [fst snd db].
    destruct (store_ok_append (db w) row Hok Hid) as [Hlt Hok'].
    repeat split; try assumption; apply Hok'.
Qed.

(** X5.  Identifiers are not reused after a purge: when [delete_all_data]
    is followed by an insertion that succeeds, the identifier it returns is
    larger than every identifier the table held before the purge. *)
Theorem purge_then_insert_fresh (data : gmap string pyval) (w : World)
    (i : Z) :
  store_ok (db w) ->
  (DbManager.insert_sensor_reading data (DbQueries.delete_all_data w).2).1
    = Returned i ->
  Forall (fun x => (sr_id x < i)%Z) (sensor_readings (db w)).
Proof.
  intros [_ Hb] Hret.
  destruct (insert_sensor_reading_cases data (DbQueries.delete_all_data w).2)
    as [[e E] | (row & Hid & E)]; rewrite E in Hret; [discriminate |].
  cbn in Hret. injection Hret as <-.
  eapply Forall_impl; [exact Hb |]. cbn. intros x Hx. lia.
Qed.

End StoreWrites.

Lemma store_ok_sample : store_ok sample_db.
Proof.
  split; cbn.
  - repeat constructor; cbn; lia.
  - repeat constructor; cbn; lia.
Qed.

Lemma insert_sensor_reading_all_or_nothing_witness :
  (DbManager.insert_sensor_reading
     (reading_dict 5000 (PNum 4) (PNum 70) (PNum 500) (PNum 6) (PNum 16)
        (PStr "GOOD"))
     sample_world).1 = Returned 3%Z
  /\ store_ok
       (db (DbManager.insert_sensor_reading
              (reading_dict 5000 (PNum 4) (PNum 70) (PNum 500) (PNum 6)
                 (PNum 16) (PStr "GOOD"))
              sample_world).2).
Proof.
  destruct (insert_sensor_reading_all_or_nothing
              (reading_dict 5000 (PNum 4) (PNum 70) (PNum 500) (PNum 6)
                 (PNum 16) (PStr "GOOD"))
              sample_world store_ok_sample)
    as [(e & E & _) | (row & E & _ & _ & _ & _ & _ & Hok)].
  - vm_compute in E. discriminate E.
  - split; [exact E | exact Hok].
Defined.

Lemma purge_then_insert_fresh_witness :
  Forall (fun x => (sr_id x < 3)%Z) (sensor_readings sample_db).
Proof.
  apply (purge_then_insert_fresh
           (reading_dict 5000 (PNum 4) (PNum 70) (PNum 500) (PNum 6)
              (PNum 16) (PStr "GOOD"))
           sample_world 3 store_ok_sample).
  reflexivity.
Defined.

Lemma filter_idem {A : Type} (P : A -> Prop) `{forall x, Decision (P x)}
    (l : list A) :
  filter P (filter P l) = filter P l.
Proof.
  induction l as [| x l IH]; [reflexivity |].
  rewrite (filter_cons P x l). destruct (decide (P x)) as [Hx | Hx].
  - rewrite filter_cons. destruct (decide (P x)); [| contradiction].
    now rewrite IH.
  - exact IH.
Qed.

(** X6.  With a positive retention whose cut-off [now - retention] is a
    representable date, [cleanup_old_data] returns normally and keeps, in
    each of the three tables, exactly the rows at or after the cut-off, in
    their order: a row is never deleted unless it is older than the
    cut-off.  The identifier counter is untouched, and running the cleanup
    again at the same instant deletes nothing more. *)
Theorem cleanup_old_data_cutoff (retention_days : Z) (w : World) :
  (0 < retention_days <= DbManager.TIMEDELTA_MAX_DAYS)%Z ->
  (DbManager.DATETIME_MIN <= clock w - retention_days * DbManager.DAY)%Z ->
  let cutoff := (clock w - retention_days * DbManager.DAY)%Z in
  let r := DbManager.cleanup_old_data (Some retention_days) w in
  r.1 = Returned tt
  /\ sensor_readings (db r.2) =
       filter (fun x => (cutoff <= sr_timestamp x)%Z) (sensor_readings (db w))
  /\ visual_predictions (db r.2) =
       filter (fun x => (cutoff <= vp_timestamp x)%Z)
         (visual_predictions (db w))
  /\ fusion_decisions (db r.2) =
       filter (fun x => (cutoff <= fd_timestamp x)%Z)
         (fusion_decisions (db w))
  /\ (forall x, x ∈ sensor_readings (db w) -> (cutoff <= sr_timestamp x)%Z ->
                x ∈ sensor_readings (db r.2))
  /\ (forall x, x ∈ sensor_readings (db r.2) -> (cutoff <= sr_timestamp x)%Z)
  /\ sensor_seq (db r.2) = sensor_seq (db w)
  /\ clock r.2 = clock w
  /\ db (DbManager.cleanup_old_data (Some retention_days) r.2).2 = db r.2.
Proof.
  intros [Hpos Hmax] Hmin. cbv zeta.
  assert (Hrun : forall w0 : World,
    clock w0 = clock w ->
    DbManager.cleanup_old_data (Some retention_days) w0 =
    (Returned tt,
     mkWorld
       (mkDatabase
          (filter (fun x => (clock w - retention_days * DbManager.DAY
                             <= sr_timestamp x)%Z) (sensor_readings (db w0)))
          (sensor_seq (db w0))
          (filter (fun x => (clock w - retention_days * DbManager.DAY
                             <= vp_timestamp x)%Z) (visual_predictions (db w0)))
          (filter (fun x => (clock w - retention_days * DbManager.DAY
                             <= fd_timestamp x)%Z) (fusion_decisions (db w0))))
       (client w0) (logs w0 ++ [mkLog LINFO "Cleanup completed"]) (clock w0))).
  { intros w0 Hc. unfold DbManager.cleanup_old_data.
    change (default Config.DB_RETENTION_DAYS (Some retention_days))
      with retention_days.
    destruct (Z.leb_spec retention_days 0) as [? | _]; [lia |].
    unfold mbind, M_bind, try_except. cbn [datetime_now]. rewrite Hc.
    destruct (Z.ltb_spec DbManager.TIMEDELTA_MAX_DAYS retention_days)
      as [? | _]; [lia |].
    destruct (Z.ltb_spec (clock w - retention_days * DbManager.DAY)
                DbManager.DATETIME_MIN) as [? | _]; [lia |].
    cbn. rewrite Hc. reflexivity. }
  rewrite (Hrun w eq_refl). cbn [fst snd db sensor_readings
    visual_predictions fusion_decisions sensor_seq clock].
  repeat (split; [reflexivity |]).
  split; [intros x Hx Hc; apply list_elem_of_filter; now split |].
  split; [intros x Hx; now apply list_elem_of_filter in Hx |].
  repeat (split; [reflexivity |]).
  rewrite Hrun by reflexivity. cbn. now rewrite !filter_idem.
Qed.

Lemma cleanup_old_data_cutoff_witness :
  let r := DbManager.cleanup_old_data (Some 90%Z) sample_world in
  r.1 = Returned tt /\ sensor_readings (db r.2) = [sample_row 2 2000].
Proof.
  destruct (cleanup_old_data_cutoff 90 sample_world) as (A & B & _).
  - unfold DbManager.TIMEDELTA_MAX_DAYS. lia.
  - vm_compute. discriminate.
  - split; [exact A |]. rewrite B. vm_compute. reflexivity.
Defined.

(** X7.  [cleanup_old_data] is not exception free: a retention above
    999999999 days is more than [timedelta] can hold, and a cut-off before
    year 1 is more than [datetime] can hold; both are computed before the
    [try], so the [OverflowError] leaves the function, with the store, the
    log and the clock as they were. *)
Theorem cleanup_old_data_overflow (retention_days : Z) (w : World) :
  (0 < retention_days)%Z ->
  (DbManager.TIMEDELTA_MAX_DAYS < retention_days
   \/ clock w - retention_days * DbManager.DAY < DbManager.DATETIME_MIN)%Z ->
  DbManager.cleanup_old_data (Some retention_days) w
  = (Raised OverflowError, w).
Proof.
  intros Hpos Hbig. unfold DbManager.cleanup_old_data.
  change (default Config.DB_RETENTION_DAYS (Some retention_days))
    with retention_days.
  destruct (Z.leb_spec retention_days 0) as [? | _]; [lia |].
  unfold mbind, M_bind. cbn [datetime_now].
  destruct (Z.ltb_spec DbManager.TIMEDELTA_MAX_DAYS retention_days);
    [reflexivity |].
  destruct (Z.ltb_spec (clock w - retention_days * DbManager.DAY)
              DbManager.DATETIME_MIN); [reflexivity | lia].
Qed.

Lemma cleanup_old_data_overflow_witness :
  DbManager.cleanup_old_data (Some 1000000000%Z) sample_world
  = (Raised OverflowError, sample_world).
Proof.
  apply cleanup_old_data_overflow; [lia |].
  left. unfold DbManager.TIMEDELTA_MAX_DAYS. lia.
Defined.

(* --------------------------------------------------------------------- *)
(** ** Bus Client: what a message can do *)
(* --------------------------------------------------------------------- *)

Section Messages.
Context `{Library}.

Lemma on_message_unfold (msg : MqttClientSimple.MQTTMessage) (w : World) :
  MqttClientSimple._on_message msg w =
  match utf8_decode (MqttClientSimple.msg_payload msg) with
  | None =>
      (Returned tt,
       mkWorld (db w) (client w)
         (logs w ++ [mkLog LERROR "Error processing MQTT message"]) (clock w))
  | Some text =>
      let w1 :=
        mkWorld (db w) (client w)
          (logs w ++ [mkLog LDEBUG "Received message on topic"]) (clock w) in
      let w2 :=
        if String.eqb (MqttClientSimple.msg_topic msg) (topic (client w))
        then (MqttClientSimple._process_sensor_data text w1).2
        else if String.eqb (MqttClientSimple.msg_topic msg)
                  Config.MQTT_STATUS_TOPIC
        then (log LINFO "Device status" w1).2
        else if String.eqb (MqttClientSimple.msg_topic msg)
                  Config.MQTT_LWT_TOPIC
        then (log LWARNING "Device LWT" w1).2
        else w1 in
      let w3 :=
        mkWorld (db w2)
          (mkSimpleMQTTClient (topic (client w2)) (connected (client w2))
             (Some text) (on_message_callback (client w2)))
          (logs w2) (clock w2) in
      match on_message_callback (client w2) with
      | Some callback =>
          match callback (MqttClientSimple.msg_topic msg) text with
          | Some e =>
              (Returned tt,
               mkWorld (db w3) (client w3)
                 (logs w3 ++ [mkLog LERROR "Error processing MQTT message"])
                 (clock w3))
          | None => (Returned tt, w3)
          end
      | None => (Returned tt, w3)
      end
  end.
Proof.
  unfold MqttClientSimple._on_message, try_except, mbind, M_bind.
  destruct (utf8_decode (MqttClientSimple.msg_payload msg)) as [text |];
    [| reflexivity].
  cbn [mret M_ret log get_self client fst snd].
  destruct (String.eqb (MqttClientSimple.msg_topic msg) (topic (client w))).
  - pose proof (process_sensor_data_any_payload text
      (mkWorld (db w) (client w)
         (logs w ++ [mkLog LDEBUG "Received message on topic"]) (clock w)))
      as [Hret _].
    cbv zeta in Hret.
    destruct (MqttClientSimple._process_sensor_data text _) as [o w2].
    cbn [fst] in Hret. subst o. cbv zeta. cbn [snd get_self put_self].
    destruct (on_message_callback (client w2)) as [callback |];
      [| reflexivity].
    destruct (callback _ text); reflexivity.
  - destruct (String.eqb _ Config.MQTT_STATUS_TOPIC);
      [| destruct (String.eqb _ Config.MQTT_LWT_TOPIC)];
      cbv zeta;
      cbn [mret M_ret raise log get_self put_self client db logs clock
             fst snd];
      (destruct (on_message_callback (client w)) as [callback |];
       [destruct (callback _ text) |]; reflexivity).
Qed.

Lemma process_sensor_data_cases (payload : string) (w : World) :
  exists new_logs : list LogRecord,
    MqttClientSimple._process_sensor_data payload w =
      (Returned tt,
       mkWorld (db w) (client w) (logs w ++ new_logs) (clock w))
    \/ exists row : SensorReading,
         sr_id row = (sensor_seq (db w) + 1)%Z
         /\ device_id row = PStr "ESP32-Sensor"
         /\ MqttClientSimple._process_sensor_data payload w =
            (Returned tt,
             mkWorld
               (mkDatabase (sensor_readings (db w) ++ [row])
                  (sensor_seq (db w) + 1) (visual_predictions (db w))
                  (fusion_decisions (db w)))
               (client w) (logs w ++ new_logs) (clock w)).
Proof.
  destruct (process_sensor_data_outcomes payload w)
    as [(before & t & E) | (data & _ & _ & E)]; rewrite E.
  - eexists. left. reflexivity.
  - eexists. right. eexists.
    split; [| split; [| reflexivity]]; reflexivity.
Qed.

(** X8.  With no message callback registered,
    [SimpleMQTTClient._on_message] contains every fault and bounds its own
    effect: whatever the message and the library's answers, it returns
    normally, the log only grows, and the store is either unchanged or has
    gained exactly one row, appended last with the device id
    "ESP32-Sensor".  A message on any topic other than the telemetry topic
    never changes the store. *)
Theorem on_message_contained (msg : MqttClientSimple.MQTTMessage)
    (w : World) :
  on_message_callback (client w) = None ->
  let r := MqttClientSimple._on_message msg w in
  r.1 = Returned tt
  /\ (exists new_logs, logs r.2 = (logs w ++ new_logs)%list)
  /\ (db r.2 = db w
      \/ exists row : SensorReading,
           sensor_readings (db r.2) = (sensor_readings (db w) ++ [row])%list
           /\ device_id row = PStr "ESP32-Sensor"
           /\ visual_predictions (db r.2) = visual_predictions (db w)
           /\ fusion_decisions (db r.2) = fusion_decisions (db w))
  /\ (MqttClientSimple.msg_topic msg <> topic (client w) -> db r.2 = db w).
Proof.
  intros Hcb. cbv zeta. rewrite on_message_unfold.
  destruct (utf8_decode (MqttClientSimple.msg_payload msg)) as [text |].
  2:{ cbn. split; [reflexivity |]. split; [eauto |]. split; [now left |].
      reflexivity. }
  cbv zeta.
  destruct (String.eqb_spec (MqttClientSimple.msg_topic msg) (topic (client w)))
    as [Et | Nt].
  - destruct (process_sensor_data_cases text
      (mkWorld (db w) (client w)
         (logs w ++ [mkLog LDEBUG "Received message on topic"]) (clock w)))
      as [new [E | (row & Hid & Hdev & E)]]; rewrite E; clear E;
      cbn [fst snd db client logs clock on_message_callback topic connected];
      rewrite Hcb;
      cbn [fst snd db client logs clock sensor_readings visual_predictions
             fusion_decisions];
      (split; [reflexivity |]);
      (split; [rewrite <- ?app_assoc; eauto |]);
      (split; [| intros N; contradiction]);
      first [now left | right; exists row; repeat split; assumption].
  - destruct (String.eqb _ Config.MQTT_STATUS_TOPIC);
      [| destruct (String.eqb _ Config.MQTT_LWT_TOPIC)];
      cbn [log fst snd db client logs clock on_message_callback];
      rewrite Hcb;
      cbn [fst snd db client logs clock];
      (split; [reflexivity |]);
      (split; [rewrite <- ?app_assoc; eauto |]);
      (split; [now left | reflexivity]).
Qed.

Lemma on_message_client_after (msg : MqttClientSimple.MQTTMessage)
    (w : World) :
  let r := MqttClientSimple._on_message msg w in
  match utf8_decode (MqttClientSimple.msg_payload msg) with
  | Some text =>
      client r.2 =
        mkSimpleMQTTClient (topic (client w)) (connected (client w))
          (Some text) (on_message_callback (client w))
  | None => client r.2 = client w
  end
  /\ clock r.2 = clock w.
Proof.
  cbv zeta. rewrite on_message_unfold.
  destruct (utf8_decode (MqttClientSimple.msg_payload msg)) as [text |];
    [| split; reflexivity].
  cbv zeta.
  destruct (String.eqb (MqttClientSimple.msg_topic msg) (topic (client w))).
  - destruct (process_sensor_data_cases text
      (mkWorld (db w) (client w)
         (logs w ++ [mkLog LDEBUG "Received message on topic"]) (clock w)))
      as [new [E | (row & Hid & Hdev & E)]]; rewrite E; clear E;
      cbn [fst snd db client logs clock on_message_callback topic connected];
      (destruct (on_message_callback (client w)) as [callback |];
       [destruct (callback _ text) |]); split; reflexivity.
  - destruct (String.eqb _ Config.MQTT_STATUS_TOPIC);
      [| destruct (String.eqb _ Config.MQTT_LWT_TOPIC)];
      cbn [log fst snd db client logs clock on_message_callback];
      (destruct (on_message_callback (client w)) as [callback |];
       [destruct (callback _ text) |]); split; reflexivity.
Qed.

(** X9.  With no message callback registered, every message whose bytes
    decode leaves its text in [last_message], on whatever topic it arrived
    and whether or not it parsed or was stored; the topic and the
    connection flag of the client are not changed.  A message whose bytes
    do not decode leaves the client as it was. *)
Theorem on_message_last_message (msg : MqttClientSimple.MQTTMessage)
    (w : World) :
  on_message_callback (client w) = None ->
  let r := MqttClientSimple._on_message msg w in
  match utf8_decode (MqttClientSimple.msg_payload msg) with
  | Some text =>
      client r.2 =
        mkSimpleMQTTClient (topic (client w)) (connected (client w))
          (Some text) None
  | None => client r.2 = client w
  end
  /\ clock r.2 = clock w.
Proof.
  intros Hcb. pose proof (on_message_client_after msg w) as Hafter.
  cbv zeta in *. rewrite Hcb in Hafter. exact Hafter.
Qed.

Lemma on_message_telemetry_db (msg : MqttClientSimple.MQTTMessage)
    (text : string) (data : pyval) (w : World) :
  MqttClientSimple.msg_topic msg = topic (client w) ->
  utf8_decode (MqttClientSimple.msg_payload msg) = Some text ->
  json_loads text = Some data ->
  telemetry_shape data = true ->
  (sensor_seq (db w) < DbManager.INT64_MAX)%Z ->
  db (MqttClientSimple._on_message msg w).2 =
  mkDatabase
    (sensor_readings (db w)
     ++ [telemetry_row data (sensor_seq (db w) + 1) (clock w)])
    (sensor_seq (db w) + 1) (visual_predictions (db w))
    (fusion_decisions (db w)).
Proof.
  intros Et Ed El Hshape Hseq. rewrite on_message_unfold, Ed. cbv zeta.
  rewrite Et, String.eqb_refl.
  destruct data as [| | | | | | | | | d]; try discriminate Hshape.
  destruct (process_sensor_data_run text d
              (mkWorld (db w) (client w)
                 (logs w ++ [mkLog LDEBUG "Received message on topic"])
                 (clock w)) El Hshape Hseq) as [Hok ->].
  rewrite insert_sensor_reading_ok by (first [exact Hok | exact Hseq]).
  cbn [fst snd db client logs clock on_message_callback].
  destruct (on_message_callback (client w)) as [callback |];
    [destruct (callback _ text) |]; reflexivity.
Qed.

(** X10.  Nothing is de-duplicated: with no message callback registered
    and a store as AUTOINCREMENT keeps it, with identifiers to spare, the
    same well-formed telemetry message handled twice, whatever the wall
    clock reads at the second delivery, stores two rows under two
    consecutive identifiers, equal in every column but the identifier and
    the time of arrival. *)
Theorem on_message_duplicate_stored_twice
    (msg : MqttClientSimple.MQTTMessage) (text : string) (data : pyval)
    (w : World) (later : Z) :
  on_message_callback (client w) = None ->
  store_ok (db w) ->
  (sensor_seq (db w) + 1 < DbManager.INT64_MAX)%Z ->
  MqttClientSimple.msg_topic msg = topic (client w) ->
  utf8_decode (MqttClientSimple.msg_payload msg) = Some text ->
  json_loads text = Some data ->
  telemetry_shape data = true ->
  let w1 := (MqttClientSimple._on_message msg w).2 in
  let w2 := (MqttClientSimple._on_message msg (at_time later w1)).2 in
  sensor_readings (db w2) =
    (sensor_readings (db w)
     ++ [telemetry_row data (sensor_seq (db w) + 1) (clock w);
         telemetry_row data (sensor_seq (db w) + 2) later])%list
  /\ sensor_seq (db w2) = (sensor_seq (db w) + 2)%Z.
Proof.
  intros _ _ Hseq Et Ed El Hshape. cbv zeta.
  pose proof (on_message_client_after msg w) as [Hc _].
  cbv zeta in Hc. rewrite Ed in Hc.
  assert (Hseq0 : (sensor_seq (db w) < DbManager.INT64_MAX)%Z) by lia.
  pose proof (on_message_telemetry_db msg text data w Et Ed El Hshape Hseq0)
    as E1.
  rewrite (on_message_telemetry_db msg text data (at_time later _));
    try assumption.
  - cbn [at_time db clock]. rewrite E1.
    cbn [sensor_readings sensor_seq]. rewrite <- app_assoc.
    replace (sensor_seq (db w) + 1 + 1)%Z with (sensor_seq (db w) + 2)%Z
      by lia.
    split; reflexivity.
  - cbn [at_time client]. rewrite Hc. exact Et.
  - cbn [at_time db]. rewrite E1. cbn [sensor_seq]. lia.
Qed.

(** X11.  The standalone subscriber and the dashboard's client store the
    same thing: started from the same process state (the client listening
    on the configured telemetry topic, no message callback registered),
    their [_on_message] leave the same store for every message. *)
Theorem subscriber_stores_like_client (msg : MqttClientSimple.MQTTMessage)
    (w : World) :
  on_message_callback (client w) = None ->
  topic (client w) = Config.MQTT_TOPIC ->
  db (MqttSubscriber._on_message msg w).2 =
  db (MqttClientSimple._on_message msg w).2.
Proof.
  intros Hcb Et. rewrite on_message_unfold, Et.
  unfold MqttSubscriber._on_message, try_except, mbind, M_bind.
  destruct (utf8_decode (MqttClientSimple.msg_payload msg)) as [text |];
    [| reflexivity].
  cbv zeta. cbn [mret M_ret log].
  change (MqttSubscriber._process_sensor_data text)
    with (MqttClientSimple._process_sensor_data text).
  destruct (String.eqb (MqttClientSimple.msg_topic msg) Config.MQTT_TOPIC).
  - destruct (process_sensor_data_cases text
      (mkWorld (db w) (client w)
         (logs w ++ [mkLog LDEBUG "Received message on topic"]) (clock w)))
      as [new [E | (row & Hid & Hdev & E)]]; rewrite E; clear E;
      cbn [fst snd db client logs clock on_message_callback];
      rewrite Hcb; reflexivity.
  - destruct (String.eqb _ Config.MQTT_STATUS_TOPIC);
      [| destruct (String.eqb _ Config.MQTT_LWT_TOPIC)];
      cbn [mret M_ret log fst snd db client logs clock on_message_callback];
      rewrite Hcb; reflexivity.
Qed.

(** X12.  The threaded client of mqtt_client.py stores nothing: its
    [_on_message] calls a method the class does not have, so a message on
    its telemetry topic ends in the handler's [except] with an error
    logged, the store as it was, and the registered callback not called
    (the outcome is the one without a callback). *)
Theorem threaded_on_message_drops_telemetry (self_topic : string)
    (callback : option (string -> string -> M unit))
    (msg : MqttClientSimple.MQTTMessage) (w : World) :
  MqttClientSimple.msg_topic msg = self_topic ->
  let r := MqttClientMessages._on_message self_topic callback msg w in
  r.1 = Returned tt
  /\ db r.2 = db w
  /\ r = MqttClientMessages._on_message self_topic None msg w
  /\ exists before,
       logs r.2 =
         (logs w ++ before
          ++ [mkLog LERROR "Error processing MQTT message"])%list.
Proof.
  intros Et. cbv zeta.
  unfold MqttClientMessages._on_message, try_except, mbind, M_bind.
  rewrite Et, String.eqb_refl.
  destruct (utf8_decode (MqttClientSimple.msg_payload msg)) as [text |].
  - cbn. repeat split.
    exists [mkLog LDEBUG "Received message on topic"].
    rewrite <- app_assoc. reflexivity.
  - cbn. repeat split. exists []. reflexivity.
Qed.

End Messages.

Lemma on_message_contained_witness :
  (MqttClientSimple._on_message telemetry_message sample_world).1
  = Returned tt.
Proof.
  destruct (on_message_contained telemetry_message sample_world)
    as (A & _); [reflexivity | exact A].
Defined.

Lemma on_message_last_message_witness :
  last_message
    (client (MqttClientSimple._on_message telemetry_message sample_world).2)
  = Some partial_payload.
Proof.
  destruct (on_message_last_message telemetry_message sample_world)
    as [A _]; [reflexivity |].
  cbv zeta in A.
  change (utf8_decode (MqttClientSimple.msg_payload telemetry_message))
    with (Some partial_payload) in A.
  cbv beta iota in A. rewrite A. reflexivity.
Defined.

Lemma on_message_duplicate_stored_twice_witness :
  length
    (sensor_readings
       (db (MqttClientSimple._on_message telemetry_message
              (at_time 7777777000000
                 (MqttClientSimple._on_message telemetry_message
                    sample_world).2)).2)) = 4
  /\ sensor_seq
       (db (MqttClientSimple._on_message telemetry_message
              (at_time 7777777000000
                 (MqttClientSimple._on_message telemetry_message
                    sample_world).2)).2) = 4%Z.
Proof.
  destruct (on_message_duplicate_stored_twice telemetry_message
              partial_payload
              (PDict (<["sensors" :=
                          PDict (<["mq136_h2s" := PNum 12.5]> ∅)]> ∅))
              sample_world 7777777000000) as [A B];
    try reflexivity; [apply store_ok_sample |].
  split; [rewrite A; reflexivity | exact B].
Defined.

Lemma subscriber_stores_like_client_witness :
  db (MqttSubscriber._on_message telemetry_message sample_world).2 =
  db (MqttClientSimple._on_message telemetry_message sample_world).2.
Proof. apply subscriber_stores_like_client; reflexivity. Defined.

Lemma threaded_on_message_drops_telemetry_witness :
  db (MqttClientMessages._on_message Config.MQTT_TOPIC
        (Some (fun _ _ => put_db (mkDatabase [] 0 [] [])))
        telemetry_message sample_world).2 = sample_db.
Proof.
  destruct (threaded_on_message_drops_telemetry Config.MQTT_TOPIC
              (Some (fun _ _ => put_db (mkDatabase [] 0 [] [])))
              telemetry_message sample_world) as (_ & B & _).
  - reflexivity.
  - exact B.
Defined.
(* --------------------------------------------------------------------- *)
(** ** Bus Client: a stopped client stays stopped *)
(* --------------------------------------------------------------------- *)

Lemma attempts_emit (l : level) (t : string) (c : MqttClient.MQTTClient) :
  t <> "Attempting to connect to MQTT broker..." ->
  attempts (MqttClient.emit l t c) = attempts c.
Proof.
  intros Ht. unfold attempts, MqttClient.emit. cbn [MqttClient.logged].
  rewrite filter_app, length_app, filter_cons, filter_nil. cbn [text].
  destruct (decide _) as [E | _]; [contradiction | cbn; lia].
Qed.

Lemma attempts_emit_attempt (l : level) (c : MqttClient.MQTTClient) :
  attempts (MqttClient.emit l "Attempting to connect to MQTT broker..." c)
  = S (attempts c).
Proof.
  unfold attempts, MqttClient.emit. cbn [MqttClient.logged].
  rewrite filter_app, length_app, filter_cons, filter_nil. cbn [text].
  destruct (decide _) as [_ | N]; [cbn; lia | destruct N; reflexivity].
Qed.

(** While [keep_running] is false, the announcements made plus the threads
    that have yet to make the one of their iteration never grow. *)
Lemma stopped_schedule (i : nat) (r : MqttClient.connect_result)
    (c : MqttClient.MQTTClient) :
  MqttClient.keep_running c = false ->
  MqttClient.keep_running (MqttClient._run i r c) = false
  /\ attempts (MqttClient._run i r c)
     + MqttClient.count_threads before_announce (MqttClient._run i r c)
     <= attempts c + MqttClient.count_threads before_announce c.
Proof.
  intros K. unfold MqttClient._run.
  destruct (MqttClient.threads c !! i) as [t |] eqn:Et; [| split; [exact K | lia]].
  assert (Hset : forall t' c0,
            MqttClient.threads c0 = MqttClient.threads c ->
            MqttClient.count_threads before_announce
              (MqttClient.set_thread i t' c0)
            + (if before_announce t then 1 else 0)
            = MqttClient.count_threads before_announce c
              + (if before_announce t' then 1 else 0)).
  { intros t' c0 E0. unfold MqttClient.count_threads, MqttClient.set_thread.
    cbn [MqttClient.threads]. rewrite E0.
    apply count_insert. exact Et. }
  assert (Hat : forall t' c0,
            attempts (MqttClient.set_thread i t' c0) = attempts c0)
    by reflexivity.
  rewrite K.
  destruct t as [| [] |];
    destruct (MqttClient.connected c), (MqttClient._loop_started c), r;
    try (split; [exact K | lia]);
    (split; [first [exact K | reflexivity] |]);
    rewrite Hat, ?attempts_emit_attempt, ?attempts_emit by discriminate;
    match goal with
    | |- context [MqttClient.set_thread i ?t' ?c0] =>
        pose proof (Hset t' c0 eq_refl) as Hc;
        cbn [before_announce] in Hc;
        unfold attempts in *; cbn [MqttClient.logged] in *; lia
    end.
Qed.

Lemma stopped_step (c : MqttClient.MQTTClient) (e : MqttClient.event) :
  MqttClient.keep_running c = false ->
  MqttClient.keep_running (MqttClient.step c e) = false
  /\ attempts (MqttClient.step c e)
     + MqttClient.count_threads before_announce (MqttClient.step c e)
     <= attempts c + MqttClient.count_threads before_announce c.
Proof.
  intros K.
  destruct e as [| raised | raised | r | rc | | i r]; cbn [MqttClient.step].
  - unfold MqttClient.start. destruct (MqttClient._started c);
      (split; [exact K |]);
      rewrite attempts_emit by discriminate; [reflexivity |].
    unfold attempts, MqttClient.count_threads.
    cbn [MqttClient.emit MqttClient.threads MqttClient.logged].
    rewrite filter_app, length_app.
    change (length (filter (fun t => before_announce t = true)
                      [MqttClient.Spawned])) with 0.
    rewrite Nat.add_0_r. reflexivity.
  - unfold MqttClient.stop, MqttClient.teardown. destruct raised;
      (split; [reflexivity |]);
      rewrite attempts_emit by discriminate; reflexivity.
  - unfold MqttClient.disconnect, MqttClient.teardown. destruct raised;
      (split; [reflexivity |]);
      rewrite attempts_emit by discriminate; reflexivity.
  - unfold MqttClient.connect. destruct r; cbn [snd];
      (split; [exact K |]).
    + change (attempts (MqttClient.emit LINFO "MQTT connected!"
                (MqttClient.emit LINFO "Connecting to MQTT broker" c))
              + MqttClient.count_threads before_announce c
              <= attempts c + MqttClient.count_threads before_announce c).
      rewrite !attempts_emit by discriminate. reflexivity.
    + rewrite !attempts_emit by discriminate. reflexivity.
    + rewrite !attempts_emit by discriminate. reflexivity.
  - unfold MqttClient._on_connect. destruct rc; (split; [exact K |]).
    + change (attempts
                (MqttClient.emit LINFO "Subscribed to topics"
                   (MqttClient.emit LINFO "Connected to MQTT broker" c))
              + MqttClient.count_threads before_announce c
              <= attempts c + MqttClient.count_threads before_announce c).
      rewrite !attempts_emit by discriminate. reflexivity.
    + rewrite !attempts_emit by discriminate. reflexivity.
  - unfold MqttClient._on_disconnect. split; [exact K |].
    change (attempts
              (MqttClient.emit LWARNING
                 "Disconnected from MQTT broker unexpectedly" c)
            + MqttClient.count_threads before_announce c
            <= attempts c + MqttClient.count_threads before_announce c).
    rewrite !attempts_emit by discriminate. reflexivity.
  - apply stopped_schedule. exact K.
Qed.

(** X13.  A stopped client cannot be restarted.  [keep_running] is set to
    true only by the constructor, so after [stop] it stays false through
    every later call, callback and statement of a thread, [start]
    included.  A thread that then reaches the loop condition leaves the
    loop and changes nothing else.  Only the threads that had passed the
    condition before [stop] and not yet announced the attempt of their
    iteration may still do so, once each: however long the client lives,
    no more attempts are announced than there were such threads. *)
Theorem stopped_client_stays_stopped (before after : list MqttClient.event)
    (raised : bool) :
  let c := MqttClient.run (before ++ [MqttClient.CallStop raised])%list in
  let c' := MqttClient.run (before ++ MqttClient.CallStop raised :: after)%list in
  MqttClient.keep_running c' = false
  /\ attempts c' <= attempts c + MqttClient.count_threads before_announce c
  /\ (forall (i : nat) (r : MqttClient.connect_result)
             (t : MqttClient.thread_state),
        MqttClient.threads c' !! i = Some t ->
        at_condition t = true ->
        MqttClient._run i r c' = MqttClient.set_thread i MqttClient.Exited c').
Proof.
  cbv zeta. unfold MqttClient.run.
  replace (before ++ MqttClient.CallStop raised :: after)%list
    with ((before ++ [MqttClient.CallStop raised]) ++ after)%list
    by (rewrite <- app_assoc; reflexivity).
  rewrite (fold_left_app _ (before ++ [MqttClient.CallStop raised])%list after).
  set (c := fold_left MqttClient.step
              (before ++ [MqttClient.CallStop raised])%list
              MqttClient.__init__).
  assert (K : MqttClient.keep_running c = false).
  { unfold c. rewrite fold_left_app. cbn [fold_left MqttClient.step].
    unfold MqttClient.stop, MqttClient.teardown. destruct raised; reflexivity. }
  clearbody c.
  assert (Hinv : MqttClient.keep_running (fold_left MqttClient.step after c)
                 = false
                 /\ attempts (fold_left MqttClient.step after c)
                    + MqttClient.count_threads before_announce
                        (fold_left MqttClient.step after c)
                    <= attempts c
                       + MqttClient.count_threads before_announce c).
  { revert c K.
    induction after as [| e es IH]; intros c K;
      [split; [exact K | reflexivity] |].
    cbn [fold_left].
    destruct (stopped_step c e K) as (K' & A').
    destruct (IH _ K') as [K'' A'']. split; [exact K'' | lia]. }
  destruct Hinv as [K' A']. split; [exact K' |]. split; [lia |].
  intros i r t Ht Hat. unfold MqttClient._run. rewrite Ht, K'.
  destruct t as [| [] |]; try discriminate Hat; reflexivity.
Qed.

(** The bound is reached: a thread that passed the loop condition just
    before [stop] still announces its attempt after it. *)
Example stopped_client_late_attempt :
  let es :=
    [MqttClient.CallStart; MqttClient.Schedule 0 MqttClient.ConnectRefused;
     MqttClient.CallStop false] in
  let later :=
    [MqttClient.Schedule 0 MqttClient.ConnectRefused;
     MqttClient.Schedule 0 MqttClient.ConnectRefused] in
  attempts (MqttClient.run es) = 0
  /\ attempts (MqttClient.run (es ++ later)) = 1.
Proof. vm_compute. split; reflexivity. Qed.

(* --------------------------------------------------------------------- *)
(** ** Fusion Engine: gas status, table and colours *)
(* --------------------------------------------------------------------- *)

Lemma Qle_bool_trans_r (a x y : Q) :
  (x <= y)%Q -> Qle_bool a x = true -> Qle_bool a y = true.
Proof.
  intros Hxy Hx. apply Qle_bool_iff. apply Qle_bool_iff in Hx.
  eapply Qle_trans; eauto.
Qed.

(** X14.  [determine_gas_status] is monotone: raising any of the three
    concentrations never lowers the status (LOW < HIGH < CRITICAL). *)
Theorem determine_gas_status_monotone (h2s nh3 co2 h2s' nh3' co2' : Q) :
  (h2s <= h2s')%Q -> (nh3 <= nh3')%Q -> (co2 <= co2')%Q ->
  gas_rank (MqttClientSimple.determine_gas_status h2s nh3 co2)
  <= gas_rank (MqttClientSimple.determine_gas_status h2s' nh3' co2').
Proof.
  intros Hh Hn Hc. unfold MqttClientSimple.determine_gas_status.
  pose proof (Qle_bool_trans_r Config.H2S_CRITICAL_THRESHOLD _ _ Hh) as A1.
  pose proof (Qle_bool_trans_r Config.NH3_CRITICAL_THRESHOLD _ _ Hn) as A2.
  pose proof (Qle_bool_trans_r Config.CO2_CRITICAL_THRESHOLD _ _ Hc) as A3.
  pose proof (Qle_bool_trans_r Config.H2S_WARNING_THRESHOLD _ _ Hh) as A4.
  pose proof (Qle_bool_trans_r Config.NH3_WARNING_THRESHOLD _ _ Hn) as A5.
  pose proof (Qle_bool_trans_r Config.CO2_WARNING_THRESHOLD _ _ Hc) as A6.
  destruct (Qle_bool Config.H2S_CRITICAL_THRESHOLD h2s);
  destruct (Qle_bool Config.NH3_CRITICAL_THRESHOLD nh3);
  destruct (Qle_bool Config.CO2_CRITICAL_THRESHOLD co2);
  destruct (Qle_bool Config.H2S_WARNING_THRESHOLD h2s);
  destruct (Qle_bool Config.NH3_WARNING_THRESHOLD nh3);
  destruct (Qle_bool Config.CO2_WARNING_THRESHOLD co2);
  try rewrite (A1 eq_refl); try rewrite (A2 eq_refl);
  try rewrite (A3 eq_refl); try rewrite (A4 eq_refl);
  try rewrite (A5 eq_refl); try rewrite (A6 eq_refl);
  clear A1 A2 A3 A4 A5 A6;
  repeat match goal with
  | |- context [Qle_bool ?a ?b] => destruct (Qle_bool a b)
  end; cbn; lia.
Qed.

Lemma determine_gas_status_monotone_witness :
  gas_rank (MqttClientSimple.determine_gas_status 5 15 450)
  <= gas_rank (MqttClientSimple.determine_gas_status 60 15 450).
Proof.
  apply determine_gas_status_monotone; unfold Qle; cbn; lia.
Defined.

(** X15.  [map_quality_level] never answers CRITICAL (its answers are SAFE,
    WARNING and SPOILED), so the reconciliation block ends in CRITICAL
    exactly when the fused status already was CRITICAL, whatever the mode
    and the label. *)
Theorem reconciliation_critical_only_from_fusion
    (data_mode label fused color : string) :
  MqttClientSimple.map_quality_level label <> "CRITICAL"
  /\ ((App.fusion_reconciliation data_mode label (fused, color)).1
        = "CRITICAL"
      <-> fused = "CRITICAL").
Proof.
  rewrite map_quality_level_table. split.
  - destruct (external_level label) eqn:E; try discriminate.
    unfold external_level in E.
    destruct (_ || _); [discriminate |]. destruct (_ || _); [discriminate |].
    destruct (String.eqb label "SPOILED"); discriminate.
  - unfold App.fusion_reconciliation. rewrite map_quality_level_table.
    assert (Hlvl : external_level label <> CRITICAL).
    { unfold external_level.
      destruct (_ || _); [discriminate |]. destruct (_ || _); [discriminate |].
      destruct (String.eqb label "SPOILED"); discriminate. }
    destruct (String.eqb data_mode "mqtt" && negb (String.eqb label "UNKNOWN")).
    + destruct (String.eqb_spec fused "CRITICAL") as [-> | Nc].
      * rewrite Bool.orb_true_r. cbn. tauto.
      * destruct (external_level label); try contradiction; cbn;
          destruct (String.eqb fused "SPOILED"),
            (String.eqb fused "WARNING"); cbn;
          split; intros E; try discriminate E; try contradiction;
          try exact E.
    + cbn. tauto.
Qed.

(** X16.  The reconciliation block is idempotent: applied to its own
    result, with the same mode and label, it changes neither the status nor
    the colour. *)
Theorem fusion_reconciliation_idempotent
    (data_mode label : string) (fusion : string * string) :
  App.fusion_reconciliation data_mode label
    (App.fusion_reconciliation data_mode label fusion)
  = App.fusion_reconciliation data_mode label fusion.
Proof.
  destruct fusion as [fused color]. unfold App.fusion_reconciliation.
  rewrite map_quality_level_table.
  destruct (String.eqb data_mode "mqtt" && negb (String.eqb label "UNKNOWN"));
    [| reflexivity].
  destruct (external_level label);
    destruct (String.eqb fused "CRITICAL") eqn:E1,
      (String.eqb fused "SPOILED") eqn:E2,
      (String.eqb fused "WARNING") eqn:E3;
    cbn; rewrite ?E1, ?E2, ?E3; reflexivity.
Qed.

Lemma Qle_bool_Qeq_l (a b x : Q) : (a == b)%Q -> Qle_bool a x = Qle_bool b x.
Proof.
  intros E. destruct (Qle_bool b x) eqn:Hb.
  - apply Qle_bool_iff. apply Qle_bool_iff in Hb. now rewrite E.
  - destruct (Qle_bool a x) eqn:Ha; [| reflexivity].
    apply Qle_bool_iff in Ha. rewrite E in Ha.
    apply Qle_bool_iff in Ha. congruence.
Qed.

Lemma fusion_outcomes (visual : string) (gas : gmap string Q) :
  let fused := MockData.get_fusion_decision visual gas in
  (fused = ("WARNING", "#FFC107")
   /\ verdict_of visual = NoVerdict /\ gas_critical gas = false)
  \/ ((fused = ("CRITICAL", "#8B0000") \/ fused = ("SAFE", "#00AA00")
       \/ fused = ("WARNING", "#FF9800"))
      /\ (verdict_of visual <> NoVerdict \/ gas_critical gas = true)).
Proof.
  cbv zeta.
  unfold MockData.get_fusion_decision, verdict_of, gas_critical, h2s_of,
    methane_of.
  destruct (String.eqb visual "Rotten"), (String.eqb visual "Fresh"),
    (Qle_bool 50 _), (Qle_bool 100 _), (Qle_bool 10 _), (Qle_bool 25 _);
    cbn [orb andb negb];
    first [ left; repeat split; reflexivity
          | right; split;
            [ first [ left; reflexivity | right; left; reflexivity
                    | right; right; reflexivity ]
            | first [ right; reflexivity | left; discriminate ] ] ].
Qed.

(** X17.  After the reconciliation with a device label (MQTT mode, label
    other than "UNKNOWN") the colour shown is always the colour that
    [QUALITY_COLORS] gives the final status.  Before it, the fusion call
    returns the table colour too, except in its last branch: without a
    "Fresh"/"Rotten" verdict and without critical gas it returns WARNING
    with the yellow "#FFC107", which the table does not hold. *)
Theorem fusion_colour_table (visual label : string) (gas : gmap string Q) :
  label <> "UNKNOWN" ->
  let fused := MockData.get_fusion_decision visual gas in
  let final := App.fusion_reconciliation "mqtt" label fused in
  Config.QUALITY_COLORS !! final.1 = Some final.2
  /\ (Config.QUALITY_COLORS !! fused.1 = Some fused.2
      <-> verdict_of visual <> NoVerdict \/ gas_critical gas = true)
  /\ (verdict_of visual = NoVerdict -> gas_critical gas = false ->
      fused = ("WARNING", "#FFC107")).
Proof.
  intros N. cbv zeta.
  assert (Hrec : forall f,
    App.fusion_reconciliation "mqtt" label f =
    let '(fusion_status, fusion_color) := f in
    let esp_quality := severity_name (external_level label) in
    if String.eqb esp_quality "CRITICAL" || String.eqb fusion_status "CRITICAL"
    then ("CRITICAL", Config.QUALITY_COLORS !!! "CRITICAL")
    else if String.eqb esp_quality "SPOILED"
            || String.eqb fusion_status "SPOILED"
    then ("SPOILED", Config.QUALITY_COLORS !!! "SPOILED")
    else if String.eqb esp_quality "WARNING"
            || String.eqb fusion_status "WARNING"
    then ("WARNING", Config.QUALITY_COLORS !!! "WARNING")
    else (fusion_status, fusion_color)).
  { intros [fs fc]. unfold App.fusion_reconciliation.
    rewrite map_quality_level_table.
    destruct (String.eqb_spec label "UNKNOWN") as [? | _]; [contradiction |].
    reflexivity. }
  rewrite Hrec.
  destruct (fusion_outcomes visual gas)
    as [(-> & Hv & Hc) | ([-> | [-> | ->]] & Hcond)].
  - split; [destruct (external_level label); vm_compute; reflexivity |].
    split.
    + split; [intros E; vm_compute in E; discriminate E |].
      intros [E | E]; [contradiction | congruence].
    + reflexivity.
  - split; [destruct (external_level label); vm_compute; reflexivity |].
    split; [split; [intros _; exact Hcond | intros _; vm_compute; reflexivity]
           |].
    intros Hv Hc. destruct Hcond; [contradiction | congruence].
  - split; [destruct (external_level label); vm_compute; reflexivity |].
    split; [split; [intros _; exact Hcond | intros _; vm_compute; reflexivity]
           |].
    intros Hv Hc. destruct Hcond; [contradiction | congruence].
  - split; [destruct (external_level label); vm_compute; reflexivity |].
    split; [split; [intros _; exact Hcond | intros _; vm_compute; reflexivity]
           |].
    intros Hv Hc. destruct Hcond; [contradiction | congruence].
Qed.

Lemma fusion_colour_table_witness :
  Config.QUALITY_COLORS
    !! (App.fusion_reconciliation "mqtt" "GOOD"
          (MockData.get_fusion_decision "Unknown" ∅)).1
  = Some (App.fusion_reconciliation "mqtt" "GOOD"
            (MockData.get_fusion_decision "Unknown" ∅)).2.
Proof.
  destruct (fusion_colour_table "Unknown" "GOOD" ∅) as [A _];
    [discriminate | exact A].
Defined.

Lemma gas_readings_lookup (h2s nh3 co2 : Q) :
  Dashboard.gas_readings h2s nh3 co2 !! "h2s_ppm" = Some h2s
  /\ Dashboard.gas_readings h2s nh3 co2 !! "methane_ppm" = Some nh3.
Proof. unfold Dashboard.gas_readings. split; lookup_key; reflexivity. Qed.

Lemma dashboard_fusion_tests (visual : string) (h2s nh3 co2 : Q) :
  MockData.get_fusion_decision visual (Dashboard.gas_readings h2s nh3 co2) =
  let gas_critical := Qle_bool 50 h2s || Qle_bool 100 nh3 in
  let gas_warning := Qle_bool 10 h2s || Qle_bool 25 nh3 in
  if String.eqb visual "Rotten" || gas_critical then ("CRITICAL", "#8B0000")
  else if String.eqb visual "Fresh" && negb gas_warning
  then ("SAFE", "#00AA00")
  else if String.eqb visual "Fresh" && gas_warning
  then ("WARNING", "#FF9800")
  else ("WARNING", "#FFC107").
Proof.
  unfold MockData.get_fusion_decision.
  destruct (gas_readings_lookup h2s nh3 co2) as [-> ->].
  unfold from_option, Datatypes.id.
  destruct (String.eqb visual "Rotten"), (String.eqb visual "Fresh"),
    (Qle_bool 50 h2s), (Qle_bool 100 nh3), (Qle_bool 10 h2s),
    (Qle_bool 25 nh3); reflexivity.
Qed.

(** X18.  The H2S and NH3 gauges of the dashboard and the fusion verdict
    agree.  With a "Fresh" verdict the fused status is SAFE exactly when
    both gauges are green and CRITICAL exactly when one of them is red;
    and a red gauge means CRITICAL whatever the visual verdict.  The CO2
    reading takes no part. *)
Theorem gauges_agree_with_fusion (visual : string) (h2s nh3 co2 : Q) :
  let h2s_color := Dashboard.get_color h2s 10 50 in
  let nh3_color :=
    Dashboard.get_color nh3 Config.NH3_FRESH_THRESHOLD
      Config.NH3_WARNING_THRESHOLD in
  let status v :=
    (MockData.get_fusion_decision v (Dashboard.gas_readings h2s nh3 co2)).1 in
  (status "Fresh" = "SAFE"
   <-> h2s_color = "#00AA00" /\ nh3_color = "#00AA00")
  /\ (status "Fresh" = "CRITICAL"
      <-> h2s_color = "#FF0000" \/ nh3_color = "#FF0000")
  /\ (h2s_color = "#FF0000" \/ nh3_color = "#FF0000" ->
      status visual = "CRITICAL").
Proof.
  cbv beta zeta. rewrite !dashboard_fusion_tests. unfold Dashboard.get_color.
  rewrite (Qle_bool_Qeq_l Config.NH3_FRESH_THRESHOLD 25 nh3) by reflexivity.
  rewrite (Qle_bool_Qeq_l Config.NH3_WARNING_THRESHOLD 100 nh3)
    by reflexivity.
  assert (H1 : Qle_bool 50 h2s = true -> Qle_bool 10 h2s = true).
  { rewrite !Qle_bool_iff. intros. lra. }
  assert (H2 : Qle_bool 100 nh3 = true -> Qle_bool 25 nh3 = true).
  { rewrite !Qle_bool_iff. intros. lra. }
  destruct (Qle_bool 50 h2s); [rewrite (H1 eq_refl) |];
    (destruct (Qle_bool 100 nh3); [rewrite (H2 eq_refl) |]);
    clear H1 H2;
    destruct (String.eqb visual "Rotten"), (String.eqb visual "Fresh"),
      (Qle_bool 10 h2s), (Qle_bool 25 nh3); cbn;
    repeat split; intros; try discriminate; try reflexivity;
    try (left; reflexivity); try (right; reflexivity);
    repeat match goal with
    | E : _ /\ _ |- _ => destruct E
    | E : _ \/ _ |- _ => destruct E
    end; try discriminate.
Qed.

(** X19.  The fusion verdict never under-reports the gas panel on H2S and
    NH3: with CO2 below its 800 ppm boundary, whenever
    [determine_gas_status] is HIGH or CRITICAL the fused status is
    CRITICAL, for every visual verdict. *)
Theorem fusion_covers_gas_status (visual : string) (h2s nh3 co2 : Q) :
  (co2 < 800)%Q ->
  MqttClientSimple.determine_gas_status h2s nh3 co2 <> "LOW" ->
  (MockData.get_fusion_decision visual
     (Dashboard.gas_readings h2s nh3 co2)).1 = "CRITICAL".
Proof.
  intros Hco2 Hgas.
  destruct (determine_gas_status_bands h2s nh3 co2) as (_ & Hlow & _).
  cbv zeta in Hlow.
  assert (Hhigh : (50 <= h2s \/ 100 <= nh3)%Q).
  { destruct (Qlt_le_dec h2s 50) as [Hh | Hh]; [| now left].
    destruct (Qlt_le_dec nh3 100) as [Hn | Hn]; [| now right].
    exfalso. apply Hgas, Hlow. repeat split; assumption. }
  rewrite dashboard_fusion_tests. cbv zeta.
  assert (Hc : Qle_bool 50 h2s || Qle_bool 100 nh3 = true).
  { apply Bool.orb_true_iff. rewrite !Qle_bool_iff. exact Hhigh. }
  rewrite Hc, Bool.orb_true_r. reflexivity.
Qed.

Lemma fusion_covers_gas_status_witness :
  (MockData.get_fusion_decision "Fresh"
     (Dashboard.gas_readings 60 15 450)).1 = "CRITICAL".
Proof.
  apply fusion_covers_gas_status; [reflexivity | discriminate].
Defined.

(* --------------------------------------------------------------------- *)
(** ** Dashboard: history *)
(* --------------------------------------------------------------------- *)

Lemma last_snoc_drop {A : Type} (n : nat) (l : list A) (x : A) :
  n <= length l -> last (drop n (l ++ [x])) = Some x.
Proof.
  intros Hn. rewrite drop_app_le by exact Hn. apply last_snoc.
Qed.

(** X20.  A mock refresh keeps the history bounded and current: the new
    row is the last row (so it is what "current readings" shows), the
    history is the old one plus the new row with only the oldest rows cut,
    and it never holds more than [MAX_HISTORY_READINGS] rows. *)
Theorem mock_update_bounded (now : Z) (readings : Dashboard.MockReadings)
    (history : list Dashboard.HistoryRow) :
  let history' := Dashboard.mock_update now readings history in
  length history' =
    Nat.min Dashboard.MAX_HISTORY_READINGS (length history + 1)
  /\ (exists cut, (history ++ [Dashboard.current history'])%list
                  = (cut ++ history')%list)
  /\ Dashboard.h_timestamp (Dashboard.current history') = now
  /\ Dashboard.nh3_ppm (Dashboard.current history')
       = PNum (Dashboard.r_ammonia_ppm readings)
  /\ Dashboard.co2_ppm (Dashboard.current history')
       = PNum (Dashboard.r_methane_ppm readings)
  /\ Dashboard.h_quality_level (Dashboard.current history') = PStr "UNKNOWN".
Proof.
  cbv zeta. unfold Dashboard.mock_update, Dashboard.current.
  set (row := Dashboard.mkHistoryRow _ _ _ _ _ _ _).
  rewrite length_app. cbn [length].
  destruct (Nat.ltb_spec Dashboard.MAX_HISTORY_READINGS (length history + 1))
    as [Hgt | Hle].
  - unfold Dashboard.tail. rewrite length_app. cbn [length].
    rewrite last_snoc_drop
      by (unfold Dashboard.MAX_HISTORY_READINGS in *; lia).
    split; [rewrite length_drop, length_app; cbn [length]; lia |].
    split; [| repeat split].
    exists (take (length history + 1 - Dashboard.MAX_HISTORY_READINGS)
              (history ++ [row])).
    now rewrite take_drop.
  - rewrite last_snoc. split; [rewrite length_app; cbn [length]; lia |].
    split; [exists []; reflexivity | repeat split].
Qed.

(** X21.  A due MQTT refresh shows the newest stored readings: when the
    store is empty the history is left as it is; otherwise the history
    becomes the [min(50, count)] most recent stored readings, oldest
    first: they are rows of the store, each taken once, every stored row
    left out is no newer than every row shown, and the "current readings"
    row is the conversion of the very reading [get_latest_reading]
    returns.  The process state is not touched. *)
Theorem mqtt_update_shows_latest (history : list Dashboard.HistoryRow)
    (w : World) :
  exists history' : list Dashboard.HistoryRow,
    Dashboard.mqtt_update history w = (Returned history', w)
    /\ (sensor_readings (db w) = [] -> history' = history)
    /\ (sensor_readings (db w) <> [] ->
        exists (rows older : list SensorReading) (latest : SensorReading),
          history' = map Dashboard.history_row_of rows
          /\ ascending rows
          /\ length rows = Nat.min 50 (length (sensor_readings (db w)))
          /\ (rows ++ older)%list ≡ₚ sensor_readings (db w)
          /\ (forall x y, x ∈ older -> y ∈ rows ->
                          (sr_timestamp x <= sr_timestamp y)%Z)
          /\ DbQueries.get_latest_reading w = (Returned (Some latest), w)
          /\ Dashboard.current history' = Dashboard.history_row_of latest).
Proof.
  set (table := sensor_readings (db w)).
  set (desc := DbQueries.order_by_timestamp_desc table).
  pose proof (order_by_timestamp_desc_descending table) as Hd.
  pose proof (order_by_timestamp_desc_perm table) as Hp.
  fold desc in Hd, Hp.
  destruct (StronglySorted_take_drop _ 50 desc Hd) as [Ht Hcut].
  assert (E : DbQueries.get_recent_readings Dashboard.HISTORY_DISPLAY_COUNT w
              = (Returned (take 50 desc), w)).
  { unfold DbQueries.get_recent_readings, try_except, mbind, M_bind.
    cbn [get_db].
    change ((Dashboard.HISTORY_DISPLAY_COUNT <? DbQueries.INT64_MIN)%Z
            || (DbQueries.INT64_MAX <? Dashboard.HISTORY_DISPLAY_COUNT)%Z)
      with false.
    reflexivity. }
  assert (L : DbQueries.get_latest_reading w = (Returned (head desc), w)).
  { unfold DbQueries.get_latest_reading, try_except, mbind, M_bind.
    cbn [get_db mret M_ret]. fold table. fold desc.
    unfold DbQueries.sql_limit. change (1 <? 0)%Z with false.
    change (Z.to_nat 1) with 1%nat. destruct desc; reflexivity. }
  unfold Dashboard.mqtt_update, mbind, M_bind. rewrite E.
  assert (Hlen : length desc = length table) by (now rewrite Hp).
  destruct desc as [| newest rest] eqn:Edesc.
  - eexists. split; [reflexivity |]. split; [reflexivity |].
    intros Hne. exfalso. apply Hne. fold table.
    destruct table; [reflexivity | discriminate Hlen].
  - cbn [take]. eexists. split; [reflexivity |]. split.
    { intros Hnil. fold table in Hnil. rewrite Hnil in Hlen.
      discriminate Hlen. }
    intros _.
    exists (rev (newest :: take 49 rest)), (drop 49 rest), newest.
    split; [reflexivity |]. split.
    { unfold ascending. unfold descending in Ht. cbn [take] in Ht.
      clear - Ht.
      induction Ht as [| x s Hs IH Hx]; cbn; [constructor |].
      apply StronglySorted_snoc; [exact IH |].
      apply Forall_rev. exact Hx. }
    split.
    { rewrite length_rev. cbn [length]. rewrite length_take.
      fold table. rewrite <- Hlen. cbn [length]. lia. }
    split.
    { rewrite <- Permutation_rev. fold table. rewrite <- Hp.
      cbn [app]. now rewrite take_drop. }
    split.
    { intros x y Hx Hy. apply (Hcut y x); [| exact Hx].
      cbn [take]. rewrite <- Permutation_rev in Hy. exact Hy. }
    split; [exact L |].
    unfold Dashboard.current. cbn [rev]. rewrite map_app. cbn [map].
    now rewrite last_snoc.
Qed.

(* --------------------------------------------------------------------- *)
(** ** Decay Model: noise, ranges and growth *)
(* --------------------------------------------------------------------- *)

Lemma add_noise_range (value p r : R) :
  (0 <= value)%R -> (0 <= p <= 1)%R -> unit_draw r ->
  (value * (1 - p) <= MockSimulator._add_noise value p r <= value * (1 + p))%R.
Proof.
  intros Hv [Hp0 Hp1] [Hr0 Hr1].
  unfold MockSimulator._add_noise, MockSimulator.uniform.
  assert (Hpv : (0 <= p * value)%R) by (apply Rmult_le_pos; assumption).
  assert (Hprv : (0 <= p * value * r)%R) by (apply Rmult_le_pos; assumption).
  assert (Hprv1 : (p * value * r <= p * value)%R).
  { rewrite <- (Rmult_1_r (p * value)) at 2.
    apply Rmult_le_compat_l; [exact Hpv | lra]. }
  assert (Hv1 : (p * value <= value)%R).
  { rewrite <- (Rmult_1_l value) at 2.
    apply Rmult_le_compat_r; assumption. }
  replace (value + (- p + (p - - p) * r) * value)%R
    with (value - p * value + 2 * (p * value * r))%R by ring.
  replace (value * (1 - p))%R with (value - p * value)%R by ring.
  replace (value * (1 + p))%R with (value + p * value)%R by ring.
  rewrite Rmax_right by lra. split; lra.
Qed.

(** X22.  [_add_noise] never returns a negative reading, and for a
    non-negative value and a noise percentage between 0 and 1 the result
    stays within that percentage of the value. *)
Theorem add_noise_bounded (value noise_percentage r : R) :
  unit_draw r ->
  (0 <= MockSimulator._add_noise value noise_percentage r)%R
  /\ ((0 <= value)%R -> (0 <= noise_percentage <= 1)%R ->
      (value * (1 - noise_percentage)
       <= MockSimulator._add_noise value noise_percentage r
       <= value * (1 + noise_percentage))%R).
Proof.
  intros Hr. split.
  - unfold MockSimulator._add_noise. apply Rmax_l.
  - intros Hv Hp. apply add_noise_range; assumption.
Qed.

Lemma add_noise_bounded_witness :
  (0 <= MockSimulator._add_noise 10 0.08 0)%R
  /\ (10 * (1 - 0.08) <= MockSimulator._add_noise 10 0.08 0
      <= 10 * (1 + 0.08))%R.
Proof.
  destruct (add_noise_bounded 10 0.08 0) as [A B]; [unfold unit_draw; lra |].
  split; [exact A | apply B; lra].
Defined.

(** X23.  For every set point at which the temperature factor exists
    (below 10265 degrees), whatever the clock and the random draws,
    [update] returns and the readings it leaves are physically sane: the
    three gas levels are never negative and the humidity lies in
    [0, 100].  With a genuine draw the temperature is within 0.5 degrees of
    the set point. *)
Theorem update_ranges (now room_temp humidity : R)
    (d : MockSimulator.UpdateDraws) (self : MockSimulator.MeatDecaySimulator) :
  (room_temp < 10265)%R ->
  let r := MockSimulator.update now room_temp humidity d self in
  let s := r.2 in
  r.1 = Returned tt
  /\ (0 <= MockSimulator.current_h2s s)%R
  /\ (0 <= MockSimulator.current_methane s)%R
  /\ (0 <= MockSimulator.current_ammonia s)%R
  /\ (exists h, MockSimulator.current_humidity s = Some h
                /\ (0 <= h <= 100)%R)
  /\ (exists t, MockSimulator.current_temp s = Some t
                /\ (unit_draw (MockSimulator.r_temp d) ->
                    (room_temp - 0.5 <= t <= room_temp + 0.5)%R))
  /\ MockSimulator.start_time s = MockSimulator.start_time self
  /\ MockSimulator.time_elapsed s = (now - MockSimulator.start_time self)%R.
Proof.
  intros Ht. cbv zeta. unfold MockSimulator.update.
  destruct (temperature_factor_returns room_temp Ht) as (f & -> & _).
  cbn [fst snd MockSimulator.current_h2s MockSimulator.current_methane
         MockSimulator.current_ammonia MockSimulator.current_humidity
         MockSimulator.current_temp MockSimulator.start_time
         MockSimulator.time_elapsed].
  split; [reflexivity |].
  split; [apply Rmax_l |]. split; [apply Rmax_l |]. split; [apply Rmax_l |].
  split.
  - eexists. split; [reflexivity |]. split; [apply Rmax_l |].
    apply Rmax_lub; [lra | apply Rmin_l].
  - split; [| split; reflexivity].
    eexists. split; [reflexivity |]. intros [H0 H1].
    unfold MockSimulator.uniform. lra.
Qed.

Lemma update_ranges_witness :
  (MockSimulator.update 100 25 60 (MockSimulator.mkUpdateDraws 0 0 0 0 0)
     (MockSimulator.__init__ 0)).1 = Returned tt.
Proof.
  destruct (update_ranges 100 25 60 (MockSimulator.mkUpdateDraws 0 0 0 0 0)
              (MockSimulator.__init__ 0)) as (A & _); [lra | exact A].
Defined.

(** X24.  A reset brings the model back to its base levels: an [update] at
    the instant of the [reset] sees no elapsed time and returns each gas
    within its noise band of the base value (H2S 0.5 within 8%, methane 2.0
    within 6%, ammonia 1.0 within 5%), at every temperature at which
    [update] returns (below 10265 degrees). *)
Theorem reset_then_update_base (now room_temp humidity : R)
    (d : MockSimulator.UpdateDraws) (self : MockSimulator.MeatDecaySimulator) :
  (room_temp < 10265)%R ->
  unit_draws d ->
  let r :=
    MockSimulator.update now room_temp humidity d
      (MockSimulator.reset now self) in
  let s := r.2 in
  r.1 = Returned tt
  /\ MockSimulator.time_elapsed s = 0%R
  /\ (0.46 <= MockSimulator.current_h2s s <= 0.54)%R
  /\ (1.88 <= MockSimulator.current_methane s <= 2.12)%R
  /\ (0.95 <= MockSimulator.current_ammonia s <= 1.05)%R.
Proof.
  intros Ht (D1 & D2 & D3 & _). cbv zeta.
  unfold MockSimulator.update, MockSimulator.reset.
  destruct (temperature_factor_returns room_temp Ht) as (f & -> & _).
  cbn [fst snd MockSimulator.current_h2s MockSimulator.current_methane
         MockSimulator.current_ammonia MockSimulator.time_elapsed
         MockSimulator.start_time].
  replace (now - now)%R with 0%R by lra.
  split; [reflexivity |]. split; [reflexivity |].
  rewrite !Rmult_0_r, !Rplus_0_r.
  pose proof (add_noise_range MockSimulator.base_h2s 0.08 _
                ltac:(unfold MockSimulator.base_h2s; lra) ltac:(lra) D1) as B1.
  pose proof (add_noise_range MockSimulator.base_methane 0.06 _
                ltac:(unfold MockSimulator.base_methane; lra) ltac:(lra) D2)
    as B2.
  pose proof (add_noise_range MockSimulator.base_ammonia 0.05 _
                ltac:(unfold MockSimulator.base_ammonia; lra) ltac:(lra) D3)
    as B3.
  unfold MockSimulator.base_h2s, MockSimulator.base_methane,
    MockSimulator.base_ammonia in *.
  repeat split; lra.
Qed.

Lemma reset_then_update_base_witness :
  (0.46 <=
   MockSimulator.current_h2s
     (MockSimulator.update 100 25 60
        (MockSimulator.mkUpdateDraws 0 0 0 0 0)
        (MockSimulator.reset 100 (MockSimulator.__init__ 0))).2 <= 0.54)%R.
Proof.
  destruct (reset_then_update_base 100 25 60
              (MockSimulator.mkUpdateDraws 0 0 0 0 0)
              (MockSimulator.__init__ 0)) as (_ & _ & A & _).
  - lra.
  - unfold unit_draws, unit_draw. cbn. repeat split; lra.
  - exact A.
Defined.

Lemma decay_level_le (base rate scale f1 f2 e1 e2 : R) :
  (0 <= rate)%R -> (0 < scale)%R -> (0 <= f1 <= f2)%R -> (0 <= e1 <= e2)%R ->
  (base + rate * f1 * (1 + e1 / scale) * e1
   <= base + rate * f2 * (1 + e2 / scale) * e2)%R.
Proof.
  intros Hr Hs [Hf0 Hf] [He0 He].
  assert (Hi : (0 < / scale)%R) by (apply Rinv_0_lt_compat; exact Hs).
  unfold Rdiv.
  assert (K1 : (0 <= e1 * / scale)%R) by (apply Rmult_le_pos; lra).
  assert (K2 : (e1 * / scale <= e2 * / scale)%R)
    by (apply Rmult_le_compat_r; lra).
  assert (G1 : ((1 + e1 * / scale) * e1 <= (1 + e2 * / scale) * e2)%R)
    by (apply Rmult_le_compat; lra).
  assert (G0 : (0 <= (1 + e1 * / scale) * e1)%R)
    by (apply Rmult_le_pos; lra).
  assert (G2 : (rate * f1 <= rate * f2)%R)
    by (apply Rmult_le_compat_l; assumption).
  assert (G3 : (0 <= rate * f1)%R) by (apply Rmult_le_pos; assumption).
  rewrite !Rmult_assoc. rewrite <- !(Rmult_assoc rate).
  apply Rplus_le_compat_l.
  apply Rmult_le_compat; assumption.
Qed.

(** X25.  Spoilage only worsens with time and warmth: from the same
    simulator, an [update] taken later and at a temperature at least as
    high (and below 10265 degrees, so that both calls return) leaves gas
    levels at least as high, the noise set aside (draws at the middle of
    their interval). *)
Theorem update_monotone (now1 now2 temp1 temp2 hum1 hum2 : R)
    (d1 d2 : MockSimulator.UpdateDraws)
    (self : MockSimulator.MeatDecaySimulator) :
  (MockSimulator.start_time self <= now1 <= now2)%R ->
  (temp1 <= temp2)%R -> (temp2 < 10265)%R ->
  centred d1 -> centred d2 ->
  let r1 := MockSimulator.update now1 temp1 hum1 d1 self in
  let r2 := MockSimulator.update now2 temp2 hum2 d2 self in
  let s1 := r1.2 in
  let s2 := r2.2 in
  r1.1 = Returned tt /\ r2.1 = Returned tt
  /\ (MockSimulator.current_h2s s1 <= MockSimulator.current_h2s s2)%R
  /\ (MockSimulator.current_methane s1 <= MockSimulator.current_methane s2)%R
  /\ (MockSimulator.current_ammonia s1 <= MockSimulator.current_ammonia s2)%R
  /\ (MockSimulator.base_h2s <= MockSimulator.current_h2s s1)%R.
Proof.
  intros [Hs Hn] Ht Hlt (A1 & A2 & A3) (B1 & B2 & B3). cbv zeta.
  unfold MockSimulator.update.
  destruct (temperature_factor_returns temp1) as (f1 & E1 & _); [lra |].
  destruct (temperature_factor_returns temp2 Hlt) as (f2 & E2 & _).
  pose proof (temperature_factor_le temp1 temp2 f1 f2 Ht E1 E2) as [F1 F12].
  rewrite E1, E2.
  cbn [fst snd MockSimulator.current_h2s MockSimulator.current_methane
         MockSimulator.current_ammonia].
  split; [reflexivity |]. split; [reflexivity |].
  rewrite A1, A2, A3, B1, B2, B3.
  set (e1 := (now1 - MockSimulator.start_time self)%R).
  set (e2 := (now2 - MockSimulator.start_time self)%R).
  assert (He : (0 <= e1 <= e2)%R) by (unfold e1, e2; lra).
  assert (Hf : (0 <= f1 <= f2)%R) by lra.
  assert (Hnoise : forall v p, (0 <= v)%R ->
            MockSimulator._add_noise v p (1 / 2) = v).
  { intros v p Hv. unfold MockSimulator._add_noise, MockSimulator.uniform.
    replace (v + (- p + (p - - p) * (1 / 2)) * v)%R with v by lra.
    apply Rmax_right. exact Hv. }
  pose proof (decay_level_le MockSimulator.base_h2s
                MockSimulator.h2s_decay_rate 3600 f1 f2 e1 e2
                ltac:(unfold MockSimulator.h2s_decay_rate; lra) ltac:(lra)
                Hf He) as L1.
  pose proof (decay_level_le MockSimulator.base_methane
                MockSimulator.methane_decay_rate 3600 f1 f2 e1 e2
                ltac:(unfold MockSimulator.methane_decay_rate; lra)
                ltac:(lra) Hf He) as L2.
  pose proof (decay_level_le MockSimulator.base_ammonia
                MockSimulator.ammonia_decay_rate 7200 f1 f2 e1 e2
                ltac:(unfold MockSimulator.ammonia_decay_rate; lra)
                ltac:(lra) Hf He) as L3.
  pose proof (decay_level_le MockSimulator.base_h2s
                MockSimulator.h2s_decay_rate 3600 f1 f1 0 e1
                ltac:(unfold MockSimulator.h2s_decay_rate; lra) ltac:(lra)
                ltac:(lra) ltac:(lra)) as Z1.
  pose proof (decay_level_le MockSimulator.base_methane
                MockSimulator.methane_decay_rate 3600 f1 f1 0 e1
                ltac:(unfold MockSimulator.methane_decay_rate; lra)
                ltac:(lra) ltac:(lra) ltac:(lra)) as Z2.
  pose proof (decay_level_le MockSimulator.base_ammonia
                MockSimulator.ammonia_decay_rate 7200 f1 f1 0 e1
                ltac:(unfold MockSimulator.ammonia_decay_rate; lra)
                ltac:(lra) ltac:(lra) ltac:(lra)) as Z3.
  rewrite !Rmult_0_r, !Rplus_0_r in Z1, Z2, Z3.
  assert (P1 : (0 <= MockSimulator.base_h2s)%R)
    by (unfold MockSimulator.base_h2s; lra).
  assert (P2 : (0 <= MockSimulator.base_methane)%R)
    by (unfold MockSimulator.base_methane; lra).
  assert (P3 : (0 <= MockSimulator.base_ammonia)%R)
    by (unfold MockSimulator.base_ammonia; lra).
  rewrite !Hnoise by lra.
  repeat split; assumption.
Qed.

Lemma update_monotone_witness :
  (MockSimulator.current_h2s
     (MockSimulator.update 10 4 60
        (MockSimulator.mkUpdateDraws (1 / 2) (1 / 2) (1 / 2) 0 0)
        (MockSimulator.__init__ 0)).2
   <= MockSimulator.current_h2s
        (MockSimulator.update 20 25 60
           (MockSimulator.mkUpdateDraws (1 / 2) (1 / 2) (1 / 2) 0 0)
           (MockSimulator.__init__ 0)).2)%R.
Proof.
  destruct (update_monotone 10 20 4 25 60 60
              (MockSimulator.mkUpdateDraws (1 / 2) (1 / 2) (1 / 2) 0 0)
              (MockSimulator.mkUpdateDraws (1 / 2) (1 / 2) (1 / 2) 0 0)
              (MockSimulator.__init__ 0)) as (_ & _ & A & _).
  - cbn. lra.
  - lra.
  - lra.
  - repeat split.
  - repeat split.
  - exact A.
Defined.

(** X27.  From a (finite) set point of 10265 degrees on [update] raises
    [OverflowError], and not before having overwritten [time_elapsed]: the
    gas levels, the temperature and the humidity stay as the last
    successful call left them while the elapsed time, which the mock
    classifier reads, moves on. *)
Theorem update_overflow (now room_temp humidity : R)
    (d : MockSimulator.UpdateDraws) (self : MockSimulator.MeatDecaySimulator) :
  (10265 <= room_temp)%R ->
  let r := MockSimulator.update now room_temp humidity d self in
  r.1 = Raised OverflowError
  /\ MockSimulator.time_elapsed r.2 = (now - MockSimulator.start_time self)%R
  /\ MockSimulator.get_time_elapsed r.2
       = (now - MockSimulator.start_time self)%R
  /\ MockSimulator.start_time r.2 = MockSimulator.start_time self
  /\ MockSimulator.current_h2s r.2 = MockSimulator.current_h2s self
  /\ MockSimulator.current_methane r.2 = MockSimulator.current_methane self
  /\ MockSimulator.current_ammonia r.2 = MockSimulator.current_ammonia self
  /\ MockSimulator.current_temp r.2 = MockSimulator.current_temp self
  /\ MockSimulator.current_humidity r.2 = MockSimulator.current_humidity self.
Proof.
  intros Ht. cbv zeta. unfold MockSimulator.update.
  rewrite (temperature_factor_raises room_temp Ht). repeat split.
Qed.

Lemma update_overflow_witness :
  (MockSimulator.update 100 10265 60 (MockSimulator.mkUpdateDraws 0 0 0 0 0)
     (MockSimulator.__init__ 0)).1 = Raised OverflowError.
Proof.
  destruct (update_overflow 100 10265 60
              (MockSimulator.mkUpdateDraws 0 0 0 0 0)
              (MockSimulator.__init__ 0)) as (A & _); [lra | exact A].
Defined.

(** X26.  The mock classifier follows the simulator's clock: with no
    elapsed time (as right after a reset) it always answers "Fresh"; from
    0.95 hours of elapsed time on it answers "Rotten" exactly when its draw
    is below 0.95, so at least one answer in twenty stays "Fresh" however
    old the meat; and the confidence lies between 95 and 99.9. *)
Theorem predict_image_by_elapsed (simulator : MockSimulator.MeatDecaySimulator)
    (pick_first : bool) (r_rotten r_conf : R)
    (format_percent : R -> string) :
  unit_draw r_rotten -> unit_draw r_conf ->
  let p :=
    MockSimulator.predict_image simulator pick_first r_rotten r_conf
      format_percent in
  let elapsed := MockSimulator.time_elapsed simulator in
  ((elapsed <= 0)%R -> MockSimulator.visual_status p = "Fresh")
  /\ ((3420 <= elapsed)%R ->
      (MockSimulator.visual_status p = "Rotten" <-> (r_rotten < 0.95)%R))
  /\ ((0.95 <= r_rotten)%R -> MockSimulator.visual_status p = "Fresh")
  /\ (MockSimulator.visual_status p = "Fresh"
      \/ MockSimulator.visual_status p = "Rotten")
  /\ (95 <= MockSimulator.confidence_float p <= 99.9)%R
  /\ MockSimulator.visual_status
       (MockSimulator.predict_image (MockSimulator.reset 0 simulator)
          pick_first r_rotten r_conf format_percent) = "Fresh".
Proof.
  intros [Hr0 Hr1] [Hc0 Hc1]. cbv zeta.
  unfold MockSimulator.predict_image, MockSimulator.get_time_elapsed.
  cbn [MockSimulator.visual_status MockSimulator.confidence_float
         MockSimulator.reset MockSimulator.time_elapsed].
  set (e := MockSimulator.time_elapsed simulator).
  split; [| split; [| split; [| split; [| split]]]].
  - intros He. destruct (Rlt_dec _ _) as [Hlt | _]; [| reflexivity].
    exfalso. pose proof (Rmin_r 0.95 (e / 3600)). lra.
  - intros He. rewrite Rmin_left by lra.
    destruct (Rlt_dec r_rotten 0.95); split; intros; try reflexivity;
      try discriminate; try lra; contradiction.
  - intros Hr. destruct (Rlt_dec _ _) as [Hlt | _]; [| reflexivity].
    exfalso. pose proof (Rmin_l 0.95 (e / 3600)). lra.
  - destruct (Rlt_dec _ _); [now right | now left].
  - unfold MockSimulator.uniform. lra.
  - destruct (Rlt_dec _ _) as [Hlt | _]; [| reflexivity].
    exfalso. pose proof (Rmin_r 0.95 (0 / 3600)). lra.
Qed.

Lemma predict_image_by_elapsed_witness :
  MockSimulator.visual_status
    (MockSimulator.predict_image (MockSimulator.__init__ 0) true 0 0
       (fun _ => "95.0%")) = "Fresh".
Proof.
  destruct (predict_image_by_elapsed (MockSimulator.__init__ 0) true 0 0
              (fun _ => "95.0%")) as (A & _).
  - unfold unit_draw. lra.
  - unfold unit_draw. lra.
  - apply A. cbn. lra.
Defined.
